(** * Expense tracker: the relational store, its access guard and the CSV pipeline

    A shallow embedding of the data store hook [useAppData], of the guards
    the settings screen puts in front of it, and of the CSV export/import of
    [DataManagement], followed by the properties of the specification.

    Conventions of the embedding.
    - A React state update [setData(prev => ...)] is a function from the
      pending snapshot [prev] to the next one.  Functions of the hook that
      also read the rendered snapshot [data] take both; the sequential
      semantics of the store is the one where they coincide.
    - [crypto.randomUUID()] is an input of the operation that calls it: a
      single string, or the sequence [gen 0, gen 1, ...] of the values it
      returns when it is called in a loop.
    - JavaScript strings are modelled by [string] (code units below 256),
      [undefined] by [None]. *)

From Stdlib Require Import ZArith Ascii.
From Stdlib Require Import Numbers.DecimalString.
From stdpp Require Import base decidable option list gmap strings.

Local Open Scope Z_scope.

(** ** JavaScript primitives used by the sources *)

Module JS.

(** *** Strings *)

Definition isWhiteSpace (c : ascii) : bool :=
  match c with
  | "009" | "010" | "011" | "012" | "013" | " " | "160" => true
  | _ => false
  end%char.

Definition lowerChar (c : ascii) : ascii :=
  let n := nat_of_ascii c in
  if ((65 <=? n) && (n <=? 90))%nat then ascii_of_nat (n + 32)
  else if ((192 <=? n) && (n <=? 222) && negb (n =? 215))%nat
       then ascii_of_nat (n + 32)
  else c.

(** [s.toLowerCase()]: the letters A-Z and the upper-case letters of the
    Latin-1 block are the code units below 256 that it changes. *)
Fixpoint toLowerCase (s : string) : string :=
  match s with
  | EmptyString => EmptyString
  | String c r => String (lowerChar c) (toLowerCase r)
  end.

Fixpoint trimStart (s : string) : string :=
  match s with
  | EmptyString => EmptyString
  | String c r => if isWhiteSpace c then trimStart r else s
  end.

Definition trimEnd (s : string) : string :=
  String.rev (trimStart (String.rev s)).

(** [s.trim()]. *)
Definition trim (s : string) : string := trimEnd (trimStart s).

(** [s.split(sep)] for a one-character separator: never empty, the empty
    string splits into one empty piece. *)
Fixpoint split (sep : ascii) (s : string) : list string :=
  match s with
  | EmptyString => [EmptyString]
  | String c r =>
      if decide (c = sep) then EmptyString :: split sep r
      else match split sep r with
           | h :: t => String c h :: t
           | [] => [String c EmptyString]
           end
  end.

(** [l.join(sep)]. *)
Definition join (sep : string) (l : list string) : string :=
  String.concat sep l.

(** [l.includes(x)]. *)
Definition includes (x : string) (l : list string) : bool :=
  bool_decide (x ∈ l).

Definition dquote : ascii := "034"%char.

(** [s.replace(/q/g, qq)] where [q] is the double-quote character. *)
Fixpoint doubleQuotes (s : string) : string :=
  match s with
  | EmptyString => EmptyString
  | String c r =>
      if decide (c = dquote) then String c (String c (doubleQuotes r))
      else String c (doubleQuotes r)
  end.

(** [s.replace(/qq/g, q)]: pairs of double quotes are taken from the left,
    without overlap. *)
Fixpoint undoubleQuotes (s : string) : string :=
  match s with
  | String c1 ((String c2 r) as r1) =>
      if decide (c1 = dquote) then
        if decide (c2 = dquote) then String c1 (undoubleQuotes r)
        else String c1 (String c2 (undoubleQuotes r))
      else String c1 (undoubleQuotes r1)
  | _ => s
  end.

Definition dropLeadingQuote (s : string) : string :=
  match s with
  | String c r => if decide (c = dquote) then r else s
  | EmptyString => s
  end.

(** [s.replace(/^q|q$/g, '')]: one double quote off the front when there
    is one, then one off the end of what is left when there is one. *)
Definition stripQuotes (s : string) : string :=
  String.rev (dropLeadingQuote (String.rev (dropLeadingQuote s))).

(** *** Integers *)

(** [ToInt32]: the wrap-around of [x | 0] and of [x << n]. *)
Definition toInt32 (z : Z) : Z := (z + 2 ^ 31) mod 2 ^ 32 - 2 ^ 31.

Definition shl32 (z : Z) (n : Z) : Z := toInt32 (Z.shiftl (toInt32 z) n).

(** [n.toString()] for an integer-valued number. *)
Definition intToString (z : Z) : string :=
  NilEmpty.string_of_int (Z.to_int z).

(** *** Numbers

    A JavaScript number is modelled by the decimal it denotes: [Dec neg s e]
    is [(-1)^neg * s * 10^e], with [s] not a multiple of ten ([s = 0] only
    with [e = 0]).  These are the digits [Number::toString] prints and
    [parseFloat] reads; the rounding of a decimal to the nearest binary64
    is not part of the model. *)

Inductive number : Type :=
| NaN
| Infinity (negative : bool)
| Dec (negative : bool) (s : N) (e : Z).

Global Instance number_eq_dec : EqDecision number.
Proof. solve_decision. Defined.

Definition isNaN (x : number) : bool :=
  match x with NaN => true | _ => false end.

Definition isDigit (c : ascii) : bool :=
  let n := nat_of_ascii c in ((48 <=? n) && (n <=? 57))%nat.

Definition digitVal (c : ascii) : N := N.of_nat (nat_of_ascii c - 48).

Fixpoint spanDigits (s : string) : string * string :=
  match s with
  | String c r =>
      if isDigit c then let '(d, rest) := spanDigits r in (String c d, rest)
      else (EmptyString, s)
  | EmptyString => (EmptyString, EmptyString)
  end.

Fixpoint digitsValue (acc : N) (d : string) : N :=
  match d with
  | EmptyString => acc
  | String c r => digitsValue (10 * acc + digitVal c)%N r
  end.

Fixpoint normalize (fuel : nat) (s : N) (e : Z) : N * Z :=
  match fuel with
  | O => (s, e)
  | S f =>
      if (s =? 0)%N then (0%N, 0)
      else if (s mod 10 =? 0)%N then normalize f (s / 10)%N (e + 1)
      else (s, e)
  end.

Definition spanSign (s : string) : bool * string :=
  match s with
  | String "-" r => (true, r)
  | String "+" r => (false, r)
  | _ => (false, s)
  end.

Definition exponentPart (s : string) : Z :=
  match s with
  | String c r =>
      if decide (c = "e"%char \/ c = "E"%char) then
        let '(eneg, r1) := spanSign r in
        let '(ed, _) := spanDigits r1 in
        if decide (ed = EmptyString) then 0
        else let v := Z.of_N (digitsValue 0 ed) in if eneg then - v else v
      else 0
  | EmptyString => 0
  end.

(** [parseFloat(x)]: leading white space is skipped, the longest prefix
    that is a decimal literal is read, [NaN] when there is none (as for
    [undefined], which is first turned into the string "undefined"). *)
Definition parseFloat (x : option string) : number :=
  match x with
  | None => NaN
  | Some str =>
      let '(neg, u) := spanSign (trimStart str) in
      if String.prefix "Infinity" u then Infinity neg
      else
        let '(ip, r1) := spanDigits u in
        let '(fp, r2) :=
          match r1 with
          | String "." r => spanDigits r
          | _ => (EmptyString, r1)
          end in
        if decide (ip = EmptyString /\ fp = EmptyString) then NaN
        else
          let ds := ip +:+ fp in
          let '(s, e) :=
            normalize (String.length ds) (digitsValue 0 ds)
                      (exponentPart r2 - Z.of_nat (String.length fp)) in
          Dec neg s e
  end.

Fixpoint zeros (n : nat) : string :=
  match n with O => EmptyString | S k => String "0" (zeros k) end.

(** [Number::toString(x)] in radix 10. *)
Definition numberToString (x : number) : string :=
  match x with
  | NaN => "NaN"
  | Infinity neg => (if neg then "-" else "") +:+ "Infinity"
  | Dec _ 0%N _ => "0"
  | Dec neg s e =>
      let ds := NilEmpty.string_of_uint (N.to_uint s) in
      let k := Z.of_nat (String.length ds) in
      let n := e + k in
      let body :=
        if (k <=? n) && (n <=? 21) then ds +:+ zeros (Z.to_nat (n - k))
        else if (0 <? n) && (n <=? 21) then
          String.substring 0 (Z.to_nat n) ds +:+ "." +:+
          String.substring (Z.to_nat n) (Z.to_nat (k - n)) ds
        else if (-6 <? n) && (n <=? 0) then
          "0." +:+ zeros (Z.to_nat (- n)) +:+ ds
        else
          let ex := (if n - 1 <? 0 then "-" else "+") +:+
                    intToString (Z.abs (n - 1)) in
          if k =? 1 then ds +:+ "e" +:+ ex
          else String.substring 0 1 ds +:+ "." +:+
               String.substring 1 (Z.to_nat (k - 1)) ds +:+ "e" +:+ ex in
      (if neg then "-" else "") +:+ body
  end.

End JS.

(** ** Entity model (the type declarations of the repository)

    [TransactionType] and [PaymentMethod] are string enums that the CSV import
    fills by a cast from arbitrary text, so the fields that hold them are
    strings; [Role] only ever receives its two values. *)

Module TransactionType.
Definition INCOME : string := "income".
Definition EXPENSE : string := "expense".
End TransactionType.

Module PaymentMethod.
Definition CASH : string := "cash".
Definition CREDIT : string := "credit".
Definition BANK : string := "bank".
End PaymentMethod.

Inductive Role : Type := ADMIN | USER.

Global Instance Role_eq_dec : EqDecision Role.
Proof. solve_decision. Defined.

Module Attachment.
Record t : Type := mk
  { id : string; name : string; dataUrl : string; type : string }.
Global Instance eq_dec : EqDecision t.
Proof. solve_decision. Defined.
End Attachment.

(** [Omit<Transaction, 'id' | 'profileId'>]. *)
Module TransactionData.
Record t : Type := mk
  { type : string;
    amount : JS.number;
    description : string;
    date : string;
    categoryId : option string;
    sourceId : option string;
    paymentMethod : string;
    attachments : option (list Attachment.t) }.
Global Instance eq_dec : EqDecision t.
Proof. solve_decision. Defined.
End TransactionData.

(** [Omit<Transaction, 'id'>]. *)
Module NewTransaction.
Record t : Type := mk { profileId : string; data : TransactionData.t }.
Global Instance eq_dec : EqDecision t.
Proof. solve_decision. Defined.
End NewTransaction.

Module Transaction.
Record t : Type := mk
  { id : string; profileId : string; data : TransactionData.t }.
Global Instance eq_dec : EqDecision t.
Proof. solve_decision. Defined.
Definition type (x : t) : string := TransactionData.type (data x).
Definition amount (x : t) : JS.number := TransactionData.amount (data x).
Definition description (x : t) : string :=
  TransactionData.description (data x).
Definition date (x : t) : string := TransactionData.date (data x).
Definition categoryId (x : t) : option string :=
  TransactionData.categoryId (data x).
Definition sourceId (x : t) : option string :=
  TransactionData.sourceId (data x).
Definition paymentMethod (x : t) : string :=
  TransactionData.paymentMethod (data x).
End Transaction.

(** [Category] and [IncomeSource] have the same shape. *)
Module Category.
Record t : Type := mk
  { id : string; name : string; icon : string;
    isDefault : option bool; profileId : string }.
Global Instance eq_dec : EqDecision t.
Proof. solve_decision. Defined.
End Category.

Module IncomeSource.
Record t : Type := mk
  { id : string; name : string; icon : string;
    isDefault : option bool; profileId : string }.
Global Instance eq_dec : EqDecision t.
Proof. solve_decision. Defined.
End IncomeSource.

Module Currency.
Record t : Type := mk { code : string; symbol : string; name : string }.
Global Instance eq_dec : EqDecision t.
Proof. solve_decision. Defined.
End Currency.

Module Profile.
Record t : Type := mk
  { id : string; name : string; currencyCode : string; userId : string }.
Global Instance eq_dec : EqDecision t.
Proof. solve_decision. Defined.
End Profile.

Module User.
Record t : Type := mk
  { id : string; email : string; passwordHash : string; role : Role }.
Global Instance eq_dec : EqDecision t.
Proof. solve_decision. Defined.
End User.

Record AppData : Type := mkAppData
  { users : list User.t;
    profiles : list Profile.t;
    transactions : list Transaction.t;
    categories : list Category.t;
    incomeSources : list IncomeSource.t;
    currencies : list Currency.t }.

Global Instance AppData_eq_dec : EqDecision AppData.
Proof. solve_decision. Defined.

(** The object spreads [{...prev, field: v}]. *)
Definition with_users (prev : AppData) (v : list User.t) : AppData :=
  mkAppData v (profiles prev) (transactions prev) (categories prev)
            (incomeSources prev) (currencies prev).
Definition with_transactions (prev : AppData) (v : list Transaction.t)
  : AppData :=
  mkAppData (users prev) (profiles prev) v (categories prev)
            (incomeSources prev) (currencies prev).
Definition with_profiles (prev : AppData) (v : list Profile.t) : AppData :=
  mkAppData (users prev) v (transactions prev) (categories prev)
            (incomeSources prev) (currencies prev).
Definition with_categories (prev : AppData) (v : list Category.t) : AppData :=
  mkAppData (users prev) (profiles prev) (transactions prev) v
            (incomeSources prev) (currencies prev).
Definition with_incomeSources (prev : AppData) (v : list IncomeSource.t)
  : AppData :=
  mkAppData (users prev) (profiles prev) (transactions prev) (categories prev)
            v (currencies prev).
Definition with_currencies (prev : AppData) (v : list Currency.t) : AppData :=
  mkAppData (users prev) (profiles prev) (transactions prev) (categories prev)
            (incomeSources prev) v.


(** ** The relational store ([useAppData]) *)

(** Argument of [addUser]: [Omit<User, 'id' | 'role'>]. *)
Module NewUser.
Record t : Type := mk { email : string; passwordHash : string }.
End NewUser.

(** Argument of [addProfile]: [Omit<Profile, 'id' | 'userId'>]. *)
Module NewProfile.
Record t : Type := mk { name : string; currencyCode : string }.
End NewProfile.

(** Argument of [addCategory] and [addIncomeSource]. *)
Module NewItem.
Record t : Type := mk { name : string; icon : string }.
End NewItem.

(** An entry of [DEFAULT_CATEGORIES] or [DEFAULT_INCOME_SOURCES]: what the
    spread of a template leaves in a category once [id] and [profileId] are
    overwritten. *)
Module Template.
Record t : Type := mk
  { name : string; icon : string; isDefault : option bool }.
End Template.

Definition simpleHash (str : string) : string :=
  JS.intToString
    (fold_left
       (fun hash char =>
          JS.toInt32 (JS.shl32 hash 5 - hash + Z.of_nat (nat_of_ascii char)))
       (String.list_ascii_of_string str) 0).

Section Store.

(** The constants module of the repository is not part of the sources at
    hand; its three tables are parameters of the store. *)
Variable DEFAULT_CATEGORIES : list Template.t.
Variable DEFAULT_INCOME_SOURCES : list Template.t.
Variable DEFAULT_CURRENCIES : list Currency.t.

(** The snapshot the hook starts from when nothing was saved. *)
Definition initialData : AppData :=
  mkAppData [] [] [] [] [] DEFAULT_CURRENCIES.

Definition addUser (data prev : AppData) (user : NewUser.t) (uuid : string)
  : User.t * AppData :=
  let role := if decide (length (users data) = 0%nat) then ADMIN else USER in
  let newUser :=
    User.mk uuid (NewUser.email user) (NewUser.passwordHash user) role in
  (newUser, with_users prev (users prev ++ [newUser])).

Definition seedCategory (profileId : string) (uuid : string) (cat : Template.t)
  : Category.t :=
  Category.mk (profileId +:+ "-" +:+ uuid) (Template.name cat)
              (Template.icon cat) (Template.isDefault cat) profileId.

Definition seedIncomeSource (profileId : string) (uuid : string)
  (src : Template.t) : IncomeSource.t :=
  IncomeSource.mk (profileId +:+ "-" +:+ uuid) (Template.name src)
                  (Template.icon src) (Template.isDefault src) profileId.

(** [gen 0] is the identifier of the profile, the next ones are drawn by the
    map over the category templates, then by the map over the source
    templates. *)
Definition addProfile (prev : AppData) (userId : string)
  (profile : NewProfile.t) (gen : nat -> string) : Profile.t * AppData :=
  let newProfile :=
    Profile.mk (gen 0%nat) (NewProfile.name profile)
               (NewProfile.currencyCode profile) userId in
  let nc := length DEFAULT_CATEGORIES in
  let userCategories :=
    imap (fun i cat => seedCategory (Profile.id newProfile) (gen (1 + i)%nat) cat)
         DEFAULT_CATEGORIES in
  let userIncomeSources :=
    imap (fun i src =>
            seedIncomeSource (Profile.id newProfile) (gen (1 + nc + i)%nat) src)
         DEFAULT_INCOME_SOURCES in
  (newProfile,
   mkAppData (users prev)
             (profiles prev ++ [newProfile])
             (transactions prev)
             (categories prev ++ userCategories)
             (incomeSources prev ++ userIncomeSources)
             (currencies prev)).

Definition getProfilesForUser (data : AppData) (user : User.t)
  : list Profile.t :=
  filter (fun p => Profile.userId p = User.id user) (profiles data).

Definition addTransaction (prev : AppData) (transaction : NewTransaction.t)
  (uuid : string) : AppData :=
  let newTransaction :=
    Transaction.mk uuid (NewTransaction.profileId transaction)
                   (NewTransaction.data transaction) in
  with_transactions prev (transactions prev ++ [newTransaction]).

Definition addMultipleTransactions (prev : AppData)
  (txs : list NewTransaction.t) (gen : nat -> string) : AppData :=
  let newTransactions :=
    imap (fun i t =>
            Transaction.mk (gen i) (NewTransaction.profileId t)
                           (NewTransaction.data t)) txs in
  with_transactions prev (transactions prev ++ newTransactions).

Definition updateTransaction (prev : AppData)
  (updatedTransaction : Transaction.t) : AppData :=
  with_transactions prev
    (map (fun t =>
            if decide (Transaction.id t = Transaction.id updatedTransaction)
            then updatedTransaction else t)
         (transactions prev)).

Definition deleteTransaction (prev : AppData) (transactionId : string)
  : AppData :=
  with_transactions prev
    (filter (fun t => Transaction.id t <> transactionId) (transactions prev)).

Definition addCategory (prev : AppData) (profileId : string)
  (category : NewItem.t) (uuid : string) : AppData :=
  let newCategory :=
    Category.mk uuid (NewItem.name category) (NewItem.icon category)
                None profileId in
  with_categories prev (categories prev ++ [newCategory]).

Definition deleteCategory (prev : AppData) (categoryId : string) : AppData :=
  with_categories prev
    (filter (fun c => Category.id c <> categoryId) (categories prev)).

Definition addIncomeSource (prev : AppData) (profileId : string)
  (source : NewItem.t) (uuid : string) : AppData :=
  let newSource :=
    IncomeSource.mk uuid (NewItem.name source) (NewItem.icon source)
                    None profileId in
  with_incomeSources prev (incomeSources prev ++ [newSource]).

Definition deleteIncomeSource (prev : AppData) (sourceId : string) : AppData :=
  with_incomeSources prev
    (filter (fun s => IncomeSource.id s <> sourceId) (incomeSources prev)).

Definition addCurrency (prev : AppData) (currency : Currency.t) : AppData :=
  with_currencies prev (currencies prev ++ [currency]).

Definition deleteCurrency (prev : AppData) (currencyCode : string) : AppData :=
  with_currencies prev
    (filter (fun c => Currency.code c <> currencyCode) (currencies prev)).

Definition updateProfile (prev : AppData) (updatedProfile : Profile.t)
  : AppData :=
  with_profiles prev
    (map (fun p =>
            if decide (Profile.id p = Profile.id updatedProfile)
            then updatedProfile else p)
         (profiles prev)).

Definition deleteProfile (prev : AppData) (profileId : string) : AppData :=
  mkAppData (users prev)
    (filter (fun p => Profile.id p <> profileId) (profiles prev))
    (filter (fun t => Transaction.profileId t <> profileId) (transactions prev))
    (filter (fun c => Category.profileId c <> profileId) (categories prev))
    (filter (fun s => IncomeSource.profileId s <> profileId)
            (incomeSources prev))
    (currencies prev).

Definition deleteUser (prev : AppData) (userId : string) : AppData :=
  let profilesToDelete :=
    filter (fun p => Profile.userId p = userId) (profiles prev) in
  let profileIdsToDelete : gset string :=
    list_to_set (map Profile.id profilesToDelete) in
  mkAppData
    (filter (fun u => User.id u <> userId) (users prev))
    (filter (fun p => Profile.userId p <> userId) (profiles prev))
    (filter (fun t => Transaction.profileId t ∉ profileIdsToDelete)
            (transactions prev))
    (filter (fun c => Category.profileId c ∉ profileIdsToDelete)
            (categories prev))
    (filter (fun s => IncomeSource.profileId s ∉ profileIdsToDelete)
            (incomeSources prev))
    (currencies prev).

(** The boolean is the returned value; when it is [false] no update was
    queued and the pending snapshot stays as it is. *)
Definition resetPassword (data prev : AppData) (email : string)
  : bool * AppData :=
  match
    list_find
      (fun u => JS.toLowerCase (User.email u) = JS.toLowerCase email)
      (users data)
  with
  | None => (false, prev)
  | Some (userIndex, u) =>
      let updatedUsers :=
        <[userIndex :=
            User.mk (User.id u) (User.email u) (simpleHash "password123")
                    (User.role u)]> (users data) in
      (true, with_users prev updatedUsers)
  end.

Definition updateUserRole (data prev : AppData) (userId : string) (role : Role)
  : bool * AppData :=
  match list_find (fun u => User.id u = userId) (users data) with
  | None => (false, prev)
  | Some (userIndex, currentUser) =>
      let updatedUsers :=
        <[userIndex :=
            User.mk (User.id currentUser) (User.email currentUser)
                    (User.passwordHash currentUser) role]> (users data) in
      if decide (User.role currentUser = ADMIN /\ role = USER) then
        let adminCount :=
          length (filter (fun u => User.role u = ADMIN) (users data)) in
        if decide (adminCount <= 1)%nat then (false, prev)
        else (true, with_users prev updatedUsers)
      else (true, with_users prev updatedUsers)
  end.

Definition getProfileData (data : AppData) (profileId : string)
  : list Transaction.t * list Category.t * list IncomeSource.t
    * option Profile.t :=
  (filter (fun t => Transaction.profileId t = profileId) (transactions data),
   filter (fun c => Category.profileId c = profileId) (categories data),
   filter (fun s => IncomeSource.profileId s = profileId) (incomeSources data),
   snd <$> list_find (fun p => Profile.id p = profileId) (profiles data)).

End Store.

(** *** Histories of the store

    The operations the hook returns, each with the identifiers it draws, run
    one after the other on the snapshot the previous one left (so that the
    rendered and the pending snapshot coincide). *)

Inductive Op : Type :=
| OpAddUser (user : NewUser.t) (uuid : string)
| OpAddProfile (userId : string) (profile : NewProfile.t) (gen : nat -> string)
| OpAddTransaction (transaction : NewTransaction.t) (uuid : string)
| OpAddMultipleTransactions (txs : list NewTransaction.t) (gen : nat -> string)
| OpUpdateTransaction (updatedTransaction : Transaction.t)
| OpDeleteTransaction (transactionId : string)
| OpAddCategory (profileId : string) (category : NewItem.t) (uuid : string)
| OpDeleteCategory (categoryId : string)
| OpAddIncomeSource (profileId : string) (source : NewItem.t) (uuid : string)
| OpDeleteIncomeSource (sourceId : string)
| OpAddCurrency (currency : Currency.t)
| OpDeleteCurrency (currencyCode : string)
| OpUpdateProfile (updatedProfile : Profile.t)
| OpDeleteProfile (profileId : string)
| OpDeleteUser (userId : string)
| OpResetPassword (email : string)
| OpUpdateUserRole (userId : string) (role : Role).

Section Histories.

Variable DEFAULT_CATEGORIES : list Template.t.
Variable DEFAULT_INCOME_SOURCES : list Template.t.

Definition step (s : AppData) (op : Op) : AppData :=
  match op with
  | OpAddUser user uuid => snd (addUser s s user uuid)
  | OpAddProfile userId profile gen =>
      snd (addProfile DEFAULT_CATEGORIES DEFAULT_INCOME_SOURCES
                      s userId profile gen)
  | OpAddTransaction transaction uuid => addTransaction s transaction uuid
  | OpAddMultipleTransactions txs gen => addMultipleTransactions s txs gen
  | OpUpdateTransaction t => updateTransaction s t
  | OpDeleteTransaction transactionId => deleteTransaction s transactionId
  | OpAddCategory profileId category uuid =>
      addCategory s profileId category uuid
  | OpDeleteCategory categoryId => deleteCategory s categoryId
  | OpAddIncomeSource profileId source uuid =>
      addIncomeSource s profileId source uuid
  | OpDeleteIncomeSource sourceId => deleteIncomeSource s sourceId
  | OpAddCurrency currency => addCurrency s currency
  | OpDeleteCurrency currencyCode => deleteCurrency s currencyCode
  | OpUpdateProfile updatedProfile => updateProfile s updatedProfile
  | OpDeleteProfile profileId => deleteProfile s profileId
  | OpDeleteUser userId => deleteUser s userId
  | OpResetPassword email => snd (resetPassword s s email)
  | OpUpdateUserRole userId role => snd (updateUserRole s s userId role)
  end.

Definition run (s : AppData) (ops : list Op) : AppData :=
  fold_left step ops s.

End Histories.

(** The invariant of the user set: some user is an Admin whenever there is a
    user at all. *)
Definition hasAdmin (s : AppData) : Prop :=
  Exists (fun u => User.role u = ADMIN) (users s).

Definition adminInvariant (s : AppData) : Prop :=
  users s <> [] -> hasAdmin s.

(** [deleteUser userId] leaves an Admin behind: one with another id exists. *)
Definition adminSurvives (s : AppData) (userId : string) : Prop :=
  Exists (fun u => User.role u = ADMIN /\ User.id u <> userId) (users s).

(** A history in which every [deleteUser] leaves an Admin behind. *)
Definition deletionKeepsAdmin (s : AppData) (op : Op) : Prop :=
  match op with
  | OpDeleteUser userId => adminSurvives s userId
  | _ => True
  end.

Section Guarded.

Variable DEFAULT_CATEGORIES : list Template.t.
Variable DEFAULT_INCOME_SOURCES : list Template.t.

Fixpoint guardedHistory (s : AppData) (ops : list Op) : Prop :=
  match ops with
  | [] => True
  | op :: rest =>
      deletionKeepsAdmin s op /\
      guardedHistory
        (step DEFAULT_CATEGORIES DEFAULT_INCOME_SOURCES s op) rest
  end.

End Guarded.

(** ** The guards of the settings screen

    A disabled control dispatches nothing: a click on it leaves the snapshot
    as it is. *)

(** [UserManager]: the role selector and the delete button of the row of
    [user] are disabled unless the signed-in user is an Admin looking at
    somebody else. *)
Definition UserManager_disabled (currentUser user : User.t) : bool :=
  let isAdmin := bool_decide (User.role currentUser = ADMIN) in
  negb isAdmin || bool_decide (User.id user = User.id currentUser).

Definition UserManager_delete (data : AppData) (currentUser user : User.t)
  : AppData :=
  if UserManager_disabled currentUser user then data
  else deleteUser data (User.id user).

(** [CurrencyManager]: the delete button of a currency is disabled while
    the code is used by a profile. *)
Definition usedCurrencies (profiles : list Profile.t) : gset string :=
  list_to_set (map Profile.currencyCode profiles).

Definition CurrencyManager_disabled (profiles : list Profile.t)
  (c : Currency.t) : bool :=
  bool_decide (Currency.code c ∈ usedCurrencies profiles).

Definition CurrencyManager_delete (data : AppData) (c : Currency.t)
  : AppData :=
  if CurrencyManager_disabled (profiles data) c then data
  else deleteCurrency data (Currency.code c).

(** ** CSV export and import ([DataManagement]) *)

Module Csv.

Definition headers : list string :=
  ["date"; "description"; "amount"; "type"; "paymentMethod"; "category";
   "source"].

Definition requiredHeaders : list string :=
  ["date"; "description"; "amount"; "type"; "paymentMethod"].

Definition quoted (s : string) : string :=
  String JS.dquote (JS.doubleQuotes s +:+ String JS.dquote EmptyString).

(** The category cell and the source cell of the row of a transaction. *)
Definition categoryCell (profileCategories : list Category.t)
  (t : Transaction.t) : string :=
  if decide (Transaction.type t = "expense") then
    match list_find (fun c => Some (Category.id c) = Transaction.categoryId t)
                    profileCategories with
    | Some (_, c) => Category.name c
    | None => ""
    end
  else "".

Definition sourceCell (profileIncomeSources : list IncomeSource.t)
  (t : Transaction.t) : string :=
  if decide (Transaction.type t = "income") then
    match list_find
            (fun s => Some (IncomeSource.id s) = Transaction.sourceId t)
            profileIncomeSources with
    | Some (_, s) => IncomeSource.name s
    | None => ""
    end
  else "".

(** The row [handleExportCSV] writes for one transaction. *)
Definition exportRow (profileCategories : list Category.t)
  (profileIncomeSources : list IncomeSource.t) (t : Transaction.t) : string :=
  let category := categoryCell profileCategories t in
  let source := sourceCell profileIncomeSources t in
  let description := quoted (Transaction.description t) in
  JS.join ","
    [hd "" (JS.split "T" (Transaction.date t)); description;
     JS.numberToString (Transaction.amount t); Transaction.type t;
     Transaction.paymentMethod t; category; source].

(** The content of the file [handleExportCSV] offers for download. *)
Definition handleExportCSV (appData : AppData) (profileId : string) : string :=
  let profileTransactions :=
    filter (fun t => Transaction.profileId t = profileId)
           (transactions appData) in
  let profileCategories :=
    filter (fun c => Category.profileId c = profileId) (categories appData) in
  let profileIncomeSources :=
    filter (fun s => IncomeSource.profileId s = profileId)
           (incomeSources appData) in
  let rows :=
    map (exportRow profileCategories profileIncomeSources)
        profileTransactions in
  JS.join (String "010" EmptyString) (JS.join "," headers :: rows).

Inductive Exception : Type :=
| RangeError   (* toISOString of an invalid date *)
| TypeError.   (* toLowerCase of undefined *)

Inductive RowResult : Type :=
| Skipped
| Accepted (t : TransactionData.t)
| Raised (e : Exception).

(** What the [onload] handler of [handleImportCSV] leaves behind: an error
    message, a batch handed to [addMultipleTransactions] with a success
    message, or an exception that nothing catches. *)
Inductive Outcome : Type :=
| ImportError (message : string)
| ImportSuccess (newTransactions : list TransactionData.t) (message : string)
| Uncaught (e : Exception).

(** The object [header.reduce(...)] builds for one line: the property named
    by column [index] holds [data[index]], [undefined] when the line is
    shorter; a later column of the same name overwrites an earlier one. *)
Definition rowObject (header data : list string) : gmap string (option string) :=
  fold_left (fun obj '(index, h) => <[h := data !! index]> obj)
            (imap (fun index h => (index, h)) header) ∅.

(** [row.h]. *)
Definition prop (row : gmap string (option string)) (h : string)
  : option string :=
  mjoin (row !! h).

(** [!x] for a string or [undefined]. *)
Definition falsy (x : option string) : bool :=
  match x with
  | None => true
  | Some s => bool_decide (s = "")
  end.

Section ImportHandler.

(** [new Date(s).toISOString()]: [None] when the date is invalid, where
    [toISOString] raises a [RangeError]. *)
Variable Date_toISOString : string -> option string.

Variable profileCategories : list Category.t.
Variable profileIncomeSources : list IncomeSource.t.

(** The basic validation at the head of the loop body. *)
Definition basicChecks (row : gmap string (option string)) : bool :=
  negb (falsy (prop row "date")
        || falsy (prop row "description")
        || JS.isNaN (JS.parseFloat (prop row "amount"))
        || falsy (prop row "type")).

Definition findCategory (row : gmap string (option string))
  : option Category.t :=
  snd <$> list_find
    (fun c => Some (JS.toLowerCase (Category.name c))
              = JS.toLowerCase <$> prop row "category")
    profileCategories.

Definition findSource (row : gmap string (option string))
  : option IncomeSource.t :=
  snd <$> list_find
    (fun s => Some (JS.toLowerCase (IncomeSource.name s))
              = JS.toLowerCase <$> prop row "source")
    profileIncomeSources.

Definition rowType (row : gmap string (option string)) : string :=
  JS.toLowerCase (default "" (prop row "type")).

(** The two resolution checks. *)
Definition resolves (row : gmap string (option string)) : bool :=
  negb (bool_decide (rowType row = TransactionType.EXPENSE
                     /\ findCategory row = None)
        || bool_decide (rowType row = TransactionType.INCOME
                        /\ findSource row = None)).

(** A data line passes all the checks of the loop body. *)
Definition passesChecks (header : list string) (line : string) : bool :=
  let row := rowObject header (JS.split "," line) in
  basicChecks row && resolves row.

(** One turn of the loop over the data lines. *)
Definition processRow (header : list string) (line : string) : RowResult :=
  let data := JS.split "," line in
  let row := rowObject header data in
  if negb (basicChecks row) then Skipped
  else if negb (resolves row) then Skipped
  else
    let type := rowType row in
    let amount := JS.parseFloat (prop row "amount") in
    let description :=
      JS.undoubleQuotes (JS.stripQuotes (default "" (prop row "description"))) in
    match Date_toISOString (default "" (prop row "date")) with
    | None => Raised RangeError
    | Some date =>
        match prop row "paymentMethod" with
        | None => Raised TypeError
        | Some pm =>
            Accepted
              (TransactionData.mk type amount description date
                 (if decide (type = TransactionType.EXPENSE)
                  then Category.id <$> findCategory row else None)
                 (if decide (type = TransactionType.INCOME)
                  then IncomeSource.id <$> findSource row else None)
                 (JS.toLowerCase pm) None)
        end
    end.

Fixpoint importRows (header : list string) (lines : list string)
  (newTransactions : list TransactionData.t)
  : Exception + list TransactionData.t :=
  match lines with
  | [] => inr newTransactions
  | line :: rest =>
      match processRow header line with
      | Skipped => importRows header rest newTransactions
      | Accepted t => importRows header rest (newTransactions ++ [t])
      | Raised e => inl e
      end
  end.

(** The non-blank lines of a file. *)
Definition nonBlankLines (text : string) : list string :=
  filter (fun line => JS.trim line <> "") (JS.split "010" text).

(** The [onload] handler of [handleImportCSV] on the text of the file. *)
Definition handleImportCSV (text : string) : Outcome :=
  let lines := nonBlankLines text in
  if decide (length lines < 2)%nat then
    ImportError "CSV file is empty or contains only a header."
  else
    let header := map JS.trim (JS.split "," (hd "" lines)) in
    if negb (forallb (fun h => JS.includes h header) requiredHeaders) then
      ImportError
        ("CSV header is missing required columns. Required: "
         +:+ JS.join ", " requiredHeaders)
    else
      match importRows header (tl lines) [] with
      | inl e => Uncaught e
      | inr newTransactions =>
          if decide (0 < length newTransactions)%nat then
            ImportSuccess newTransactions
              ("Successfully imported "
               +:+ JS.intToString (Z.of_nat (length newTransactions))
               +:+ " transactions.")
          else
            ImportError
              ("No valid transactions found to import. Check file format "
               +:+ "and ensure categories/sources exist.")
      end.

End ImportHandler.

(** The transactions [Settings] appends for an outcome: it stamps the batch
    with the active profile and hands it to the store. *)
Definition commit (prev : AppData) (profileId : string) (o : Outcome)
  (gen : nat -> string) : AppData :=
  match o with
  | ImportSuccess newTransactions _ =>
      addMultipleTransactions prev
        (map (fun t => NewTransaction.mk profileId t) newTransactions) gen
  | _ => prev
  end.

(** Import of a file into profile [profileId] of [appData]. *)
Definition importInto (Date_toISOString : string -> option string)
  (appData : AppData) (profileId : string) (text : string) : Outcome :=
  handleImportCSV Date_toISOString
    (filter (fun c => Category.profileId c = profileId) (categories appData))
    (filter (fun s => IncomeSource.profileId s = profileId)
            (incomeSources appData))
    text.

(** The fields of a transaction the CSV carries: calendar date, description,
    amount, type, payment method, and the name of its category or source
    (one of the two cells is empty). *)
Definition tuple (appData : AppData) (t : Transaction.t)
  : string * string * JS.number * string * string * string :=
  let profileCategories :=
    filter (fun c => Category.profileId c = Transaction.profileId t)
           (categories appData) in
  let profileIncomeSources :=
    filter (fun s => IncomeSource.profileId s = Transaction.profileId t)
           (incomeSources appData) in
  (hd "" (JS.split "T" (Transaction.date t)),
   Transaction.description t,
   Transaction.amount t,
   Transaction.type t,
   Transaction.paymentMethod t,
   categoryCell profileCategories t +:+ sourceCell profileIncomeSources t).

(** The tuples of the transactions of one profile. *)
Definition tuples (appData : AppData) (profileId : string)
  : list (string * string * JS.number * string * string * string) :=
  map (tuple appData)
      (filter (fun t => Transaction.profileId t = profileId)
              (transactions appData)).

End Csv.

(** ** Sample data for the closed examples *)

Module Sample.

(** [new Date(s).toISOString()] on the date-only form YYYY-MM-DD, the one the
    export writes and the import screen asks for: midnight UTC of a calendar
    day.  Text of another shape is an invalid date here. *)
Definition daysInMonth (y m : N) : N :=
  match m with
  | 2 => if ((y mod 4 =? 0) && (negb (y mod 100 =? 0) || (y mod 400 =? 0)))%N
         then 29 else 28
  | 4 | 6 | 9 | 11 => 30
  | _ => 31
  end%N.

Definition Date_toISOString (s : string) : option string :=
  match JS.split "-" s with
  | [y; m; d] =>
      let digits x n :=
        bool_decide (String.length x = n) && forallb JS.isDigit (String.list_ascii_of_string x) in
      let mv := JS.digitsValue 0 m in
      let dv := JS.digitsValue 0 d in
      if digits y 4%nat && digits m 2%nat && digits d 2%nat
         && (1 <=? mv)%N && (mv <=? 12)%N
         && (1 <=? dv)%N && (dv <=? daysInMonth (JS.digitsValue 0 y) mv)%N
      then Some (s +:+ "T00:00:00.000Z") else None
  | _ => None
  end.

Definition food : Category.t :=
  Category.mk "p1-c1" "Food" "Food" (Some true) "p1".

Definition salary : IncomeSource.t :=
  IncomeSource.mk "p1-s1" "Salary" "Salary" (Some true) "p1".

Definition alice : User.t := User.mk "u1" "alice@example.com" "97" ADMIN.
Definition bob : User.t := User.mk "u2" "bob@example.com" "98" USER.

Definition personal : Profile.t := Profile.mk "p1" "Personal" "USD" "u1".

Definition usd : Currency.t := Currency.mk "USD" "$" "US Dollar".

(** An expense whose description holds a comma. *)
Definition lunch : Transaction.t :=
  Transaction.mk "t1" "p1"
    (TransactionData.mk "expense" (JS.Dec false 125 (-1)) "Lunch, coffee"
       "2024-01-05T00:00:00.000Z" (Some "p1-c1") None "cash" None).

Definition store : AppData :=
  mkAppData [alice; bob] [personal] [lunch] [food] [salary] [usd].

Definition newline : string := String "010" EmptyString.

Definition headerLine : string :=
  "date,description,amount,type,paymentMethod,category,source".

(** One good line, then a good line whose date is no date. *)
Definition csvWithBadDate : string :=
  JS.join newline
    [headerLine;
     "2024-01-05,Lunch,12.5,expense,cash,Food,";
     "notadate,Pay,1000,income,bank,,Salary"].

(** One good line, then a line that stops after a type that is neither
    income nor expense. *)
Definition csvWithShortLine : string :=
  JS.join newline
    [headerLine;
     "2024-01-05,Lunch,12.5,expense,cash,Food,";
     "2024-01-06,Move,40,transfer"].

(** Five data lines, three of them good: the second has no date, the fourth
    an amount that is no number. *)
Definition csvFiveLines : string :=
  JS.join newline
    [headerLine;
     "2024-01-05,Lunch,12.5,expense,cash,food,";
     ",Dinner,30,expense,cash,Food,";
     "2024-01-06,Pay,1000,Income,BANK,,salary";
     "2024-01-07,Taxi,abc,expense,cash,Food,";
     "2024-01-08,Bread,3,expense,credit,Food,"].

(** The same expense as [lunch], described without a comma. *)
Definition snack : Transaction.t :=
  Transaction.mk "t2" "p1"
    (TransactionData.mk "expense" (JS.Dec false 125 (-1)) "Lunch and coffee"
       "2024-01-05T00:00:00.000Z" (Some "p1-c1") None "cash" None).

Definition storeWithoutComma : AppData :=
  mkAppData [alice; bob] [personal] [snack] [food] [salary] [usd].

Definition categoryTemplates : list Template.t :=
  [Template.mk "Food" "Food" (Some true);
   Template.mk "Housing" "Home" (Some true)].

Definition sourceTemplates : list Template.t :=
  [Template.mk "Salary" "Salary" (Some true)].

Definition signUpAlice : Op :=
  OpAddUser (NewUser.mk "alice@example.com" "97") "u1".
Definition signUpBob : Op :=
  OpAddUser (NewUser.mk "bob@example.com" "98") "u2".

(** Two sign-ups, then the first user, the only Admin, is deleted. *)
Definition lockout : list Op := [signUpAlice; signUpBob; OpDeleteUser "u1"].

(** Draws of the identifier source: the text uuid-k for draw number k. *)
Definition draws (k : nat) : string :=
  "uuid-" +:+ JS.intToString (Z.of_nat k).

(** The second user is made an Admin before the first one is deleted. *)
Definition handover : list Op :=
  [signUpAlice; signUpBob; OpUpdateUserRole "u2" ADMIN; OpDeleteUser "u1"].

End Sample.

(** ** Vocabulary of the statements *)

(** The test of [resetPassword]: the e-mail of [u] is [email] up to case. *)
Definition emailMatches (email : string) (u : User.t) : Prop :=
  JS.toLowerCase (User.email u) = JS.toLowerCase email.

(** [next] differs from [prev] at most in the user at position [i]. *)
Definition usersChangedOnlyAt (prev next : AppData) (i : nat) : Prop :=
  length (users next) = length (users prev)
  /\ (forall j : nat, j <> i -> users next !! j = users prev !! j)
  /\ profiles next = profiles prev
  /\ transactions next = transactions prev
  /\ categories next = categories prev
  /\ incomeSources next = incomeSources prev
  /\ currencies next = currencies prev.

(** The number of Admins [updateUserRole] counts. *)
Definition adminCount (s : AppData) : nat :=
  length (filter (fun u => User.role u = ADMIN) (users s)).

(** [userId] designates [u], the user at position [i]: the one the look-up
    by identifier of the store returns. *)
Definition designates (s : AppData) (userId : string) (i : nat) (u : User.t)
  : Prop :=
  list_find (fun v => User.id v = userId) (users s) = Some (i, u).

(** Profile [profileId] is one of the profiles of user [userId]. *)
Definition ownedBy (s : AppData) (userId profileId : string) : Prop :=
  Exists (fun p => Profile.userId p = userId /\ Profile.id p = profileId)
         (profiles s).

Global Instance ownedBy_dec (s : AppData) (userId profileId : string)
  : Decision (ownedBy s userId profileId).
Proof. unfold ownedBy. apply _. Defined.

Global Instance adminSurvives_dec (s : AppData) (userId : string)
  : Decision (adminSurvives s userId).
Proof. unfold adminSurvives. apply _. Defined.

(** Some profile uses the currency code [code]. *)
Definition referenced (s : AppData) (code : string) : Prop :=
  Exists (fun p => Profile.currencyCode p = code) (profiles s).

(** The identifiers a snapshot holds. *)
Definition attachmentIds (t : Transaction.t) : list string :=
  map Attachment.id (default [] (TransactionData.attachments (Transaction.data t))).

Definition storeIds (s : AppData) : list string :=
  map User.id (users s) ++ map Profile.id (profiles s)
  ++ map Transaction.id (transactions s)
  ++ concat (map attachmentIds (transactions s))
  ++ map Category.id (categories s)
  ++ map IncomeSource.id (incomeSources s).

(** [x] ends with [u]. *)
Definition endsWith (x u : string) : Prop :=
  exists pre : string, x = pre +:+ u.

(** What is assumed of [crypto.randomUUID()] over the [n] draws of a call:
    the values are pairwise distinct, and none stands at the end of an
    identifier the snapshot already holds (stored identifiers are earlier
    draws, alone or after a profile identifier and a dash). *)
Definition freshDraws (s : AppData) (gen : nat -> string) (n : nat) : Prop :=
  (forall i j : nat, (i < n)%nat -> (j < n)%nat -> gen i = gen j -> i = j)
  /\ (forall (i : nat) (x : string),
        (i < n)%nat -> x ∈ storeIds s -> ~ endsWith x (gen i)).

(** The identifier the store gives to the default drawn as number [k]. *)
Definition seededId (pid : string) (gen : nat -> string) (k : nat) : string :=
  pid +:+ "-" +:+ gen k.

(** ** Signing in and signing up ([AuthPage]) *)

Module AuthPage.

(** What [handleSubmit] ends with: [onAuth(user)] or [setError(message)]. *)
Inductive Result : Type :=
| Authenticated (user : User.t)
| Error (message : string).

Section HandleSubmit.

Variable DEFAULT_CATEGORIES : list Template.t.
Variable DEFAULT_INCOME_SOURCES : list Template.t.

(** The branch of [handleSubmit] taken in log-in mode. *)
Definition login (appData : AppData) (email password : string) : Result :=
  match list_find (fun u => User.email u = email) (users appData) with
  | Some (_, user) =>
      if decide (User.passwordHash user = simpleHash password)
      then Authenticated user
      else Error "Invalid email or password."
  | None => Error "Invalid email or password."
  end.

(** The branch taken in sign-up mode: [gen 0] is the draw of [addUser], the
    following ones are the draws of [addProfile]. *)
Definition signup (appData : AppData) (email password : string)
  (gen : nat -> string) : Result * AppData :=
  if decide (Exists (fun u => User.email u = email) (users appData)) then
    (Error "User with this email already exists.", appData)
  else
    let '(newUser, s1) :=
      addUser appData appData
              (NewUser.mk email (simpleHash password)) (gen 0%nat) in
    let '(_, s2) :=
      addProfile DEFAULT_CATEGORIES DEFAULT_INCOME_SOURCES s1
                 (User.id newUser) (NewProfile.mk "Personal" "USD")
                 (fun k => gen (1 + k)%nat) in
    (Authenticated newUser, s2).

Definition handleSubmit (isLogin : bool) (appData : AppData)
  (email password : string) (gen : nat -> string) : Result * AppData :=
  if isLogin then (login appData email password, appData)
  else signup appData email password gen.

End HandleSubmit.

End AuthPage.

(** ** The demo log-in of the authentication page *)

Module Demo.

Definition DEMO_EMAIL : string := "demo@example.com".

Section HandleDemoLogin.

Variable DEFAULT_CATEGORIES : list Template.t.
Variable DEFAULT_INCOME_SOURCES : list Template.t.

(** [new Date(now.getFullYear(), now.getMonth(), day).toISOString()]: the
    clock is an input. *)
Variable dateOfDay : Z -> string.

(** Step 1: find or create the demo user.  [appData] is the rendered
    snapshot, which [addUser] reads and which is also the pending one when
    the handler starts. *)
Definition findOrCreateUser (appData : AppData) (uuid : string)
  : User.t * AppData :=
  match list_find (fun u => User.email u = DEMO_EMAIL) (users appData) with
  | Some (_, demoUser) => (demoUser, appData)
  | None =>
      addUser appData appData
              (NewUser.mk DEMO_EMAIL (simpleHash "demo")) uuid
  end.

(** Step 2: find the demo profile in the rendered snapshot, or create it on
    the pending one. *)
Definition findOrCreateProfile (appData prev : AppData) (demoUser : User.t)
  (gen : nat -> string) : Profile.t * AppData :=
  match list_find (fun p => Profile.name p = "Demo Profile"
                            /\ Profile.userId p = User.id demoUser)
                  (profiles appData) with
  | Some (_, demoProfile) => (demoProfile, prev)
  | None =>
      addProfile DEFAULT_CATEGORIES DEFAULT_INCOME_SOURCES prev
                 (User.id demoUser) (NewProfile.mk "Demo Profile" "USD") gen
  end.

(** Step 4: the ten sample transactions of the current month. *)
Definition sampleTransactions (profileId : string)
  (getCatId getSourceId : string -> option string) : list NewTransaction.t :=
  let income amount description day source paymentMethod :=
    NewTransaction.mk profileId
      (TransactionData.mk TransactionType.INCOME amount description
         (dateOfDay day) None (getSourceId source) paymentMethod None) in
  let expense amount description day category paymentMethod :=
    NewTransaction.mk profileId
      (TransactionData.mk TransactionType.EXPENSE amount description
         (dateOfDay day) (getCatId category) None paymentMethod None) in
  [income (JS.Dec false 25 2) "Monthly Salary" 1 "Salary" PaymentMethod.BANK;
   income (JS.Dec false 3 2) "Website Design Project" 15 "Freelance"
          PaymentMethod.BANK;
   expense (JS.Dec false 12 2) "Rent Payment" 2 "Housing" PaymentMethod.BANK;
   expense (JS.Dec false 15075 (-2)) "Weekly Groceries" 5 "Food"
           PaymentMethod.CREDIT;
   expense (JS.Dec false 525 (-2)) "Morning Coffee" 6 "Food"
           PaymentMethod.CASH;
   expense (JS.Dec false 455 (-1)) "Gas fill-up" 8 "Transport"
           PaymentMethod.CREDIT;
   expense (JS.Dec false 852 (-1)) "Electricity Bill" 12 "Utilities"
           PaymentMethod.BANK;
   expense (JS.Dec false 7899 (-2)) "New Shoes" 18 "Shopping"
           PaymentMethod.CREDIT;
   expense (JS.Dec false 25 0) "Movie Night" 21 "Entertainment"
           PaymentMethod.CASH;
   expense (JS.Dec false 3 1) "Pharmacy" 22 "Health" PaymentMethod.CASH].

(** Steps 3 to 5: the transactions the handler stores.  The categories and
    sources are those [getProfileData] finds in the rendered snapshot, and
    the transactions kept are those of the rendered snapshot. *)
Definition demoTransactions (appData : AppData) (demoProfile : Profile.t)
  (gen : nat -> string) : list Transaction.t :=
  let '(_, demoCategories, demoIncomeSources, _) :=
    getProfileData appData (Profile.id demoProfile) in
  let getCatId name :=
    Category.id
      <$> (snd <$> list_find (fun c => Category.name c = name) demoCategories) in
  let getSourceId name :=
    IncomeSource.id
      <$> (snd <$> list_find (fun s => IncomeSource.name s = name)
                             demoIncomeSources) in
  let allOtherTransactions :=
    filter (fun t => Transaction.profileId t <> Profile.id demoProfile)
           (transactions appData) in
  let newDemoTransactionsWithIds :=
    imap (fun i t =>
            Transaction.mk (gen i) (NewTransaction.profileId t)
                           (NewTransaction.data t))
         (sampleTransactions (Profile.id demoProfile) getCatId getSourceId) in
  allOtherTransactions ++ newDemoTransactionsWithIds.

(** [handleDemoLogin]: the user handed to [onAuth] and the snapshot the queued
    updates leave.  [uuid] is the draw of [addUser], [genProfile] gives the
    draws of [addProfile] and [genTransactions] those of the sample
    transactions. *)
Definition handleDemoLogin (appData : AppData) (uuid : string)
  (genProfile genTransactions : nat -> string) : User.t * AppData :=
  let '(demoUser, s1) := findOrCreateUser appData uuid in
  let '(demoProfile, s2) :=
    findOrCreateProfile appData s1 demoUser genProfile in
  (demoUser,
   with_transactions s2 (demoTransactions appData demoProfile genTransactions)).

End HandleDemoLogin.

End Demo.

(** ** The application shell *)

Module App.

(** The two pieces of state of [App] that select what is shown. *)
Record State : Type := mkState
  { currentUser : option User.t; activeProfileId : option string }.

(** [userProfiles]: the profiles of the signed-in user in the rendered
    snapshot, none when nobody is signed in. *)
Definition userProfiles (data : AppData) (st : State) : list Profile.t :=
  match currentUser st with
  | None => []
  | Some user => getProfilesForUser data user
  end.

(** [!activeProfileId]. *)
Definition unset (x : option string) : bool :=
  match x with
  | None => true
  | Some s => bool_decide (s = "")
  end.

(** The effect that chooses the active profile: when somebody is signed in
    and has a profile, and no profile is active or the active one is none of
    the user's, the profile named Demo Profile becomes active, or the first
    profile when there is none of that name. *)
Definition chooseActiveProfile (data : AppData) (st : State) : State :=
  match currentUser st, userProfiles data st with
  | Some _, first :: _ =>
      if unset (activeProfileId st)
         || negb (bool_decide
                    (Exists (fun p => Some (Profile.id p) = activeProfileId st)
                            (userProfiles data st)))
      then
        let demoProfile :=
          snd <$> list_find (fun p => Profile.name p = "Demo Profile")
                            (userProfiles data st) in
        mkState (currentUser st)
                (Some (match demoProfile with
                       | Some p => Profile.id p
                       | None => Profile.id first
                       end))
      else st
  | _, _ => st
  end.

Definition handleAuth (st : State) (user : User.t) : State :=
  mkState (Some user) (activeProfileId st).

Definition handleLogout (st : State) : State := mkState None None.

(** [handleProfileDelete]: [data] is the rendered snapshot, from which
    [userProfiles] is taken, [prev] the pending one. *)
Definition handleProfileDelete (data prev : AppData) (st : State)
  (id : string) : State * AppData :=
  let st' :=
    if decide (Some id = activeProfileId st) then
      let remainingProfiles :=
        filter (fun p => Profile.id p <> id) (userProfiles data st) in
      match remainingProfiles with
      | first :: _ => mkState (currentUser st) (Some (Profile.id first))
      | [] => st
      end
    else st in
  (st', deleteProfile prev id).

End App.

(** ** The transaction form *)

(** [suggestCategory] once the model has answered with [response]: the
    answer is trimmed and looked up among the names of the categories,
    whatever the case of the letters. *)
Definition suggestCategory (response : string) (categories : list Category.t)
  : option string :=
  let suggestedCategoryName := JS.trim response in
  let foundCategory :=
    snd <$> list_find
      (fun c => JS.toLowerCase (Category.name c)
                = JS.toLowerCase suggestedCategoryName) categories in
  Category.id <$> foundCategory.

Module TransactionForm.

(** The fields of the form. *)
Record State : Type := mkState
  { type : string;
    amount : string;
    description : string;
    date : string;
    categoryId : string;
    sourceId : string;
    paymentMethod : string;
    attachments : list Attachment.t }.

(** [x || y] for strings. *)
Definition orElse (x y : string) : string := if decide (x = "") then y else x.

(** The effect that fills the form when it opens; [today] is the calendar
    day of the clock. *)
Definition fill (initialData : option Transaction.t) (today : string)
  : State :=
  match initialData with
  | None =>
      mkState TransactionType.EXPENSE "" "" today "" "" PaymentMethod.BANK []
  | Some t =>
      mkState
        (orElse (Transaction.type t) TransactionType.EXPENSE)
        (orElse (JS.numberToString (Transaction.amount t)) "")
        (orElse (Transaction.description t) "")
        (if decide (Transaction.date t = "") then today
         else hd "" (JS.split "T" (Transaction.date t)))
        (orElse (default "" (Transaction.categoryId t)) "")
        (orElse (default "" (Transaction.sourceId t)) "")
        (orElse (Transaction.paymentMethod t) PaymentMethod.BANK)
        (default [] (TransactionData.attachments (Transaction.data t)))
  end.

(** [handleSuggestCategory] once the request has settled: [response] is the
    answer of the model, [None] when the request failed. *)
Definition handleSuggestCategory (response : option string)
  (categories : list Category.t) (st : State) : State :=
  if decide (description st = "") then st
  else
    match response with
    | None => st
    | Some text =>
        match suggestCategory text categories with
        | Some suggestedId =>
            if decide (suggestedId = "") then st
            else mkState (type st) (amount st) (description st) (date st)
                         suggestedId (sourceId st) (paymentMethod st)
                         (attachments st)
        | None => st
        end
    end.

(** What [handleSubmit] hands to [onSubmit]: the edited transaction, or the
    fields of a new one. *)
Inductive Submitted : Type :=
| Edited (t : Transaction.t)
| Added (t : NewTransaction.t).

(** [handleSubmit]: the category is part of the object built from the form
    for an expense only, the source for an income only; in an edit the
    object is laid over the transaction being edited. *)
Definition handleSubmit (profileId : string) (st : State)
  (initialData : option Transaction.t) : Submitted :=
  let expense := bool_decide (type st = TransactionType.EXPENSE) in
  let income := bool_decide (type st = TransactionType.INCOME) in
  match initialData with
  | Some t =>
      Edited
        (Transaction.mk (Transaction.id t) profileId
           (TransactionData.mk (type st) (JS.parseFloat (Some (amount st)))
              (description st) (date st)
              (if expense then Some (categoryId st)
               else Transaction.categoryId t)
              (if income then Some (sourceId st) else Transaction.sourceId t)
              (paymentMethod st) (Some (attachments st))))
  | None =>
      Added
        (NewTransaction.mk profileId
           (TransactionData.mk (type st) (JS.parseFloat (Some (amount st)))
              (description st) (date st)
              (if expense then Some (categoryId st) else None)
              (if income then Some (sourceId st) else None)
              (paymentMethod st) (Some (attachments st))))
  end.

End TransactionForm.

(** [Transactions.handleSubmit] with the [addTransaction] that [App] passes
    down, which stamps the active profile. *)
Definition Transactions_handleSubmit (prev : AppData)
  (activeProfileId : string) (submitted : TransactionForm.Submitted)
  (uuid : string) : AppData :=
  match submitted with
  | TransactionForm.Edited t => updateTransaction prev t
  | TransactionForm.Added t =>
      addTransaction prev
        (NewTransaction.mk activeProfileId (NewTransaction.data t)) uuid
  end.

(** ** Adding a user and deleting a profile from the settings screen *)





(** [ItemManager] over the categories of the active profile: a click on the
    delete button of an item.  The button is there for the items of the
    profile that are not marked as default. *)
Definition ItemManager_deleteCategory (data : AppData) (profileId : string)
  (item : Category.t) : AppData :=
  let items :=
    filter (fun c => Category.profileId c = profileId) (categories data) in
  if decide (item ∈ items /\ Category.isDefault item <> Some true)
  then deleteCategory data (Category.id item)
  else data.

(** ** The cells of an exported line *)

(** The array [handleExportCSV] joins with commas for one transaction. *)
Definition exportCells (profileCategories : list Category.t)
  (profileIncomeSources : list IncomeSource.t) (t : Transaction.t)
  : list string :=
  [hd "" (JS.split "T" (Transaction.date t));
   Csv.quoted (Transaction.description t);
   JS.numberToString (Transaction.amount t);
   Transaction.type t;
   Transaction.paymentMethod t;
   Csv.categoryCell profileCategories t;
   Csv.sourceCell profileIncomeSources t].

(** The character [c] does not occur in [s]. *)
Definition charFree (c : ascii) (s : string) : Prop :=
  c ∉ String.list_ascii_of_string s.

(** What an accepted line of the import refers to: an expense to a category
    of the target profile and to no source, an income to a source of the
    target profile and to no category, a transaction of another type to
    neither. *)
Definition wellReferenced (profileCategories : list Category.t)
  (profileIncomeSources : list IncomeSource.t) (t : TransactionData.t)
  : Prop :=
  (TransactionData.type t = TransactionType.EXPENSE ->
   exists c : Category.t,
     c ∈ profileCategories
     /\ TransactionData.categoryId t = Some (Category.id c))
  /\ (TransactionData.type t <> TransactionType.EXPENSE ->
      TransactionData.categoryId t = None)
  /\ (TransactionData.type t = TransactionType.INCOME ->
      exists x : IncomeSource.t,
        x ∈ profileIncomeSources
        /\ TransactionData.sourceId t = Some (IncomeSource.id x))
  /\ (TransactionData.type t <> TransactionType.INCOME ->
      TransactionData.sourceId t = None).

(** The calendar day the export writes for a transaction. *)
Definition datePart (t : Transaction.t) : string :=
  hd "" (JS.split "T" (Transaction.date t)).

(** What the import makes of the exported line of a transaction when every
    check passes: the fields of the transaction, with the date [Date] gives
    for the calendar day and with the reference that goes with the type. *)
Definition reimported (D : string -> option string) (t : Transaction.t)
  : TransactionData.t :=
  TransactionData.mk
    (Transaction.type t) (Transaction.amount t) (Transaction.description t)
    (default "" (D (datePart t)))
    (if decide (Transaction.type t = TransactionType.EXPENSE)
     then Transaction.categoryId t else None)
    (if decide (Transaction.type t = TransactionType.INCOME)
     then Transaction.sourceId t else None)
    (Transaction.paymentMethod t) None.

(** A transaction whose exported line the import can read back: no cell of
    the line holds a comma or a line feed; the calendar day is not empty,
    and [Date] reads it as a moment of that day; the amount is a number that
    [parseFloat] reads back from its text; the payment method is in lower
    case; and the transaction is an expense whose category is one of the
    profile, the only one with its name up to case, or an income whose
    source is one of the profile, the only one with its name up to case. *)
Definition plainFields (D : string -> option string)
  (profileCategories : list Category.t)
  (profileIncomeSources : list IncomeSource.t) (t : Transaction.t) : Prop :=
  Forall (charFree ",")
         (exportCells profileCategories profileIncomeSources t)
  /\ Forall (charFree "010")
            (exportCells profileCategories profileIncomeSources t)
  /\ datePart t <> ""
  /\ (exists iso : string,
        D (datePart t) = Some iso /\ hd "" (JS.split "T" iso) = datePart t)
  /\ JS.parseFloat (Some (JS.numberToString (Transaction.amount t)))
     = Transaction.amount t
  /\ JS.isNaN (Transaction.amount t) = false
  /\ JS.toLowerCase (Transaction.paymentMethod t) = Transaction.paymentMethod t
  /\ ((Transaction.type t = TransactionType.EXPENSE
       /\ exists (k : nat) (c : Category.t),
           list_find (fun c => Some (Category.id c) = Transaction.categoryId t)
                     profileCategories = Some (k, c)
           /\ forall c' : Category.t,
               c' ∈ profileCategories ->
               JS.toLowerCase (Category.name c')
               = JS.toLowerCase (Category.name c) -> c' = c)
      \/ (Transaction.type t = TransactionType.INCOME
          /\ exists (k : nat) (x : IncomeSource.t),
              list_find
                (fun s => Some (IncomeSource.id s) = Transaction.sourceId t)
                profileIncomeSources = Some (k, x)
              /\ forall x' : IncomeSource.t,
                  x' ∈ profileIncomeSources ->
                  JS.toLowerCase (IncomeSource.name x')
                  = JS.toLowerCase (IncomeSource.name x) -> x' = x)).

(** Some character of the text is no white space. *)
Definition notBlank (s : string) : Prop :=
  Exists (fun c => JS.isWhiteSpace c = false) (String.list_ascii_of_string s).

(** ** Vocabulary of the further statements *)

(** The operation [addTransaction] run on each element of a batch, element
    number [i] with draw [gen i]. *)
Definition addEach (s : AppData) (txs : list NewTransaction.t)
  (gen : nat -> string) : AppData :=
  fold_left (fun acc '(i, t) => addTransaction acc t (gen i))
            (imap (fun i t => (i, t)) txs) s.

(** The identifiers of each collection are pairwise distinct. *)
Definition uniqueIds (s : AppData) : Prop :=
  NoDup (map User.id (users s))
  /\ NoDup (map Profile.id (profiles s))
  /\ NoDup (map Transaction.id (transactions s))
  /\ NoDup (map Category.id (categories s))
  /\ NoDup (map IncomeSource.id (incomeSources s)).

(** The first [n] draws are pairwise distinct and none is an identifier of
    the snapshot. *)
Definition newDraws (s : AppData) (gen : nat -> string) (n : nat) : Prop :=
  (forall i j : nat, (i < n)%nat -> (j < n)%nat -> gen i = gen j -> i = j)
  /\ (forall i : nat, (i < n)%nat -> gen i ∉ storeIds s).

(** What is asked of the draws of one operation of a history: a single draw
    is no identifier of the snapshot, the draws of a batch are new, the
    draws of [addProfile] are fresh. *)
Definition drawsOfOpNew (DEFAULT_CATEGORIES DEFAULT_INCOME_SOURCES :
                          list Template.t) (s : AppData) (op : Op) : Prop :=
  match op with
  | OpAddUser _ uuid => uuid ∉ storeIds s
  | OpAddTransaction _ uuid => uuid ∉ storeIds s
  | OpAddCategory _ _ uuid => uuid ∉ storeIds s
  | OpAddIncomeSource _ _ uuid => uuid ∉ storeIds s
  | OpAddMultipleTransactions txs gen => newDraws s gen (length txs)
  | OpAddProfile _ _ gen =>
      freshDraws s gen
        (1 + length DEFAULT_CATEGORIES + length DEFAULT_INCOME_SOURCES)
  | _ => True
  end.

Fixpoint freshHistory (DEFAULT_CATEGORIES DEFAULT_INCOME_SOURCES :
                         list Template.t) (s : AppData) (ops : list Op)
  : Prop :=
  match ops with
  | [] => True
  | op :: rest =>
      drawsOfOpNew DEFAULT_CATEGORIES DEFAULT_INCOME_SOURCES s op
      /\ freshHistory DEFAULT_CATEGORIES DEFAULT_INCOME_SOURCES
           (step DEFAULT_CATEGORIES DEFAULT_INCOME_SOURCES s op) rest
  end.

(** The polynomial hash of a text over the integers, without wrap-around:
    the code units are the digits of a number in base 31. *)
Definition polynomialHash (str : string) : Z :=
  fold_left (fun h c => 31 * h + Z.of_nat (nat_of_ascii c))
            (String.list_ascii_of_string str) 0.

(** The transactions of one profile in a snapshot. *)
Definition transactionsOf (profileId : string) (s : AppData)
  : list Transaction.t :=
  filter (fun t => Transaction.profileId t = profileId) (transactions s).

(** A transaction that refers to no category and to no source. *)
Definition unlinked (t : Transaction.t) : Prop :=
  Transaction.categoryId t = None /\ Transaction.sourceId t = None.

(** A transaction whose references are those of its type and lead to a
    category or a source of its own profile in snapshot [s]. *)
Definition linked (s : AppData) (t : Transaction.t) : Prop :=
  wellReferenced
    (filter (fun c => Category.profileId c = Transaction.profileId t)
            (categories s))
    (filter (fun x => IncomeSource.profileId x = Transaction.profileId t)
            (incomeSources s))
    (Transaction.data t).

(** The names the sample transactions of the demo log-in look up. *)
Definition sampleCategoryNames : list string :=
  ["Housing"; "Food"; "Transport"; "Utilities"; "Shopping"; "Entertainment";
   "Health"].

Definition sampleSourceNames : list string := ["Salary"; "Freelance"].

(** Every name of the list is the name of some template of the table. *)
Definition provides (table : list Template.t) (names : list string) : Prop :=
  forall name : string,
    name ∈ names ->
    exists c : Template.t, c ∈ table /\ Template.name c = name.

(** A template for each name, and a clock for the samples: midnight UTC of
    the days of January 2024. *)
Definition templatesNamed (names : list string) : list Template.t :=
  map (fun name => Template.mk name name (Some true)) names.

Definition januaryDay (day : Z) : string :=
  "2024-01-" +:+ (if day <? 10 then "0" else "") +:+ JS.intToString day
  +:+ "T00:00:00.000Z".

(** The active profile is one of the profiles of the signed-in user. *)
Definition activeIsOwned (data : AppData) (st : App.State) : Prop :=
  exists p : Profile.t,
    p ∈ App.userProfiles data st
    /\ App.activeProfileId st = Some (Profile.id p).

(** The reference the form holds for its type is one of the profile: for an
    expense the chosen category, for an income the chosen source. *)
Definition choiceIsOwned (s : AppData) (profileId : string)
  (st : TransactionForm.State) : Prop :=
  (TransactionForm.type st = TransactionType.EXPENSE ->
   exists c : Category.t,
     c ∈ categories s /\ Category.profileId c = profileId
     /\ TransactionForm.categoryId st = Category.id c)
  /\ (TransactionForm.type st = TransactionType.INCOME ->
      exists x : IncomeSource.t,
        x ∈ incomeSources s /\ IncomeSource.profileId x = profileId
        /\ TransactionForm.sourceId st = IncomeSource.id x).

(** The transaction an edit submits. *)
Definition edited (profileId : string) (st : TransactionForm.State)
  (t : Transaction.t) : Transaction.t :=
  match TransactionForm.handleSubmit profileId st (Some t) with
  | TransactionForm.Edited t' => t'
  | TransactionForm.Added _ => t
  end.

(** * Properties *)

(** ** Creating users *)

Lemma addUser_appends (data prev : AppData) (user : NewUser.t) (uuid : string) :
  users (snd (addUser data prev user uuid))
  = users prev ++ [fst (addUser data prev user uuid)].
Proof. reflexivity. Qed.

Lemma addUser_role (data prev : AppData) (user : NewUser.t) (uuid : string) :
  User.role (fst (addUser data prev user uuid))
  = match users data with [] => ADMIN | _ :: _ => USER end.
Proof.
  unfold addUser; simpl.
  destruct (users data) as [|u us]; reflexivity.
Qed.

(** C6. The user [addUser] creates is an Admin exactly when the store
    held no user at the moment of the call, and a plain User otherwise; the
    new user carries the drawn identifier and the given credentials and is
    appended to the user list, everything else being left alone. *)
Theorem addUser_first_user_is_admin
  (data : AppData) (user : NewUser.t) (uuid : string) :
  let newUser := fst (addUser data data user uuid) in
  let next := snd (addUser data data user uuid) in
  (users data = [] -> User.role newUser = ADMIN)
  /\ (users data <> [] -> User.role newUser = USER)
  /\ (User.role newUser = ADMIN <-> users data = [])
  /\ newUser = User.mk uuid (NewUser.email user) (NewUser.passwordHash user)
                       (User.role newUser)
  /\ users next = users data ++ [newUser]
  /\ profiles next = profiles data
  /\ transactions next = transactions data
  /\ categories next = categories data
  /\ incomeSources next = incomeSources data
  /\ currencies next = currencies data.
Proof.
  intros newUser next.
  pose proof (addUser_role data data user uuid) as Hrole.
  fold newUser in Hrole.
  repeat split; try reflexivity.
  - intros Hnil. rewrite Hrole, Hnil. reflexivity.
  - intros Hne. rewrite Hrole. destruct (users data); congruence.
  - intros Hadm. rewrite Hrole in Hadm. destruct (users data); congruence.
  - intros Hnil. rewrite Hrole, Hnil. reflexivity.
Qed.

(** The first two sign-ups on the initial snapshot: an Admin, then a User. *)
Lemma addUser_first_then_second
  (cur : list Currency.t) (a b : NewUser.t) (ida idb : string) :
  let s0 := initialData cur in
  let s1 := snd (addUser s0 s0 a ida) in
  User.role (fst (addUser s0 s0 a ida)) = ADMIN
  /\ User.role (fst (addUser s1 s1 b idb)) = USER.
Proof. split; reflexivity. Qed.

(** ** Updating a transaction *)

Lemma with_transactions_same (s : AppData) :
  with_transactions s (transactions s) = s.
Proof. destruct s; reflexivity. Qed.

Lemma with_users_same (s : AppData) : with_users s (users s) = s.
Proof. destruct s; reflexivity. Qed.

Lemma replace_absent (t : Transaction.t) (l : list Transaction.t) :
  Transaction.id t ∉ map Transaction.id l ->
  map (fun x => if decide (Transaction.id x = Transaction.id t) then t else x) l
  = l.
Proof.
  induction l as [|x l IH]; simpl; intros Hnot; [reflexivity|].
  apply not_elem_of_cons in Hnot as [Hx Hl].
  rewrite IH by assumption.
  case_decide; congruence.
Qed.

(** C9. [updateTransaction] on a transaction whose identifier is not
    among the stored ones returns the snapshot it was given.  In general it
    keeps the length and the order of the transaction list, puts the given
    transaction at every position whose transaction has its identifier and
    keeps the transaction of every other position, and touches no other
    collection. *)
Theorem updateTransaction_absent_is_noop
  (prev : AppData) (t : Transaction.t) :
  let next := updateTransaction prev t in
  (Transaction.id t ∉ map Transaction.id (transactions prev) -> next = prev)
  /\ length (transactions next) = length (transactions prev)
  /\ (forall (i : nat) (old : Transaction.t),
         transactions prev !! i = Some old ->
         (Transaction.id old = Transaction.id t ->
          transactions next !! i = Some t)
         /\ (Transaction.id old <> Transaction.id t ->
             transactions next !! i = Some old))
  /\ users next = users prev
  /\ profiles next = profiles prev
  /\ categories next = categories prev
  /\ incomeSources next = incomeSources prev
  /\ currencies next = currencies prev.
Proof.
  intros next. subst next. unfold updateTransaction.
  split; [|split; [|split]].
  - intros Hnot. rewrite replace_absent by assumption.
    apply with_transactions_same.
  - simpl. apply length_map.
  - intros i old Hold. simpl. rewrite list_lookup_fmap, Hold. simpl.
    split; intros Hid; case_decide; congruence.
  - repeat split.
Qed.

(** ** Resetting a password *)

Lemma with_users_insert_frame (s : AppData) (i : nat) (u : User.t) :
  usersChangedOnlyAt s (with_users s (<[i := u]> (users s))) i.
Proof.
  unfold usersChangedOnlyAt; simpl.
  split; [apply length_insert|].
  split; [|repeat split].
  intros j Hj. apply list_lookup_insert_ne. congruence.
Qed.

Lemma resetPassword_found (data prev : AppData) (email : string)
  (i : nat) (u : User.t) :
  list_find
    (fun v => JS.toLowerCase (User.email v) = JS.toLowerCase email)
    (users data) = Some (i, u) ->
  resetPassword data prev email
  = (true,
     with_users prev
       (<[i := User.mk (User.id u) (User.email u) (simpleHash "password123")
                       (User.role u)]> (users data))).
Proof. intros Hfind. unfold resetPassword. rewrite Hfind. reflexivity. Qed.

Lemma resetPassword_not_found (data prev : AppData) (email : string) :
  list_find
    (fun v => JS.toLowerCase (User.email v) = JS.toLowerCase email)
    (users data) = None ->
  resetPassword data prev email = (false, prev).
Proof. intros Hfind. unfold resetPassword. rewrite Hfind. reflexivity. Qed.

(** C10. When no user has the given e-mail up to case, [resetPassword]
    returns [false] and the snapshot is the one it started from.  When some
    user has it, the call returns [true]; the first such user keeps
    identifier, e-mail and role and gets the verifier of the default
    password; every other user and every other collection stay as they
    were. *)
Theorem resetPassword_unknown_email_is_noop (s : AppData) (email : string) :
  (Forall (fun u => ~ emailMatches email u) (users s) ->
   resetPassword s s email = (false, s))
  /\ (Exists (emailMatches email) (users s) ->
      exists (i : nat) (u u' : User.t) (next : AppData),
        resetPassword s s email = (true, next)
        /\ users s !! i = Some u
        /\ emailMatches email u
        /\ (forall (j : nat) (v : User.t),
               users s !! j = Some v -> (j < i)%nat -> ~ emailMatches email v)
        /\ users next !! i = Some u'
        /\ User.id u' = User.id u
        /\ User.email u' = User.email u
        /\ User.role u' = User.role u
        /\ User.passwordHash u' = simpleHash "password123"
        /\ usersChangedOnlyAt s next i).
Proof.
  split.
  - intros Hnone. apply resetPassword_not_found.
    apply list_find_None. exact Hnone.
  - intros Hsome.
    destruct (list_find
                (fun v => JS.toLowerCase (User.email v) = JS.toLowerCase email)
                (users s)) as [[i u]|] eqn:Hfind.
    + pose proof Hfind as Hspec.
      apply list_find_Some in Hspec as (Hi & Hu & Hfirst).
      eexists i, u, _, _.
      split; [apply resetPassword_found; exact Hfind|].
      split; [exact Hi|]. split; [exact Hu|]. split; [exact Hfirst|].
      split.
      { simpl. apply list_lookup_insert_eq. eapply lookup_lt_Some; eauto. }
      repeat (split; [reflexivity|]).
      apply with_users_insert_frame.
    + apply list_find_None in Hfind.
      apply Exists_exists in Hsome as (v & Hv & Hm).
      rewrite Forall_forall in Hfind. exfalso. eapply Hfind; eauto.
Qed.

(** ** Changing a role *)

Lemma updateUserRole_blocked (data prev : AppData) (userId : string)
  (i : nat) (u : User.t) :
  designates data userId i u ->
  User.role u = ADMIN -> (adminCount data <= 1)%nat ->
  updateUserRole data prev userId USER = (false, prev).
Proof.
  unfold designates, adminCount. intros Hfind Hrole Hcount.
  unfold updateUserRole. rewrite Hfind.
  rewrite decide_True by (split; [exact Hrole | reflexivity]).
  rewrite decide_True by exact Hcount. reflexivity.
Qed.

Lemma updateUserRole_applied (data prev : AppData) (userId : string)
  (role : Role) (i : nat) (u : User.t) :
  designates data userId i u ->
  (User.role u = ADMIN -> role = USER -> (2 <= adminCount data)%nat) ->
  updateUserRole data prev userId role
  = (true,
     with_users prev
       (<[i := User.mk (User.id u) (User.email u) (User.passwordHash u) role]>
          (users data))).
Proof.
  unfold designates, adminCount. intros Hfind Hok.
  unfold updateUserRole. rewrite Hfind.
  destruct (decide (User.role u = ADMIN /\ role = USER)) as [[Hu Hr]|Hno];
    [|reflexivity].
  rewrite decide_False; [reflexivity|].
  specialize (Hok Hu Hr). lia.
Qed.

(** With unique identifiers, the identifier of a stored user designates
    that user. *)
Lemma designates_by_unique_id (s : AppData) (u : User.t) :
  NoDup (map User.id (users s)) -> u ∈ users s ->
  exists i : nat, designates s (User.id u) i u.
Proof.
  intros Hnodup Hin. unfold designates.
  destruct (list_find (fun v => User.id v = User.id u) (users s))
    as [[i v]|] eqn:Hfind.
  - exists i. apply list_find_Some in Hfind as (Hi & Hid & _).
    apply list_elem_of_lookup in Hin as [j Hj].
    assert (i = j) as ->.
    { eapply NoDup_lookup; [exact Hnodup| |].
      - rewrite list_lookup_fmap, Hi. reflexivity.
      - rewrite list_lookup_fmap, Hj. simpl. congruence. }
    congruence.
  - apply list_find_None in Hfind. rewrite Forall_forall in Hfind.
    exfalso. eapply Hfind; eauto.
Qed.

(** C2. Let [userId] designate the user [u].  If [u] is the only Admin,
    demoting [u] returns [false] and the snapshot stays as it was.  If [u] is
    one of two or more Admins, demoting [u] returns [true], and so do making
    a User an Admin, an Admin an Admin, and a User a User; in each of these
    cases the user [u] gets the requested role and keeps identifier, e-mail
    and verifier, and every other user and collection is left alone. *)
Theorem updateUserRole_last_admin_guard
  (s : AppData) (userId : string) (i : nat) (u : User.t) :
  designates s userId i u ->
  let changed (role : Role) (r : bool * AppData) :=
    fst r = true
    /\ users (snd r) !! i
       = Some (User.mk (User.id u) (User.email u) (User.passwordHash u) role)
    /\ usersChangedOnlyAt s (snd r) i in
  (User.role u = ADMIN -> adminCount s = 1%nat ->
   updateUserRole s s userId USER = (false, s))
  /\ (User.role u = ADMIN -> (2 <= adminCount s)%nat ->
      changed USER (updateUserRole s s userId USER))
  /\ (User.role u = USER -> changed ADMIN (updateUserRole s s userId ADMIN))
  /\ (User.role u = ADMIN -> changed ADMIN (updateUserRole s s userId ADMIN))
  /\ (User.role u = USER -> changed USER (updateUserRole s s userId USER)).
Proof.
  intros Hd changed.
  assert (Hi : (i < length (users s))%nat).
  { apply list_find_Some in Hd as (Hi & _). eapply lookup_lt_Some; eauto. }
  assert (Happlied : forall role,
             (User.role u = ADMIN -> role = USER -> (2 <= adminCount s)%nat) ->
             changed role (updateUserRole s s userId role)).
  { intros role Hok. unfold changed.
    rewrite (updateUserRole_applied s s userId role i u Hd Hok). simpl.
    split; [reflexivity|]. split; [apply list_lookup_insert_eq; exact Hi|].
    apply with_users_insert_frame. }
  split; [|split; [|split; [|split]]].
  - intros Hrole Hone. eapply updateUserRole_blocked; eauto. lia.
  - intros Hrole Htwo. apply Happlied. intros _ _. exact Htwo.
  - intros Hrole. apply Happlied. congruence.
  - intros Hrole. apply Happlied. congruence.
  - intros Hrole. apply Happlied. congruence.
Qed.

Lemma updateUserRole_last_admin_guard_witness :
  designates Sample.store "u1" 0 Sample.alice
  /\ updateUserRole Sample.store Sample.store "u1" USER
     = (false, Sample.store).
Proof.
  split; [reflexivity|].
  apply (updateUserRole_last_admin_guard Sample.store "u1" 0 Sample.alice);
    reflexivity.
Defined.

(** ** Deleting a user *)

Lemma profileIdsToDelete_spec (s : AppData) (userId profileId : string) :
  profileId ∈ (list_to_set
                 (map Profile.id
                      (filter (fun p => Profile.userId p = userId)
                              (profiles s))) : gset string)
  <-> ownedBy s userId profileId.
Proof.
  unfold ownedBy. rewrite elem_of_list_to_set, Exists_exists.
  change (map Profile.id) with (fmap (M := list) Profile.id).
  rewrite list_elem_of_fmap.
  split.
  - intros (p & -> & Hp). apply list_elem_of_filter in Hp as [Hu Hin].
    exists p. auto.
  - intros (p & Hin & Hu & Hid). exists p. split; [congruence|].
    apply list_elem_of_filter. auto.
Qed.

Lemma ownedBy_unique (s : AppData) (userId : string) (p : Profile.t) :
  NoDup (map Profile.id (profiles s)) ->
  p ∈ profiles s -> Profile.userId p <> userId ->
  ~ ownedBy s userId (Profile.id p).
Proof.
  intros Hnodup Hin Hother Howned.
  apply Exists_exists in Howned as (q & Hq & Hu & Hid).
  apply list_elem_of_lookup in Hin as [i Hi].
  apply list_elem_of_lookup in Hq as [j Hj].
  assert (i = j) as ->.
  { eapply NoDup_lookup; [exact Hnodup| |].
    - rewrite list_lookup_fmap, Hi. reflexivity.
    - rewrite list_lookup_fmap, Hj. simpl. congruence. }
  congruence.
Qed.

(** C3. [deleteUser userId] keeps, in their order, exactly the users
    whose identifier is not [userId], the profiles whose owner is not
    [userId], and the transactions, categories and income sources whose
    profile is not one of the profiles of [userId]; the currencies are
    untouched.  In particular every user with that identifier is gone, and
    when profile identifiers are unique, a profile of another user stays
    together with all of its transactions, categories and income sources. *)
Theorem deleteUser_cascade (prev : AppData) (userId : string) :
  let next := deleteUser prev userId in
  users next = filter (fun u => User.id u <> userId) (users prev)
  /\ profiles next
     = filter (fun p => Profile.userId p <> userId) (profiles prev)
  /\ transactions next
     = filter (fun t => ~ ownedBy prev userId (Transaction.profileId t))
              (transactions prev)
  /\ categories next
     = filter (fun c => ~ ownedBy prev userId (Category.profileId c))
              (categories prev)
  /\ incomeSources next
     = filter (fun x => ~ ownedBy prev userId (IncomeSource.profileId x))
              (incomeSources prev)
  /\ currencies next = currencies prev
  /\ (forall u : User.t, User.id u = userId -> u ∉ users next)
  /\ (NoDup (map Profile.id (profiles prev)) ->
      forall p : Profile.t,
        p ∈ profiles prev -> Profile.userId p <> userId ->
        p ∈ profiles next
        /\ (forall t, t ∈ transactions prev ->
                      Transaction.profileId t = Profile.id p ->
                      t ∈ transactions next)
        /\ (forall c, c ∈ categories prev ->
                      Category.profileId c = Profile.id p ->
                      c ∈ categories next)
        /\ (forall x, x ∈ incomeSources prev ->
                      IncomeSource.profileId x = Profile.id p ->
                      x ∈ incomeSources next)).
Proof.
  intros next. subst next. unfold deleteUser; simpl.
  assert (Hset : forall pid : string,
             pid ∉ (list_to_set
                      (map Profile.id
                           (filter (fun p => Profile.userId p = userId)
                                   (profiles prev))) : gset string)
             <-> ~ ownedBy prev userId pid).
  { intros pid. rewrite profileIdsToDelete_spec. reflexivity. }
  split; [reflexivity|]. split; [reflexivity|].
  split; [apply list_filter_iff; intros t; apply Hset|].
  split; [apply list_filter_iff; intros c; apply Hset|].
  split; [apply list_filter_iff; intros x; apply Hset|].
  split; [reflexivity|].
  split.
  - intros u Hid Hin. apply list_elem_of_filter in Hin as [Hne _].
    contradiction.
  - intros Hnodup p Hin Hother.
    pose proof (ownedBy_unique prev userId p Hnodup Hin Hother) as Hfree.
    split; [apply list_elem_of_filter; auto|].
    split; [|split].
    + intros t Ht Hp. apply list_elem_of_filter. split; [|exact Ht].
      apply Hset. rewrite Hp. exact Hfree.
    + intros c Hc Hp. apply list_elem_of_filter. split; [|exact Hc].
      apply Hset. rewrite Hp. exact Hfree.
    + intros x Hx Hp. apply list_elem_of_filter. split; [|exact Hx].
      apply Hset. rewrite Hp. exact Hfree.
Qed.

(** ** Deleting a currency *)

Lemma usedCurrencies_spec (s : AppData) (code : string) :
  code ∈ usedCurrencies (profiles s) <-> referenced s code.
Proof.
  unfold usedCurrencies, referenced.
  rewrite elem_of_list_to_set, Exists_exists.
  change (map Profile.currencyCode)
    with (fmap (M := list) Profile.currencyCode).
  rewrite list_elem_of_fmap.
  split.
  - intros (p & -> & Hp). eauto.
  - intros (p & Hp & <-). eauto.
Qed.

(** C5, as stated, fails on the store: a currency that a profile uses is
    removed by [deleteCurrency] all the same. *)
Lemma deleteCurrency_ignores_references :
  referenced Sample.store "USD"
  /\ currencies Sample.store = [Sample.usd]
  /\ currencies (deleteCurrency Sample.store "USD") = []
  /\ deleteCurrency Sample.store "USD" <> Sample.store.
Proof.
  split; [apply Exists_cons_hd; reflexivity|].
  split; [reflexivity|]. split; [reflexivity|].
  intros Heq. apply (f_equal currencies) in Heq. discriminate Heq.
Qed.

(** C5, amended.  The block is the one of the currency screen: while
    some profile uses the code of a currency its delete control is disabled,
    and a click leaves the snapshot as it is; when no profile uses the code
    the click runs [deleteCurrency].  [deleteCurrency] itself keeps, in
    their order, exactly the currencies whose code is another one, used or
    not, and touches nothing else. *)
Theorem CurrencyManager_blocks_referenced (data : AppData) (c : Currency.t) :
  (referenced data (Currency.code c) ->
   CurrencyManager_disabled (profiles data) c = true
   /\ CurrencyManager_delete data c = data)
  /\ (~ referenced data (Currency.code c) ->
      CurrencyManager_disabled (profiles data) c = false
      /\ CurrencyManager_delete data c = deleteCurrency data (Currency.code c))
  /\ (forall code : string,
        let next := deleteCurrency data code in
        (forall x : Currency.t,
            x ∈ currencies next <-> x ∈ currencies data /\ Currency.code x <> code)
        /\ currencies next
           = filter (fun x => Currency.code x <> code) (currencies data)
        /\ users next = users data
        /\ profiles next = profiles data
        /\ transactions next = transactions data
        /\ categories next = categories data
        /\ incomeSources next = incomeSources data).
Proof.
  split; [|split].
  - intros Href. apply usedCurrencies_spec in Href.
    assert (Hd : CurrencyManager_disabled (profiles data) c = true).
    { unfold CurrencyManager_disabled. apply bool_decide_eq_true. exact Href. }
    split; [exact Hd|]. unfold CurrencyManager_delete. rewrite Hd. reflexivity.
  - intros Hfree. rewrite <- usedCurrencies_spec in Hfree.
    assert (Hd : CurrencyManager_disabled (profiles data) c = false).
    { unfold CurrencyManager_disabled. apply bool_decide_eq_false. exact Hfree. }
    split; [exact Hd|]. unfold CurrencyManager_delete. rewrite Hd. reflexivity.
  - intros code next. subst next. unfold deleteCurrency; simpl.
    split; [|repeat split].
    intros x. rewrite list_elem_of_filter. tauto.
Qed.

(** ** The Admin invariant along histories *)

Section AdminInvariant.

Variable DEFAULT_CATEGORIES : list Template.t.
Variable DEFAULT_INCOME_SOURCES : list Template.t.

Local Abbreviation step := (step DEFAULT_CATEGORIES DEFAULT_INCOME_SOURCES).
Local Abbreviation run := (run DEFAULT_CATEGORIES DEFAULT_INCOME_SOURCES).

Lemma adminInvariant_same_users (s s' : AppData) :
  users s' = users s -> adminInvariant s -> adminInvariant s'.
Proof. unfold adminInvariant, hasAdmin. intros ->. auto. Qed.

Lemma adminInvariant_addUser (s : AppData) (user : NewUser.t) (uuid : string) :
  adminInvariant s -> adminInvariant (snd (addUser s s user uuid)).
Proof.
  unfold adminInvariant, hasAdmin. intros Hinv _.
  rewrite addUser_appends, Exists_app.
  destruct (users s) as [|u us] eqn:Hus.
  - right. apply Exists_cons_hd. rewrite addUser_role, Hus. reflexivity.
  - left. apply Hinv. discriminate.
Qed.

(** Overwriting a user that is not an Admin keeps the Admins there are. *)
Lemma Exists_admin_insert_other (l : list User.t) (i : nat) (u x : User.t) :
  l !! i = Some u -> User.role u <> ADMIN ->
  Exists (fun v => User.role v = ADMIN) l ->
  Exists (fun v => User.role v = ADMIN) (<[i := x]> l).
Proof.
  intros Hi Hu Hex. apply Exists_exists in Hex as (v & Hv & Hrole).
  apply list_elem_of_lookup in Hv as [j Hj].
  apply Exists_exists. exists v. split; [|exact Hrole].
  apply list_elem_of_lookup. exists j.
  rewrite list_lookup_insert_ne; [exact Hj|].
  intros ->. congruence.
Qed.

(** With two Admins or more, overwriting one user leaves an Admin. *)
Lemma Exists_admin_insert_two (l : list User.t) (i : nat) (x : User.t) :
  (2 <= length (filter (fun v => User.role v = ADMIN) l))%nat ->
  Exists (fun v => User.role v = ADMIN) (<[i := x]> l).
Proof.
  revert i. induction l as [|y l IH]; intros i Hlen; simpl in Hlen; [lia|].
  rewrite filter_cons in Hlen.
  destruct i as [|i]; simpl.
  - apply Exists_cons_tl.
    destruct (decide (User.role y = ADMIN)); simpl in Hlen.
    + destruct (filter (fun v => User.role v = ADMIN) l) as [|a f] eqn:Hf;
        simpl in Hlen; [lia|].
      assert (Ha : a ∈ filter (fun v => User.role v = ADMIN) l)
        by (rewrite Hf; apply list_elem_of_here).
      apply list_elem_of_filter in Ha as [Hrole Hin].
      apply Exists_exists. eauto.
    + destruct (filter (fun v => User.role v = ADMIN) l) as [|a f] eqn:Hf;
        simpl in Hlen; [lia|].
      assert (Ha : a ∈ filter (fun v => User.role v = ADMIN) l)
        by (rewrite Hf; apply list_elem_of_here).
      apply list_elem_of_filter in Ha as [Hrole Hin].
      apply Exists_exists. eauto.
  - destruct (decide (User.role y = ADMIN)) as [Hy|Hy]; simpl in Hlen.
    + apply Exists_cons_hd. exact Hy.
    + apply Exists_cons_tl. apply IH. exact Hlen.
Qed.

Lemma adminInvariant_updateUserRole (s : AppData) (userId : string)
  (role : Role) :
  adminInvariant s -> adminInvariant (snd (updateUserRole s s userId role)).
Proof.
  intros Hinv. unfold updateUserRole.
  destruct (list_find (fun u => User.id u = userId) (users s))
    as [[i u]|] eqn:Hfind; [|exact Hinv].
  pose proof Hfind as Hspec. apply list_find_Some in Hspec as (Hi & _ & _).
  assert (Hne : users s <> []) by (intros Hnil; rewrite Hnil in Hi; discriminate).
  assert (Hlt : (i < length (users s))%nat) by (eapply lookup_lt_Some; eauto).
  destruct (decide (User.role u = ADMIN /\ role = USER)) as [[Hu Hr]|Hno].
  - destruct (decide (length (filter (fun v => User.role v = ADMIN) (users s))
                      <= 1)%nat) as [Hle|Hgt]; [exact Hinv|].
    intros _. unfold hasAdmin; simpl.
    apply Exists_admin_insert_two. lia.
  - intros _. unfold hasAdmin; simpl.
    destruct role.
    + apply Exists_exists. eexists. split.
      * apply list_elem_of_lookup. exists i.
        apply list_lookup_insert_eq. exact Hlt.
      * reflexivity.
    + apply (Exists_admin_insert_other _ i u); [exact Hi| |apply Hinv, Hne].
      intros Hu. apply Hno. split; [exact Hu | reflexivity].
Qed.

Lemma adminInvariant_resetPassword (s : AppData) (email : string) :
  adminInvariant s -> adminInvariant (snd (resetPassword s s email)).
Proof.
  intros Hinv. unfold resetPassword.
  destruct (list_find _ (users s)) as [[i u]|] eqn:Hfind; [|exact Hinv].
  apply list_find_Some in Hfind as (Hi & _ & _).
  assert (Hne : users s <> []) by (intros Hnil; rewrite Hnil in Hi; discriminate).
  assert (Hlt : (i < length (users s))%nat) by (eapply lookup_lt_Some; eauto).
  intros _. unfold hasAdmin; simpl.
  destruct (decide (User.role u = ADMIN)) as [Hu|Hu].
  - apply Exists_exists. eexists. split.
    + apply list_elem_of_lookup. exists i.
      apply list_lookup_insert_eq. exact Hlt.
    + exact Hu.
  - apply (Exists_admin_insert_other _ i u); [exact Hi|exact Hu|apply Hinv, Hne].
Qed.

Lemma hasAdmin_deleteUser (s : AppData) (userId : string) :
  adminSurvives s userId -> hasAdmin (deleteUser s userId).
Proof.
  unfold adminSurvives, hasAdmin. intros Hex.
  apply Exists_exists in Hex as (a & Ha & Hrole & Hid).
  apply Exists_exists. exists a. split; [|exact Hrole].
  unfold deleteUser; simpl. apply list_elem_of_filter. auto.
Qed.

(** One step of a history keeps the invariant, a deletion under its
    guard. *)
Lemma adminInvariant_step (s : AppData) (op : Op) :
  deletionKeepsAdmin s op -> adminInvariant s -> adminInvariant (step s op).
Proof.
  intros Hguard Hinv.
  destruct op; simpl;
    try (apply (adminInvariant_same_users s); [reflexivity | exact Hinv]).
  - apply adminInvariant_addUser. exact Hinv.
  - intros _. apply hasAdmin_deleteUser. exact Hguard.
  - apply adminInvariant_resetPassword. exact Hinv.
  - apply adminInvariant_updateUserRole. exact Hinv.
Qed.

Lemma adminInvariant_run (s : AppData) (ops : list Op) :
  adminInvariant s ->
  guardedHistory DEFAULT_CATEGORIES DEFAULT_INCOME_SOURCES s ops ->
  adminInvariant (run s ops).
Proof.
  revert s. induction ops as [|op ops IH]; intros s Hinv Hg; [exact Hinv|].
  destruct Hg as [Hop Hrest]. simpl.
  apply IH; [|exact Hrest].
  apply adminInvariant_step; assumption.
Qed.

End AdminInvariant.

(** What the user screen lets through is a guarded deletion: the signed-in
    user is an Admin of the store and is not the one deleted. *)
Lemma UserManager_delete_guarded (data : AppData) (currentUser user : User.t) :
  currentUser ∈ users data ->
  UserManager_disabled currentUser user = false ->
  adminSurvives data (User.id user).
Proof.
  unfold UserManager_disabled, adminSurvives. intros Hin Hen.
  apply orb_false_iff in Hen as [Hadm Hself].
  apply negb_false_iff, bool_decide_eq_true in Hadm.
  apply bool_decide_eq_false in Hself.
  apply Exists_exists. exists currentUser. split; [exact Hin|]. split; congruence.
Qed.

(** A click on the delete control of the user screen keeps the invariant,
    the signed-in user being a user of the store. *)
Lemma UserManager_delete_keeps_admin
  (data : AppData) (currentUser user : User.t) :
  currentUser ∈ users data ->
  adminInvariant data ->
  adminInvariant (UserManager_delete data currentUser user).
Proof.
  intros Hin Hinv. unfold UserManager_delete.
  destruct (UserManager_disabled currentUser user) eqn:Hd; [exact Hinv|].
  intros _. apply hasAdmin_deleteUser.
  eapply UserManager_delete_guarded; eauto.
Qed.

(** C1, as stated, fails: after two sign-ups, deleting the first user
    leaves one user, who is no Admin. *)
Lemma deleteUser_breaks_adminInvariant :
  users (run Sample.categoryTemplates Sample.sourceTemplates
             (initialData [Sample.usd]) Sample.lockout)
  = [Sample.bob]
  /\ ~ adminInvariant
        (run Sample.categoryTemplates Sample.sourceTemplates
             (initialData [Sample.usd]) Sample.lockout).
Proof.
  split; [reflexivity|].
  intros Hinv.
  assert (Hadm : hasAdmin
                   (run Sample.categoryTemplates Sample.sourceTemplates
                        (initialData [Sample.usd]) Sample.lockout))
    by (apply Hinv; discriminate).
  apply Exists_exists in Hadm as (u & Hu & Hrole).
  apply list_elem_of_singleton in Hu. subst u. discriminate Hrole.
Qed.

(** C1, amended.  In every snapshot reached from the initial one by a
    history of the operations of the store in which each [deleteUser] is
    issued while an Admin with another identifier exists (what the user
    screen lets through), some user is an Admin whenever there is a user. *)
Theorem adminInvariant_of_guarded_history
  (DEFAULT_CATEGORIES DEFAULT_INCOME_SOURCES : list Template.t)
  (DEFAULT_CURRENCIES : list Currency.t) (ops : list Op) :
  guardedHistory DEFAULT_CATEGORIES DEFAULT_INCOME_SOURCES
                 (initialData DEFAULT_CURRENCIES) ops ->
  adminInvariant
    (run DEFAULT_CATEGORIES DEFAULT_INCOME_SOURCES
         (initialData DEFAULT_CURRENCIES) ops).
Proof.
  intros Hg. apply adminInvariant_run; [|exact Hg].
  intros Hne. exfalso. apply Hne. reflexivity.
Qed.

Lemma adminInvariant_of_guarded_history_witness :
  guardedHistory Sample.categoryTemplates Sample.sourceTemplates
                 (initialData [Sample.usd]) Sample.handover
  /\ adminInvariant
       (run Sample.categoryTemplates Sample.sourceTemplates
            (initialData [Sample.usd]) Sample.handover).
Proof.
  assert (Hg : guardedHistory Sample.categoryTemplates Sample.sourceTemplates
                 (initialData [Sample.usd]) Sample.handover).
  { simpl. repeat split.
    apply Exists_cons_tl, Exists_cons_hd. split; [reflexivity|discriminate]. }
  split; [exact Hg|].
  apply (adminInvariant_of_guarded_history _ _ _ _ Hg).
Defined.

(** ** Seeding a profile *)

Lemma append_assoc (a b c : string) : (a +:+ b) +:+ c = a +:+ (b +:+ c).
Proof.
  induction a as [|x a IH]; [reflexivity|].
  change (String x ((a +:+ b) +:+ c) = String x (a +:+ (b +:+ c))).
  rewrite IH. reflexivity.
Qed.

Lemma length_append (a b : string) :
  String.length (a +:+ b) = (String.length a + String.length b)%nat.
Proof.
  induction a as [|x a IH]; [reflexivity|].
  change (S (String.length (a +:+ b)) = S (String.length a + String.length b)).
  rewrite IH. reflexivity.
Qed.

Section Seeding.

Variable DEFAULT_CATEGORIES : list Template.t.
Variable DEFAULT_INCOME_SOURCES : list Template.t.

Lemma seedCategory_ids (pid : string) (gen : nat -> string) (a : nat)
  (l : list Template.t) :
  map Category.id (imap (fun i cat => seedCategory pid (gen (a + i)%nat) cat) l)
  = map (seededId pid gen) (seq a (length l)).
Proof.
  apply list_eq. intros i.
  change (map Category.id) with (fmap (M := list) Category.id).
  change (map (seededId pid gen)) with (fmap (M := list) (seededId pid gen)).
  rewrite !list_lookup_fmap, list_lookup_imap.
  destruct (l !! i) as [x|] eqn:Hi; simpl.
  - rewrite lookup_seq_lt by (eapply lookup_lt_Some; eauto). reflexivity.
  - rewrite lookup_seq_ge by (apply lookup_ge_None; exact Hi). reflexivity.
Qed.

Lemma seedIncomeSource_ids (pid : string) (gen : nat -> string) (a : nat)
  (l : list Template.t) :
  map IncomeSource.id
      (imap (fun i src => seedIncomeSource pid (gen (a + i)%nat) src) l)
  = map (seededId pid gen) (seq a (length l)).
Proof.
  apply list_eq. intros i.
  change (map IncomeSource.id) with (fmap (M := list) IncomeSource.id).
  change (map (seededId pid gen)) with (fmap (M := list) (seededId pid gen)).
  rewrite !list_lookup_fmap, list_lookup_imap.
  destruct (l !! i) as [x|] eqn:Hi; simpl.
  - rewrite lookup_seq_lt by (eapply lookup_lt_Some; eauto). reflexivity.
  - rewrite lookup_seq_ge by (apply lookup_ge_None; exact Hi). reflexivity.
Qed.

Lemma seedCategory_names (pid : string) (f : nat -> string)
  (l : list Template.t) :
  map Category.name (imap (fun i cat => seedCategory pid (f i) cat) l)
  = map Template.name l.
Proof.
  apply list_eq. intros i.
  change (map Category.name) with (fmap (M := list) Category.name).
  change (map Template.name) with (fmap (M := list) Template.name).
  rewrite !list_lookup_fmap, list_lookup_imap.
  destruct (l !! i); reflexivity.
Qed.

Lemma seedIncomeSource_names (pid : string) (f : nat -> string)
  (l : list Template.t) :
  map IncomeSource.name (imap (fun i src => seedIncomeSource pid (f i) src) l)
  = map Template.name l.
Proof.
  apply list_eq. intros i.
  change (map IncomeSource.name) with (fmap (M := list) IncomeSource.name).
  change (map Template.name) with (fmap (M := list) Template.name).
  rewrite !list_lookup_fmap, list_lookup_imap.
  destruct (l !! i); reflexivity.
Qed.

Lemma seededId_endsWith (pid : string) (gen : nat -> string) (k : nat) :
  endsWith (seededId pid gen k) (gen k).
Proof. exists (pid +:+ "-"). unfold seededId. symmetry. apply append_assoc. Qed.

Lemma seededId_inj (pid : string) (gen : nat -> string) (j k : nat) :
  seededId pid gen j = seededId pid gen k -> gen j = gen k.
Proof.
  unfold seededId. intros Heq.
  apply (inj (String.app pid)) in Heq.
  apply (inj (String.app "-")) in Heq. exact Heq.
Qed.

Lemma seededId_longer (pid : string) (gen : nat -> string) (k : nat) :
  seededId pid gen k <> pid.
Proof.
  unfold seededId. intros Heq. apply (f_equal String.length) in Heq.
  rewrite !length_append in Heq. simpl in Heq. lia.
Qed.

(** C8. Let the two template tables be non-empty and the draws of the
    call be fresh.  Then [addProfile] appends to the categories a non-empty
    list with the names of the category templates, and to the income sources
    a non-empty list with the names of the source templates; each appended
    entity carries the identifier of the new profile as [profileId]; the
    identifiers of the appended entities are pairwise distinct, none of them
    is an identifier the snapshot held before (those of the defaults of
    earlier profiles among them), and none is the identifier of the new
    profile. *)
Theorem addProfile_seeds_fresh_defaults
  (prev : AppData) (userId : string) (profile : NewProfile.t)
  (gen : nat -> string) :
  DEFAULT_CATEGORIES <> [] ->
  DEFAULT_INCOME_SOURCES <> [] ->
  freshDraws prev gen
    (1 + length DEFAULT_CATEGORIES + length DEFAULT_INCOME_SOURCES) ->
  let r := addProfile DEFAULT_CATEGORIES DEFAULT_INCOME_SOURCES
                      prev userId profile gen in
  exists (cs : list Category.t) (ss : list IncomeSource.t),
    categories (snd r) = categories prev ++ cs
    /\ incomeSources (snd r) = incomeSources prev ++ ss
    /\ cs <> [] /\ ss <> []
    /\ map Category.name cs = map Template.name DEFAULT_CATEGORIES
    /\ map IncomeSource.name ss = map Template.name DEFAULT_INCOME_SOURCES
    /\ Forall (fun c => Category.profileId c = Profile.id (fst r)) cs
    /\ Forall (fun x => IncomeSource.profileId x = Profile.id (fst r)) ss
    /\ NoDup (map Category.id cs ++ map IncomeSource.id ss)
    /\ (forall x : string,
          x ∈ map Category.id cs ++ map IncomeSource.id ss ->
          (x ∉ storeIds prev) /\ x <> Profile.id (fst r)).
Proof.
  intros Hcats Hsrcs [Hinj Hfresh] r.
  set (nc := length DEFAULT_CATEGORIES) in *.
  set (ns := length DEFAULT_INCOME_SOURCES) in *.
  set (pid := gen 0%nat).
  set (cs := imap (fun i cat => seedCategory pid (gen (1 + i)%nat) cat)
                  DEFAULT_CATEGORIES).
  set (ss := imap (fun i src => seedIncomeSource pid (gen (1 + nc + i)%nat) src)
                  DEFAULT_INCOME_SOURCES).
  assert (Hids : map Category.id cs ++ map IncomeSource.id ss
                 = map (seededId pid gen) (seq 1 (nc + ns))).
  { unfold cs, ss. rewrite seedCategory_ids, seedIncomeSource_ids.
    rewrite <- map_app. f_equal. fold nc ns.
    change (seq 1 nc ++ seq (1 + nc) ns = seq 1 (nc + ns)).
    symmetry. apply seq_app. }
  exists cs, ss.
  split; [reflexivity|]. split; [reflexivity|].
  split.
  { intros Hnil. apply (f_equal length) in Hnil. unfold cs in Hnil.
    rewrite length_imap in Hnil. destruct DEFAULT_CATEGORIES; [congruence|].
    discriminate Hnil. }
  split.
  { intros Hnil. apply (f_equal length) in Hnil. unfold ss in Hnil.
    rewrite length_imap in Hnil. destruct DEFAULT_INCOME_SOURCES; [congruence|].
    discriminate Hnil. }
  split; [apply seedCategory_names|]. split; [apply seedIncomeSource_names|].
  split.
  { apply Forall_forall. intros c Hc. apply list_elem_of_lookup in Hc as [i Hi].
    unfold cs in Hi. apply list_lookup_imap_Some in Hi as (t & _ & ->).
    reflexivity. }
  split.
  { apply Forall_forall. intros x Hx. apply list_elem_of_lookup in Hx as [i Hi].
    unfold ss in Hi. apply list_lookup_imap_Some in Hi as (t & _ & ->).
    reflexivity. }
  rewrite Hids. split.
  - change (map (seededId pid gen)) with (fmap (M := list) (seededId pid gen)).
    apply NoDup_fmap_2_strong; [|apply NoDup_seq].
    intros j k Hj Hk Heq. apply elem_of_seq in Hj. apply elem_of_seq in Hk.
    apply Hinj; [lia|lia|]. eapply seededId_inj; eauto.
  - intros x Hx.
    change (map (seededId pid gen)) with (fmap (M := list) (seededId pid gen))
      in Hx.
    apply list_elem_of_fmap in Hx as (k & -> & Hk). apply elem_of_seq in Hk.
    split.
    + intros Hin. apply (Hfresh k _ ltac:(lia) Hin). apply seededId_endsWith.
    + apply seededId_longer.
Qed.

End Seeding.

(** A text shorter than [u] does not end with [u]. *)
Lemma endsWith_shorter (x u : string) :
  (String.length x < String.length u)%nat -> ~ endsWith x u.
Proof.
  intros Hlt [pre Heq]. apply (f_equal String.length) in Heq.
  rewrite length_append in Heq. lia.
Qed.

(** Two texts of the same length that end the same text are equal. *)
Lemma append_same_length (a c b d : string) :
  a +:+ b = c +:+ d -> String.length b = String.length d -> b = d.
Proof.
  revert c. induction a as [|x a IH]; intros [|y c] Heq Hlen.
  - exact Heq.
  - apply (f_equal String.length) in Heq.
    change (String.length b = S (String.length (c +:+ d))) in Heq.
    rewrite length_append in Heq. lia.
  - apply (f_equal String.length) in Heq.
    change (S (String.length (a +:+ b)) = String.length d) in Heq.
    rewrite length_append in Heq. lia.
  - injection Heq as _ Heq. eapply IH; eauto.
Qed.

(** Where the freshness assumption comes from: a draw [u] that differs from
    every earlier draw of its length stands at the end neither of an earlier
    draw nor of an identifier made of a profile identifier, a dash and an
    earlier draw. *)
Lemma fresh_draw_not_at_end (u x : string) :
  (String.length x = String.length u /\ x <> u)
  \/ (exists p v : string,
         x = p +:+ "-" +:+ v /\ String.length v = String.length u /\ v <> u) ->
  ~ endsWith x u.
Proof.
  intros [[Hlen Hne]|(p & v & -> & Hlen & Hne)] [pre Heq].
  - apply Hne. apply (append_same_length "" pre); [exact Heq | exact Hlen].
  - apply Hne. rewrite <- append_assoc in Heq.
    apply (append_same_length _ _ _ _ Heq Hlen).
Qed.

(** Freshness of the draws from the shape of the identifiers: the draws
    have the length of the identifiers issued so far and are none of them,
    and every stored identifier is an issued one, alone or after a profile
    identifier and a dash. *)
Lemma freshDraws_of_uuid_shape (s : AppData) (gen : nat -> string) (n : nat)
  (len : nat) (issued : list string) :
  (forall i j : nat, (i < n)%nat -> (j < n)%nat -> gen i = gen j -> i = j) ->
  (forall i : nat,
      (i < n)%nat -> String.length (gen i) = len /\ gen i ∉ issued) ->
  (forall v : string, v ∈ issued -> String.length v = len) ->
  (forall x : string,
      x ∈ storeIds s ->
      x ∈ issued
      \/ exists p v : string, v ∈ issued /\ x = p +:+ "-" +:+ v) ->
  freshDraws s gen n.
Proof.
  intros Hinj Hnew Hold Hshape. split; [exact Hinj|].
  intros i x Hi Hx. destruct (Hnew i Hi) as [Hlen Hnot].
  apply fresh_draw_not_at_end.
  destruct (Hshape x Hx) as [Hin|(p & v & Hin & ->)].
  - left. split; [rewrite Hlen; apply Hold; exact Hin|].
    intros ->. contradiction.
  - right. exists p, v. split; [reflexivity|].
    split; [rewrite Hlen; apply Hold; exact Hin|].
    intros ->. contradiction.
Qed.

Lemma sample_draws_fresh : freshDraws Sample.store Sample.draws 4.
Proof.
  split.
  - intros i j Hi Hj.
    destruct i as [|[|[|[|i]]]]; try lia;
      destruct j as [|[|[|[|j]]]]; try lia;
      intros Heq; try reflexivity; discriminate Heq.
  - intros i x Hi Hx. apply endsWith_shorter.
    assert (Hlen : String.length (Sample.draws i) = 6%nat).
    { destruct i as [|[|[|[|i]]]]; try lia; reflexivity. }
    rewrite Hlen.
    assert (Hall : Forall (fun y => (String.length y < 6)%nat)
                          (storeIds Sample.store)).
    { repeat constructor. }
    rewrite Forall_forall in Hall. apply Hall. exact Hx.
Defined.

Lemma addProfile_seeds_fresh_defaults_witness :
  let r := addProfile Sample.categoryTemplates Sample.sourceTemplates
                      Sample.store "u2" (NewProfile.mk "Work" "USD")
                      Sample.draws in
  exists (cs : list Category.t) (ss : list IncomeSource.t),
    categories (snd r) = categories Sample.store ++ cs
    /\ incomeSources (snd r) = incomeSources Sample.store ++ ss
    /\ cs <> [] /\ ss <> []
    /\ map Category.name cs = map Template.name Sample.categoryTemplates
    /\ map IncomeSource.name ss = map Template.name Sample.sourceTemplates
    /\ Forall (fun c => Category.profileId c = Profile.id (fst r)) cs
    /\ Forall (fun x => IncomeSource.profileId x = Profile.id (fst r)) ss
    /\ NoDup (map Category.id cs ++ map IncomeSource.id ss)
    /\ (forall x : string,
          x ∈ map Category.id cs ++ map IncomeSource.id ss ->
          (x ∉ storeIds Sample.store) /\ x <> Profile.id (fst r)).
Proof.
  apply (addProfile_seeds_fresh_defaults
           Sample.categoryTemplates Sample.sourceTemplates
           Sample.store "u2" (NewProfile.mk "Work" "USD") Sample.draws).
  - discriminate.
  - discriminate.
  - exact sample_draws_fresh.
Defined.

(** ** CSV import: what the loop keeps *)

Section ImportLoop.

Variable Date_toISOString : string -> option string.
Variable profileCategories : list Category.t.
Variable profileIncomeSources : list IncomeSource.t.

Local Abbreviation passes :=
  (Csv.passesChecks profileCategories profileIncomeSources).
Local Abbreviation processRow :=
  (Csv.processRow Date_toISOString profileCategories profileIncomeSources).
Local Abbreviation importRows :=
  (Csv.importRows Date_toISOString profileCategories profileIncomeSources).
Local Abbreviation handleImportCSV :=
  (Csv.handleImportCSV Date_toISOString profileCategories profileIncomeSources).

(** A line is skipped exactly when it fails a check; a skipped line raises
    nothing. *)
Lemma processRow_skipped_iff (header : list string) (line : string) :
  processRow header line = Csv.Skipped <-> passes header line = false.
Proof.
  unfold Csv.processRow, Csv.passesChecks.
  destruct (Csv.basicChecks _); simpl; [|tauto].
  destruct (Csv.resolves _ _ _); simpl; [|tauto].
  destruct (Date_toISOString _); [|split; discriminate].
  destruct (Csv.prop _ "paymentMethod"); split; discriminate.
Qed.

(** When the loop runs to its end, it has appended one transaction for each
    line that passes the checks, in the order of the lines. *)
Lemma importRows_appends (header lines : list string)
  (acc batch : list TransactionData.t) :
  importRows header lines acc = inr batch ->
  exists new : list TransactionData.t,
    batch = acc ++ new
    /\ length new
       = length (filter (fun line => passes header line = true) lines).
Proof.
  revert acc. induction lines as [|line lines IH]; intros acc Hrun.
  - injection Hrun as <-. exists []. split; [symmetry; apply app_nil_r|].
    reflexivity.
  - simpl in Hrun. rewrite filter_cons.
    destruct (processRow header line) as [|t|e] eqn:Hrow.
    + apply processRow_skipped_iff in Hrow.
      destruct (IH _ Hrun) as (new & -> & Hlen). exists new.
      split; [reflexivity|].
      rewrite decide_False by congruence. exact Hlen.
    + assert (Hpass : passes header line = true).
      { destruct (passes header line) eqn:Hp; [reflexivity|].
        apply processRow_skipped_iff in Hp. congruence. }
      destruct (IH _ Hrun) as (new & -> & Hlen). exists (t :: new).
      split; [rewrite <- app_assoc; reflexivity|].
      rewrite decide_True by exact Hpass. simpl. rewrite Hlen. reflexivity.
    + discriminate Hrun.
Qed.

(** The loop runs to its end when no line raises. *)
Lemma importRows_completes (header lines : list string)
  (acc : list TransactionData.t) :
  Forall (fun line => forall e, processRow header line <> Csv.Raised e) lines ->
  exists batch, importRows header lines acc = inr batch.
Proof.
  revert acc. induction lines as [|line lines IH]; intros acc Hall.
  - exists acc. reflexivity.
  - apply Forall_cons in Hall as [Hline Hrest]. simpl.
    destruct (processRow header line) as [|t|e] eqn:Hrow.
    + apply IH. exact Hrest.
    + apply IH. exact Hrest.
    + exfalso. eapply Hline; eauto.
Qed.

(** A success reports one transaction per data line that passes the
    checks, and at least one. *)
Lemma handleImportCSV_success_count (text : string)
  (batch : list TransactionData.t) (message : string) :
  handleImportCSV text = Csv.ImportSuccess batch message ->
  let lines := Csv.nonBlankLines text in
  let header := map JS.trim (JS.split "," (hd "" lines)) in
  length batch
  = length (filter (fun line => passes header line = true) (tl lines))
  /\ (0 < length batch)%nat.
Proof.
  intros Hrun lines header.
  unfold Csv.handleImportCSV in Hrun. cbv zeta in Hrun.
  change (Csv.nonBlankLines text) with lines in Hrun.
  change (map JS.trim (JS.split "," (hd "" lines))) with header in Hrun.
  destruct (decide (length lines < 2)%nat); [discriminate Hrun|].
  destruct (negb _); [discriminate Hrun|].
  destruct (importRows header (tl lines) []) as [e|new] eqn:Hrows;
    [discriminate Hrun|].
  destruct (decide (0 < length new)%nat) as [Hpos|]; [|discriminate Hrun].
  injection Hrun as <- _.
  apply importRows_appends in Hrows as (new' & -> & Hlen).
  split; [exact Hlen | exact Hpos].
Qed.

(** A file whose data lines all fail a check appends nothing and reports an
    error. *)
Lemma handleImportCSV_all_invalid (text : string) :
  let lines := Csv.nonBlankLines text in
  let header := map JS.trim (JS.split "," (hd "" lines)) in
  Forall (fun line => passes header line = false) (tl lines) ->
  exists message : string, handleImportCSV text = Csv.ImportError message.
Proof.
  intros lines header Hall. unfold Csv.handleImportCSV. cbv zeta.
  change (Csv.nonBlankLines text) with lines.
  change (map JS.trim (JS.split "," (hd "" lines))) with header.
  destruct (decide (length lines < 2)%nat); [eauto|].
  destruct (negb _); [eauto|].
  destruct (importRows_completes header (tl lines) []) as [batch Hrows].
  { eapply Forall_impl; [exact Hall|]. intros line Hfail e Hrow.
    apply processRow_skipped_iff in Hfail. congruence. }
  rewrite Hrows.
  apply importRows_appends in Hrows as (new & -> & Hlen).
  assert (Hnone : filter (fun line => passes header line = true) (tl lines) = []).
  { clear -Hall. induction (tl lines) as [|l ls IH]; [reflexivity|].
    apply Forall_cons in Hall as [Hl Hls]. rewrite filter_cons.
    rewrite decide_False by congruence. apply IH. exact Hls. }
  rewrite Hnone in Hlen. destruct new; [|discriminate Hlen].
  simpl. eauto.
Qed.

End ImportLoop.

(** ** CSV import on files *)

(** A file of five data lines of which two fail a check: three transactions
    are imported. *)
Example handleImportCSV_five_lines :
  map (Csv.passesChecks [Sample.food] [Sample.salary] Csv.headers)
      (tl (Csv.nonBlankLines Sample.csvFiveLines))
  = [true; false; true; false; true]
  /\ exists batch : list TransactionData.t,
      Csv.importInto Sample.Date_toISOString Sample.store "p1"
                     Sample.csvFiveLines
      = Csv.ImportSuccess batch "Successfully imported 3 transactions."
      /\ map TransactionData.description batch = ["Lunch"; "Pay"; "Bread"]
      /\ length
           (transactions
              (Csv.commit Sample.store "p1"
                          (Csv.ImportSuccess batch "") Sample.draws))
         = (length (transactions Sample.store) + 3)%nat.
Proof.
  split; [vm_compute; reflexivity|].
  eexists. split; [vm_compute; reflexivity|].
  split; vm_compute; reflexivity.
Qed.

(** The second file ends the import with a [RangeError] whatever [Date] the
    engine has, as long as it reads the date of the first line and cannot
    read the text of the second. *)
Lemma handleImportCSV_aborts_for_every_Date (D : string -> option string) :
  D "notadate" = None ->
  is_Some (D "2024-01-05") ->
  Csv.importInto D Sample.store "p1" Sample.csvWithBadDate
  = Csv.Uncaught Csv.RangeError.
Proof.
  intros Hbad [d Hgood].
  unfold Csv.importInto, Csv.handleImportCSV.
  set (lines := Csv.nonBlankLines Sample.csvWithBadDate).
  vm_compute in lines. subst lines. cbv zeta.
  rewrite decide_False by (simpl; lia).
  set (header := map JS.trim _). vm_compute in header. subst header.
  set (ok := negb _). vm_compute in ok. subst ok. cbv iota.
  simpl tl. unfold Csv.importRows.
  set (r1 := Csv.processRow D _ _ _ "2024-01-05,Lunch,12.5,expense,cash,Food,").
  assert (H1 : exists t, r1 = Csv.Accepted t).
  { subst r1. unfold Csv.processRow.
    set (row := Csv.rowObject _ _).
    set (b := negb (Csv.basicChecks row)). vm_compute in b. subst b. cbv iota.
    set (b := negb (Csv.resolves _ _ row)). vm_compute in b. subst b. cbv iota.
    set (dt := default "" (Csv.prop row "date")). vm_compute in dt. subst dt.
    rewrite Hgood.
    set (pm := Csv.prop row "paymentMethod"). vm_compute in pm. subst pm.
    eauto. }
  destruct H1 as [t ->].
  set (r2 := Csv.processRow D _ _ _ _).
  assert (H2 : r2 = Csv.Raised Csv.RangeError).
  { subst r2. unfold Csv.processRow.
    set (row := Csv.rowObject _ _).
    set (b := negb (Csv.basicChecks row)). vm_compute in b. subst b. cbv iota.
    set (b := negb (Csv.resolves _ _ row)). vm_compute in b. subst b. cbv iota.
    set (dt := default "" (Csv.prop row "date")). vm_compute in dt. subst dt.
    rewrite Hbad. reflexivity. }
  rewrite H2. reflexivity.
Qed.

(** C7 fails on the code.  Both data lines of the file pass every check
    of the loop, the second with a date that no [Date] can read: building its
    transaction raises a [RangeError] that nothing catches, so that no
    transaction is appended, the good first line included, and nothing is
    reported.  A line that passes the checks and stops before its payment
    method ends the import the same way, with a [TypeError]. *)
Theorem handleImportCSV_aborts_on_unreadable_date :
  map (Csv.passesChecks [Sample.food] [Sample.salary] Csv.headers)
      (tl (Csv.nonBlankLines Sample.csvWithBadDate))
  = [true; true]
  /\ Sample.Date_toISOString "notadate" = None
  /\ Csv.importInto Sample.Date_toISOString Sample.store "p1"
                    Sample.csvWithBadDate
     = Csv.Uncaught Csv.RangeError
  /\ (forall gen : nat -> string,
        Csv.commit Sample.store "p1"
          (Csv.importInto Sample.Date_toISOString Sample.store "p1"
                          Sample.csvWithBadDate) gen
        = Sample.store)
  /\ map (Csv.passesChecks [Sample.food] [Sample.salary] Csv.headers)
         (tl (Csv.nonBlankLines Sample.csvWithShortLine))
     = [true; true]
  /\ Csv.importInto Sample.Date_toISOString Sample.store "p1"
                    Sample.csvWithShortLine
     = Csv.Uncaught Csv.TypeError.
Proof.
  split; [vm_compute; reflexivity|].
  split; [vm_compute; reflexivity|].
  assert (Hrun : Csv.importInto Sample.Date_toISOString Sample.store "p1"
                                Sample.csvWithBadDate
                 = Csv.Uncaught Csv.RangeError)
    by (vm_compute; reflexivity).
  split; [exact Hrun|].
  split; [intros gen; rewrite Hrun; reflexivity|].
  split; vm_compute; reflexivity.
Qed.

(** ** CSV round trip *)

(** A transaction whose description has no comma comes back from the
    export as the same tuple. *)
Example csv_roundtrip_without_comma :
  let text := Csv.handleExportCSV Sample.storeWithoutComma "p1" in
  let outcome :=
    Csv.importInto Sample.Date_toISOString Sample.storeWithoutComma "p1" text in
  let emptied := with_transactions Sample.storeWithoutComma [] in
  outcome
  = Csv.ImportSuccess [Transaction.data Sample.snack]
                      "Successfully imported 1 transactions."
  /\ Csv.tuples (Csv.commit emptied "p1" outcome Sample.draws) "p1"
     = Csv.tuples Sample.storeWithoutComma "p1".
Proof. split; vm_compute; reflexivity. Qed.

(** The line of [Sample.lunch] is skipped before any date is built. *)
Lemma lunch_line_is_skipped (D : string -> option string) :
  Csv.processRow D [Sample.food] [Sample.salary] Csv.headers
    ("2024-01-05," +:+ Csv.quoted "Lunch, coffee" +:+ ",12.5,expense,cash,Food,")
  = Csv.Skipped.
Proof. apply processRow_skipped_iff. vm_compute. reflexivity. Qed.

(** C4 fails on the code.  The profile holds one expense described as
    "Lunch, coffee".  The export writes the description between quotes; the
    import splits the line at every comma, the one inside the quotes too, so
    that the amount column holds the end of the description, which is no
    number: whatever [Date] does, the line is skipped, the import reports
    that it found nothing and appends nothing, and the tuple of the expense
    is lost. *)
Theorem csv_roundtrip_loses_description_with_comma
  (D : string -> option string) :
  let text := Csv.handleExportCSV Sample.store "p1" in
  let outcome := Csv.importInto D Sample.store "p1" text in
  Csv.tuples Sample.store "p1"
  = [("2024-01-05", "Lunch, coffee", JS.Dec false 125 (-1), "expense",
      "cash", "Food")]
  /\ Csv.nonBlankLines text
     = [Sample.headerLine;
        "2024-01-05," +:+ Csv.quoted "Lunch, coffee"
        +:+ ",12.5,expense,cash,Food,"]
  /\ map (JS.split ",") (tl (Csv.nonBlankLines text))
     = [["2024-01-05"; String JS.dquote "Lunch";
         " coffee" +:+ String JS.dquote ""; "12.5"; "expense"; "cash";
         "Food"; ""]]
  /\ JS.parseFloat (Some (" coffee" +:+ String JS.dquote "")) = JS.NaN
  /\ outcome
     = Csv.ImportError
         ("No valid transactions found to import. Check file format "
          +:+ "and ensure categories/sources exist.")
  /\ (forall gen : nat -> string,
        Csv.commit (with_transactions Sample.store []) "p1" outcome gen
        = with_transactions Sample.store [])
  /\ Csv.tuples (with_transactions Sample.store []) "p1"
     <> Csv.tuples Sample.store "p1".
Proof.
  intros text outcome.
  assert (Hrun : outcome
                 = Csv.ImportError
                     ("No valid transactions found to import. Check file format "
                      +:+ "and ensure categories/sources exist.")).
  { subst outcome text. unfold Csv.importInto, Csv.handleImportCSV.
    assert (Hlines : Csv.nonBlankLines (Csv.handleExportCSV Sample.store "p1")
                     = [Sample.headerLine;
                        "2024-01-05," +:+ Csv.quoted "Lunch, coffee"
                        +:+ ",12.5,expense,cash,Food,"])
      by (vm_compute; reflexivity).
    assert (Hcats : filter (fun c => Category.profileId c = "p1")
                           (categories Sample.store) = [Sample.food])
      by reflexivity.
    assert (Hsrcs : filter (fun x => IncomeSource.profileId x = "p1")
                           (incomeSources Sample.store) = [Sample.salary])
      by reflexivity.
    rewrite Hlines, Hcats, Hsrcs. cbv zeta.
    rewrite decide_False by (simpl; lia).
    assert (Hheader : map JS.trim (JS.split "," Sample.headerLine)
                      = Csv.headers)
      by (vm_compute; reflexivity).
    simpl hd. simpl tl. rewrite Hheader.
    set (ok := negb _). vm_compute in ok. subst ok. cbv iota.
    unfold Csv.importRows.
    rewrite (lunch_line_is_skipped D). reflexivity. }
  split; [vm_compute; reflexivity|].
  split; [vm_compute; reflexivity|].
  split; [vm_compute; reflexivity|].
  split; [vm_compute; reflexivity|].
  split; [exact Hrun|].
  split; [intros gen; rewrite Hrun; reflexivity|].
  vm_compute. discriminate.
Qed.

(** * Further properties of the store *)

(** ** Projections after a deletion *)

Lemma list_find_filter_snd {A : Type} (P Q : A -> Prop)
  `{!forall x, Decision (P x), !forall x, Decision (Q x)} (l : list A) :
  (forall x, P x -> Q x) ->
  snd <$> list_find P (filter Q l) = snd <$> list_find P l.
Proof.
  intros Himp. induction l as [|x l IH]; [reflexivity|].
  rewrite filter_cons. destruct (decide (Q x)) as [Hq|Hq].
  - simpl. destruct (decide (P x)); [reflexivity|].
    destruct (list_find P (filter Q l)) as [[i y]|],
             (list_find P l) as [[j z]|]; simpl in *; congruence.
  - simpl. destruct (decide (P x)) as [Hp|Hp]; [exfalso; auto|].
    rewrite IH. destruct (list_find P l) as [[j z]|]; reflexivity.
Qed.

Lemma filter_none {A : Type} (P : A -> Prop) `{!forall x, Decision (P x)}
  (l : list A) :
  (forall x, x ∈ l -> ~ P x) -> filter P l = [].
Proof.
  induction l as [|x l IH]; intros Hall; [reflexivity|].
  rewrite filter_cons_False by (apply Hall; apply list_elem_of_here).
  apply IH. intros y Hy. apply Hall. apply list_elem_of_further. exact Hy.
Qed.

Lemma filter_all {A : Type} (P : A -> Prop) `{!forall x, Decision (P x)}
  (l : list A) :
  (forall x, x ∈ l -> P x) -> filter P l = l.
Proof.
  induction l as [|x l IH]; intros Hall; [reflexivity|].
  rewrite filter_cons_True by (apply Hall; apply list_elem_of_here).
  f_equal. apply IH. intros y Hy. apply Hall. apply list_elem_of_further.
  exact Hy.
Qed.

Lemma deleteProfile_own_projection (prev : AppData) (profileId : string) :
  getProfileData (deleteProfile prev profileId) profileId = ([], [], [], None).
Proof.
  unfold getProfileData, deleteProfile; simpl.
  rewrite !list_filter_filter.
  rewrite !filter_none by (intros x _ [H1 H2]; congruence).
  replace (list_find (fun p => Profile.id p = profileId)
             (filter (fun p => Profile.id p <> profileId) (profiles prev)))
    with (@None (nat * Profile.t)); [reflexivity|].
  symmetry. apply list_find_None. apply Forall_forall.
  intros p Hp. apply list_elem_of_filter in Hp as [Hne _]. exact Hne.
Qed.

Lemma deleteProfile_other_projection (prev : AppData)
  (profileId other : string) :
  other <> profileId ->
  getProfileData (deleteProfile prev profileId) other
  = getProfileData prev other.
Proof.
  intros Hother. unfold getProfileData, deleteProfile; simpl.
  rewrite !list_filter_filter_l by (intros x Hx; congruence).
  rewrite list_find_filter_snd by (intros x Hx; congruence).
  reflexivity.
Qed.

(** X1. After [deleteProfile profileId] the projection [getProfileData] of
    that profile is empty: no transaction, category or income source, and no
    profile record; the projection of every other profile is what it was. *)
Theorem deleteProfile_empties_projection
  (prev : AppData) (profileId other : string) :
  getProfileData (deleteProfile prev profileId) profileId = ([], [], [], None)
  /\ (other <> profileId ->
      getProfileData (deleteProfile prev profileId) other
      = getProfileData prev other).
Proof.
  split; [apply deleteProfile_own_projection|].
  apply deleteProfile_other_projection.
Qed.

(** ** Deleting a user, profile by profile *)

Lemma deleteProfile_fold (ids : list string) (s : AppData) :
  fold_left deleteProfile ids s
  = mkAppData (users s)
      (filter (fun p => Profile.id p ∉ ids) (profiles s))
      (filter (fun t => Transaction.profileId t ∉ ids) (transactions s))
      (filter (fun c => Category.profileId c ∉ ids) (categories s))
      (filter (fun x => IncomeSource.profileId x ∉ ids) (incomeSources s))
      (currencies s).
Proof.
  revert s. induction ids as [|pid ids IH]; intros s; simpl.
  - destruct s; simpl.
    f_equal; symmetry; apply filter_all; intros x _; apply not_elem_of_nil.
  - rewrite IH. unfold deleteProfile; simpl.
    rewrite !list_filter_filter.
    f_equal; apply list_filter_iff; intros x; rewrite not_elem_of_cons; tauto.
Qed.

Lemma filter_owner_by_id (l : list Profile.t) (userId : string) :
  NoDup (map Profile.id l) ->
  filter (fun p => Profile.id p
                   ∉ map Profile.id
                       (filter (fun q => Profile.userId q = userId) l)) l
  = filter (fun p => Profile.userId p <> userId) l.
Proof.
  intros Hnodup.
  assert (Hiff : forall p, p ∈ l ->
             (Profile.id p
              ∉ map Profile.id (filter (fun q => Profile.userId q = userId) l))
             <-> Profile.userId p <> userId).
  { intros p Hp. split.
    - intros Hnot Hu. apply Hnot.
      change (map Profile.id) with (fmap (M := list) Profile.id).
      apply list_elem_of_fmap_2. apply list_elem_of_filter. auto.
    - intros Hu Hin.
      change (map Profile.id) with (fmap (M := list) Profile.id) in Hin.
      apply list_elem_of_fmap in Hin as (q & Hid & Hq).
      apply list_elem_of_filter in Hq as [Hqu Hq].
      apply list_elem_of_lookup in Hp as [i Hi].
      apply list_elem_of_lookup in Hq as [j Hj].
      assert (i = j) as ->.
      { eapply NoDup_lookup; [exact Hnodup| |].
        - rewrite list_lookup_fmap, Hi. reflexivity.
        - rewrite list_lookup_fmap, Hj. simpl. congruence. }
      congruence. }
  clear Hnodup. revert Hiff.
  generalize (map Profile.id (filter (fun q => Profile.userId q = userId) l)).
  intros ids. induction l as [|p l IH]; intros Hiff; [reflexivity|].
  rewrite !filter_cons.
  assert (Hp := Hiff p (list_elem_of_here _ _)).
  rewrite IH by (intros q Hq; apply Hiff; apply list_elem_of_further; exact Hq).
  destruct (decide (Profile.id p ∉ ids)), (decide (Profile.userId p <> userId));
    tauto || reflexivity.
Qed.

(** X2. With unique profile identifiers, [deleteUser userId] is the removal
    of the users with that identifier after [deleteProfile] has been run on
    each profile of [userId]: the cascade over a user is the cascade over the
    profiles the user owns. *)
Theorem deleteUser_is_deleteProfile_of_each (prev : AppData) (userId : string) :
  NoDup (map Profile.id (profiles prev)) ->
  deleteUser prev userId
  = with_users
      (fold_left deleteProfile
         (map Profile.id
              (filter (fun p => Profile.userId p = userId) (profiles prev)))
         prev)
      (filter (fun u => User.id u <> userId) (users prev)).
Proof.
  intros Hnodup. rewrite deleteProfile_fold.
  unfold deleteUser, with_users; simpl.
  rewrite (filter_owner_by_id _ _ Hnodup).
  f_equal; apply list_filter_iff; intros x; rewrite elem_of_list_to_set;
    reflexivity.
Qed.

Lemma deleteUser_is_deleteProfile_of_each_witness :
  deleteUser Sample.store "u1"
  = with_users
      (fold_left deleteProfile
         (map Profile.id
              (filter (fun p => Profile.userId p = "u1")
                      (profiles Sample.store)))
         Sample.store)
      (filter (fun u => User.id u <> "u1") (users Sample.store)).
Proof.
  apply (deleteUser_is_deleteProfile_of_each Sample.store "u1").
  simpl. apply NoDup_singleton.
Defined.

(** ** Adding, then deleting *)

Lemma filter_snoc_removed {A : Type} (f : A -> string) (l : list A) (x : A) :
  f x ∉ map f l ->
  filter (fun y => f y <> f x) (l ++ [x]) = l.
Proof.
  intros Hfresh. rewrite filter_app.
  rewrite (filter_none _ [x]).
  - rewrite app_nil_r. apply filter_all. intros y Hy Heq. apply Hfresh.
    rewrite <- Heq. change (map f) with (fmap (M := list) f).
    apply list_elem_of_fmap_2. exact Hy.
  - intros y Hy Hne. apply list_elem_of_singleton in Hy. congruence.
Qed.

Lemma not_in_storeIds (s : AppData) (uuid : string) :
  uuid ∉ storeIds s ->
  (uuid ∉ map User.id (users s))
  /\ (uuid ∉ map Profile.id (profiles s))
  /\ (uuid ∉ map Transaction.id (transactions s))
  /\ (uuid ∉ map Category.id (categories s))
  /\ (uuid ∉ map IncomeSource.id (incomeSources s)).
Proof.
  unfold storeIds. rewrite !elem_of_app. tauto.
Qed.

(** X3. An identifier that the snapshot does not hold identifies what is
    added under it: deleting by it right after [addTransaction],
    [addCategory] or [addIncomeSource] gives back the snapshot from before
    the addition. *)
Theorem add_then_delete_restores
  (s : AppData) (uuid profileId : string)
  (transaction : NewTransaction.t) (item : NewItem.t) :
  uuid ∉ storeIds s ->
  deleteTransaction (addTransaction s transaction uuid) uuid = s
  /\ deleteCategory (addCategory s profileId item uuid) uuid = s
  /\ deleteIncomeSource (addIncomeSource s profileId item uuid) uuid = s.
Proof.
  intros Hfresh.
  apply not_in_storeIds in Hfresh as (_ & _ & Ht & Hc & Hx).
  unfold deleteTransaction, addTransaction, deleteCategory, addCategory,
    deleteIncomeSource, addIncomeSource; simpl.
  split; [|split].
  - rewrite (filter_snoc_removed Transaction.id
               (transactions s) (Transaction.mk uuid _ _)) by exact Ht.
    destruct s; reflexivity.
  - rewrite (filter_snoc_removed Category.id
               (categories s) (Category.mk uuid _ _ _ _)) by exact Hc.
    destruct s; reflexivity.
  - rewrite (filter_snoc_removed IncomeSource.id
               (incomeSources s) (IncomeSource.mk uuid _ _ _ _)) by exact Hx.
    destruct s; reflexivity.
Qed.

Lemma add_then_delete_restores_witness :
  deleteTransaction
    (addTransaction Sample.store
       (NewTransaction.mk "p1" (Transaction.data Sample.snack)) "t9") "t9"
  = Sample.store
  /\ deleteCategory
       (addCategory Sample.store "p1" (NewItem.mk "Books" "Book") "t9") "t9"
     = Sample.store
  /\ deleteIncomeSource
       (addIncomeSource Sample.store "p1" (NewItem.mk "Books" "Book") "t9") "t9"
     = Sample.store.
Proof.
  apply (add_then_delete_restores Sample.store "t9" "p1").
  vm_compute. intros Hin.
  repeat (apply elem_of_cons in Hin as [Heq|Hin]; [discriminate Heq|]).
  apply elem_of_nil in Hin. exact Hin.
Defined.

(** X4. A currency is identified by its code: [deleteCurrency] right after
    [addCurrency] gives back the snapshot when the code was new, and when it
    was not, it also removes the currencies that had the code before. *)
Theorem addCurrency_then_deleteCurrency (s : AppData) (c : Currency.t) :
  let next := deleteCurrency (addCurrency s c) (Currency.code c) in
  (Currency.code c ∉ map Currency.code (currencies s) -> next = s)
  /\ currencies next
     = filter (fun x => Currency.code x <> Currency.code c) (currencies s)
  /\ (forall x : Currency.t,
        x ∈ currencies s -> Currency.code x = Currency.code c ->
        x ∉ currencies next).
Proof.
  intros next. subst next. unfold deleteCurrency, addCurrency; simpl.
  split; [|split].
  - intros Hfresh.
    rewrite (filter_snoc_removed Currency.code (currencies s) c) by exact Hfresh.
    destruct s; reflexivity.
  - rewrite filter_app, (filter_none _ [c]); [apply app_nil_r|].
    intros y Hy Hne. apply list_elem_of_singleton in Hy. congruence.
  - intros x Hx Hcode Hin. apply list_elem_of_filter in Hin as [Hne _].
    contradiction.
Qed.

(** ** A batch is a sequence of single additions *)

Lemma addEach_from (txs : list NewTransaction.t) (gen : nat -> string)
  (k : nat) (s : AppData) :
  fold_left (fun acc '(i, t) => addTransaction acc t (gen i))
            (imap (fun i t => ((k + i)%nat, t)) txs) s
  = with_transactions s
      (transactions s
       ++ imap (fun i t =>
                  Transaction.mk (gen (k + i)%nat) (NewTransaction.profileId t)
                                 (NewTransaction.data t)) txs).
Proof.
  revert k s. induction txs as [|t txs IH]; intros k s.
  - simpl. rewrite app_nil_r. destruct s; reflexivity.
  - rewrite !imap_cons. simpl.
    rewrite (imap_ext _ (fun i t0 => ((S k + i)%nat, t0)))
      by (intros i x _; simpl; f_equal; lia).
    rewrite IH. unfold addTransaction, with_transactions; simpl.
    rewrite <- app_assoc. simpl. rewrite Nat.add_0_r.
    do 3 f_equal. apply imap_ext. intros i x _. simpl. do 2 f_equal. lia.
Qed.

(** X5. [addMultipleTransactions] is [addTransaction] run on each element
    of the batch in turn, element number [i] with the draw number [i]; on
    the empty batch it leaves the snapshot as it is. *)
Theorem addMultipleTransactions_is_addTransaction_of_each
  (s : AppData) (txs : list NewTransaction.t) (gen : nat -> string) :
  addMultipleTransactions s txs gen = addEach s txs gen
  /\ addMultipleTransactions s [] gen = s.
Proof.
  split.
  - unfold addEach, addMultipleTransactions.
    exact (eq_sym (addEach_from txs gen 0 s)).
  - unfold addMultipleTransactions; simpl. rewrite app_nil_r.
    destruct s; reflexivity.
Qed.

(** ** Updates keep the identifiers *)

Lemma replace_keeps_ids {A : Type} (f : A -> string) (x : A) (l : list A) :
  map f (map (fun y => if decide (f y = f x) then x else y) l) = map f l.
Proof.
  induction l as [|y l IH]; simpl; [reflexivity|].
  rewrite IH. case_decide; congruence.
Qed.

Lemma replace_twice {A : Type} (f : A -> string) (x : A) (l : list A) :
  map (fun y => if decide (f y = f x) then x else y)
      (map (fun y => if decide (f y = f x) then x else y) l)
  = map (fun y => if decide (f y = f x) then x else y) l.
Proof.
  induction l as [|y l IH]; simpl; [reflexivity|].
  rewrite IH. f_equal.
  destruct (decide (f y = f x)) as [Heq|Hne].
  - rewrite decide_True by reflexivity. reflexivity.
  - rewrite decide_False by exact Hne. reflexivity.
Qed.

(** X6. [updateTransaction] and [updateProfile] keep the list of
    identifiers of their collection, position by position, so that they
    neither add nor remove an entity nor break the uniqueness of identifiers;
    running the same update twice is running it once; afterwards every
    stored transaction with the identifier of the given one is the given
    one. *)
Theorem updates_keep_identifiers
  (s : AppData) (t : Transaction.t) (p : Profile.t) :
  map Transaction.id (transactions (updateTransaction s t))
  = map Transaction.id (transactions s)
  /\ map Profile.id (profiles (updateProfile s p)) = map Profile.id (profiles s)
  /\ updateTransaction (updateTransaction s t) t = updateTransaction s t
  /\ updateProfile (updateProfile s p) p = updateProfile s p
  /\ (forall x : Transaction.t,
        x ∈ transactions (updateTransaction s t) ->
        Transaction.id x = Transaction.id t -> x = t)
  /\ (forall x : Profile.t,
        x ∈ profiles (updateProfile s p) ->
        Profile.id x = Profile.id p -> x = p).
Proof.
  unfold updateTransaction, updateProfile; simpl.
  split; [apply (replace_keeps_ids Transaction.id)|].
  split; [apply (replace_keeps_ids Profile.id)|].
  split; [unfold with_transactions; simpl;
          rewrite (replace_twice Transaction.id); reflexivity|].
  split; [unfold with_profiles; simpl;
          rewrite (replace_twice Profile.id); reflexivity|].
  split.
  - intros x Hx Hid.
    change (map ?f ?l) with (fmap (M := list) f l) in Hx.
    apply list_elem_of_fmap in Hx as (y & -> & _).
    destruct (decide (Transaction.id y = Transaction.id t)); congruence.
  - intros x Hx Hid.
    change (map ?f ?l) with (fmap (M := list) f l) in Hx.
    apply list_elem_of_fmap in Hx as (y & -> & _).
    destruct (decide (Profile.id y = Profile.id p)); congruence.
Qed.

(** ** Identifiers stay unique *)

Lemma NoDup_map_filter {A : Type} (f : A -> string) (P : A -> Prop)
  `{!forall x, Decision (P x)} (l : list A) :
  NoDup (map f l) -> NoDup (map f (filter P l)).
Proof.
  induction l as [|x l IH]; simpl; intros Hnd; [exact Hnd|].
  apply NoDup_cons in Hnd as [Hx Hl]. rewrite filter_cons.
  destruct (decide (P x)); [|auto].
  simpl. apply NoDup_cons. split; [|auto].
  intros Hin. apply Hx.
  change (map f) with (fmap (M := list) f) in *.
  apply list_elem_of_fmap in Hin as (y & Hy & Hin).
  apply list_elem_of_filter in Hin as [_ Hin].
  rewrite Hy. apply list_elem_of_fmap_2. exact Hin.
Qed.

Lemma NoDup_map_snoc {A : Type} (f : A -> string) (l : list A) (x : A) :
  NoDup (map f l) -> f x ∉ map f l -> NoDup (map f (l ++ [x])).
Proof.
  intros Hnd Hx. rewrite map_app. apply NoDup_app.
  split; [exact Hnd|]. split; [|apply NoDup_singleton].
  intros y Hy Hin. apply list_elem_of_singleton in Hin. simpl in Hin.
  congruence.
Qed.

Lemma NoDup_map_insert_same {A : Type} (f : A -> string) (l : list A)
  (i : nat) (x y : A) :
  l !! i = Some x -> f y = f x -> map f (<[i := y]> l) = map f l.
Proof.
  intros Hi Hf. change (map f) with (fmap (M := list) f).
  rewrite list_fmap_insert. apply list_insert_id.
  rewrite list_lookup_fmap, Hi. simpl. congruence.
Qed.

(** Appending entities whose identifiers are the values of an injective
    numbering that avoids the identifiers there are. *)
Lemma NoDup_map_app_numbered {A : Type} (f : A -> string) (l new : list A)
  (h : nat -> string) (a : nat) :
  map f new = map h (seq a (length new)) ->
  (forall i j : nat,
      (a <= i < a + length new)%nat -> (a <= j < a + length new)%nat ->
      h i = h j -> i = j) ->
  (forall i : nat, (a <= i < a + length new)%nat -> h i ∉ map f l) ->
  NoDup (map f l) -> NoDup (map f (l ++ new)).
Proof.
  intros Hids Hinj Hfresh Hnd. rewrite map_app, Hids. apply NoDup_app.
  split; [exact Hnd|]. split.
  - intros x Hx Hin.
    change (map h) with (fmap (M := list) h) in Hin.
    apply list_elem_of_fmap in Hin as (k & -> & Hk). apply elem_of_seq in Hk.
    apply (Hfresh k); [lia | exact Hx].
  - change (map h) with (fmap (M := list) h).
    apply NoDup_fmap_2_strong; [|apply NoDup_seq].
    intros i j Hi Hj. apply elem_of_seq in Hi. apply elem_of_seq in Hj.
    apply Hinj; lia.
Qed.

Lemma transaction_ids_of_batch (txs : list NewTransaction.t)
  (gen : nat -> string) :
  map Transaction.id
      (imap (fun i t =>
               Transaction.mk (gen i) (NewTransaction.profileId t)
                              (NewTransaction.data t)) txs)
  = map gen (seq 0 (length txs)).
Proof.
  apply list_eq. intros i.
  change (map Transaction.id) with (fmap (M := list) Transaction.id).
  change (map gen) with (fmap (M := list) gen).
  rewrite !list_lookup_fmap, list_lookup_imap.
  destruct (txs !! i) as [x|] eqn:Hi; simpl.
  - rewrite lookup_seq_lt by (eapply lookup_lt_Some; eauto). reflexivity.
  - rewrite lookup_seq_ge by (apply lookup_ge_None; exact Hi). reflexivity.
Qed.

Lemma endsWith_refl (x : string) : endsWith x x.
Proof. exists "". reflexivity. Qed.

Section UniqueIds.

Variable DEFAULT_CATEGORIES : list Template.t.
Variable DEFAULT_INCOME_SOURCES : list Template.t.

Lemma uniqueIds_addProfile (s : AppData) (userId : string)
  (profile : NewProfile.t) (gen : nat -> string) :
  freshDraws s gen
    (1 + length DEFAULT_CATEGORIES + length DEFAULT_INCOME_SOURCES) ->
  uniqueIds s ->
  uniqueIds (snd (addProfile DEFAULT_CATEGORIES DEFAULT_INCOME_SOURCES
                             s userId profile gen)).
Proof.
  intros [Hinj Hfresh] (Hu & Hp & Ht & Hc & Hx).
  set (nc := length DEFAULT_CATEGORIES) in *.
  set (ns := length DEFAULT_INCOME_SOURCES) in *.
  assert (Hout : forall k x, (k < 1 + nc + ns)%nat -> x ∈ storeIds s ->
                             seededId (gen 0%nat) gen k <> x).
  { intros k x Hk Hin Heq. apply (Hfresh k x Hk Hin).
    rewrite <- Heq. apply seededId_endsWith. }
  unfold uniqueIds, addProfile; simpl.
  split; [exact Hu|]. split; [|split; [exact Ht|split]].
  - apply NoDup_map_snoc; [exact Hp|]. simpl. intros Hin.
    apply (Hfresh 0%nat (gen 0%nat)); [lia| |apply endsWith_refl].
    unfold storeIds. rewrite !elem_of_app. tauto.
  - apply (NoDup_map_app_numbered Category.id _ _ (seededId (gen 0%nat) gen) 1).
    + rewrite length_imap.
      exact (seedCategory_ids (gen 0%nat) gen 1 DEFAULT_CATEGORIES).
    + rewrite length_imap. intros i j Hi Hj Heq. fold nc in Hi, Hj.
      apply Hinj; [lia|lia|]. eapply seededId_inj; eauto.
    + rewrite length_imap. intros i Hi Hin. fold nc in Hi.
      apply (Hout i _ ltac:(lia)) with (2 := eq_refl).
      unfold storeIds. rewrite !elem_of_app. tauto.
    + exact Hc.
  - apply (NoDup_map_app_numbered IncomeSource.id _ _
             (seededId (gen 0%nat) gen) (1 + nc)).
    + rewrite length_imap.
      exact (seedIncomeSource_ids (gen 0%nat) gen (1 + nc) DEFAULT_INCOME_SOURCES).
    + rewrite length_imap. intros i j Hi Hj Heq. fold ns in Hi, Hj.
      apply Hinj; [lia|lia|]. eapply seededId_inj; eauto.
    + rewrite length_imap. intros i Hi Hin. fold ns in Hi.
      apply (Hout i _ ltac:(lia)) with (2 := eq_refl).
      unfold storeIds. rewrite !elem_of_app. tauto.
    + exact Hx.
Qed.

Lemma uniqueIds_step (s : AppData) (op : Op) :
  drawsOfOpNew DEFAULT_CATEGORIES DEFAULT_INCOME_SOURCES s op ->
  uniqueIds s ->
  uniqueIds (step DEFAULT_CATEGORIES DEFAULT_INCOME_SOURCES s op).
Proof.
  intros Hnew Huniq. pose proof Huniq as (Hu & Hp & Ht & Hc & Hx).
  destruct op; simpl in *.
  - apply not_in_storeIds in Hnew as (Hn & _).
    unfold uniqueIds; simpl. repeat split; try assumption.
    apply NoDup_map_snoc; assumption.
  - apply uniqueIds_addProfile; assumption.
  - apply not_in_storeIds in Hnew as (_ & _ & Hn & _).
    unfold uniqueIds; simpl. repeat split; try assumption.
    apply NoDup_map_snoc; assumption.
  - destruct Hnew as [Hinj Hfresh].
    unfold uniqueIds; simpl. repeat split; try assumption.
    apply (NoDup_map_app_numbered Transaction.id _ _ gen 0).
    + rewrite length_imap. apply transaction_ids_of_batch.
    + rewrite length_imap. intros i j Hi Hj. apply Hinj; lia.
    + rewrite length_imap. intros i Hi.
      apply (not_in_storeIds s (gen i)). apply Hfresh. lia.
    + exact Ht.
  - unfold uniqueIds; simpl. repeat split; try assumption.
    rewrite (replace_keeps_ids Transaction.id). exact Ht.
  - unfold uniqueIds; simpl. repeat split; try assumption.
    apply NoDup_map_filter. exact Ht.
  - apply not_in_storeIds in Hnew as (_ & _ & _ & Hn & _).
    unfold uniqueIds; simpl. repeat split; try assumption.
    apply NoDup_map_snoc; assumption.
  - unfold uniqueIds; simpl. repeat split; try assumption.
    apply NoDup_map_filter. exact Hc.
  - apply not_in_storeIds in Hnew as (_ & _ & _ & _ & Hn).
    unfold uniqueIds; simpl. repeat split; try assumption.
    apply NoDup_map_snoc; assumption.
  - unfold uniqueIds; simpl. repeat split; try assumption.
    apply NoDup_map_filter. exact Hx.
  - exact Huniq.
  - exact Huniq.
  - unfold uniqueIds; simpl. repeat split; try assumption.
    rewrite (replace_keeps_ids Profile.id). exact Hp.
  - unfold uniqueIds; simpl.
    repeat split; try assumption; apply NoDup_map_filter; assumption.
  - unfold uniqueIds; simpl.
    repeat split; try assumption; apply NoDup_map_filter; assumption.
  - unfold resetPassword.
    destruct (list_find _ (users s)) as [[i u]|] eqn:Hfind; [|exact Huniq].
    apply list_find_Some in Hfind as (Hi & _).
    unfold uniqueIds; simpl. repeat split; try assumption.
    rewrite (NoDup_map_insert_same User.id _ i u); [exact Hu|exact Hi|reflexivity].
  - unfold updateUserRole.
    destruct (list_find _ (users s)) as [[i u]|] eqn:Hfind; [|exact Huniq].
    apply list_find_Some in Hfind as (Hi & _).
    assert (Hupd : uniqueIds
                     (with_users s
                        (<[i := User.mk (User.id u) (User.email u)
                                        (User.passwordHash u) role]> (users s)))).
    { unfold uniqueIds; simpl. repeat split; try assumption.
      rewrite (NoDup_map_insert_same User.id _ i u);
        [exact Hu|exact Hi|reflexivity]. }
    repeat case_decide; simpl; assumption.
Qed.

Lemma uniqueIds_run (s : AppData) (ops : list Op) :
  uniqueIds s ->
  freshHistory DEFAULT_CATEGORIES DEFAULT_INCOME_SOURCES s ops ->
  uniqueIds (run DEFAULT_CATEGORIES DEFAULT_INCOME_SOURCES s ops).
Proof.
  revert s. induction ops as [|op ops IH]; intros s Hu Hf; [exact Hu|].
  destruct Hf as [Hop Hrest]. simpl. apply IH; [|exact Hrest].
  apply uniqueIds_step; assumption.
Qed.

End UniqueIds.

(** X7. Along every history of the operations of the store that starts
    from the initial snapshot and whose draws are new (a single draw is no
    identifier of the snapshot it is used on, the draws of a batch are
    pairwise distinct as well, those of [addProfile] are fresh), the
    identifiers of the users, of the profiles, of the transactions, of the
    categories and of the income sources stay pairwise distinct: no
    operation, update or deletion included, makes two entities of a
    collection share an identifier. *)
Theorem uniqueIds_of_fresh_history
  (DEFAULT_CATEGORIES DEFAULT_INCOME_SOURCES : list Template.t)
  (DEFAULT_CURRENCIES : list Currency.t) (ops : list Op) :
  freshHistory DEFAULT_CATEGORIES DEFAULT_INCOME_SOURCES
               (initialData DEFAULT_CURRENCIES) ops ->
  uniqueIds
    (run DEFAULT_CATEGORIES DEFAULT_INCOME_SOURCES
         (initialData DEFAULT_CURRENCIES) ops).
Proof.
  intros Hf. apply uniqueIds_run; [|exact Hf].
  unfold uniqueIds; simpl. repeat split; apply NoDup_nil_2.
Qed.

Lemma uniqueIds_of_fresh_history_witness :
  uniqueIds
    (run Sample.categoryTemplates Sample.sourceTemplates
         (initialData [Sample.usd]) Sample.handover).
Proof.
  apply (uniqueIds_of_fresh_history
           Sample.categoryTemplates Sample.sourceTemplates [Sample.usd]
           Sample.handover).
  simpl. repeat split.
  - apply not_elem_of_nil.
  - vm_compute. intros Hin.
    repeat (apply elem_of_cons in Hin as [Heq|Hin]; [discriminate Heq|]).
    apply elem_of_nil in Hin. exact Hin.
Defined.

(** ** The password verifier *)

Lemma toInt32_range (z : Z) : - 2 ^ 31 <= JS.toInt32 z < 2 ^ 31.
Proof.
  unfold JS.toInt32.
  pose proof (Z.mod_pos_bound (z + 2 ^ 31) (2 ^ 32) eq_refl). lia.
Qed.

Lemma toInt32_small (z : Z) : - 2 ^ 31 <= z < 2 ^ 31 -> JS.toInt32 z = z.
Proof.
  intros Hz. unfold JS.toInt32. rewrite Z.mod_small by lia. lia.
Qed.

Lemma toInt32_mod (z : Z) : JS.toInt32 z mod 2 ^ 32 = z mod 2 ^ 32.
Proof.
  unfold JS.toInt32. rewrite Zminus_mod_idemp_l. f_equal. lia.
Qed.

Lemma toInt32_congr (a b : Z) :
  a mod 2 ^ 32 = b mod 2 ^ 32 -> JS.toInt32 a = JS.toInt32 b.
Proof.
  intros Hab. unfold JS.toInt32.
  rewrite <- (Zplus_mod_idemp_l a), <- (Zplus_mod_idemp_l b), Hab.
  reflexivity.
Qed.

Lemma mod_congr_step (a b c : Z) :
  a mod 2 ^ 32 = b mod 2 ^ 32 ->
  (a * 32 - a + c) mod 2 ^ 32 = (31 * b + c) mod 2 ^ 32.
Proof.
  intros Hab.
  replace (a * 32 - a + c) with (31 * a + c) by lia.
  rewrite <- (Zplus_mod_idemp_l (31 * a)), <- (Zplus_mod_idemp_l (31 * b)).
  rewrite <- (Zmult_mod_idemp_r a), <- (Zmult_mod_idemp_r b), Hab.
  reflexivity.
Qed.

Lemma simpleHash_step (h H c : Z) :
  h mod 2 ^ 32 = H mod 2 ^ 32 ->
  JS.toInt32 (JS.shl32 h 5 - h + c) mod 2 ^ 32 = (31 * H + c) mod 2 ^ 32.
Proof.
  intros Hh. rewrite toInt32_mod.
  unfold JS.shl32. rewrite Z.shiftl_mul_pow2 by lia.
  change (2 ^ 5) with 32.
  rewrite <- (Zplus_mod_idemp_l (_ - h)), <- (Zminus_mod_idemp_l _ h).
  rewrite toInt32_mod.
  rewrite <- (Zmult_mod_idemp_l (JS.toInt32 h)), toInt32_mod.
  rewrite Zmult_mod_idemp_l, Zminus_mod_idemp_l, Zplus_mod_idemp_l.
  apply mod_congr_step. exact Hh.
Qed.

Lemma simpleHash_fold (cs : list ascii) (h H : Z) :
  - 2 ^ 31 <= h < 2 ^ 31 ->
  h mod 2 ^ 32 = H mod 2 ^ 32 ->
  let wrapped :=
    fold_left
      (fun hash char =>
         JS.toInt32 (JS.shl32 hash 5 - hash + Z.of_nat (nat_of_ascii char)))
      cs h in
  let exact :=
    fold_left (fun x c => 31 * x + Z.of_nat (nat_of_ascii c)) cs H in
  - 2 ^ 31 <= wrapped < 2 ^ 31 /\ wrapped mod 2 ^ 32 = exact mod 2 ^ 32.
Proof.
  revert h H. induction cs as [|c cs IH]; intros h H Hr Hm; simpl.
  - split; assumption.
  - apply IH; [apply toInt32_range | apply simpleHash_step; exact Hm].
Qed.

Lemma simpleHash_wrapped (str : string) :
  simpleHash str = JS.intToString (JS.toInt32 (polynomialHash str)).
Proof.
  unfold simpleHash, polynomialHash. f_equal.
  destruct (simpleHash_fold (String.list_ascii_of_string str) 0 0)
    as [Hrange Hmod]; [lia|reflexivity|].
  rewrite <- (toInt32_small _ Hrange). apply toInt32_congr. exact Hmod.
Qed.

(** X8. [simpleHash] is the decimal text of the polynomial hash in base 31
    of the code units of its argument, wrapped to a signed 32-bit integer:
    the shift, the subtraction and the [|= 0] of each turn of the loop
    compute [31 * hash + char] modulo two to the 32, and the number printed
    lies between minus two to the 31 and two to the 31. *)
Theorem simpleHash_is_wrapped_polynomial (str : string) :
  simpleHash str = JS.intToString (JS.toInt32 (polynomialHash str))
  /\ - 2 ^ 31 <= JS.toInt32 (polynomialHash str) < 2 ^ 31.
Proof. split; [apply simpleHash_wrapped | apply toInt32_range]. Qed.

Lemma list_ascii_of_string_app (a b : string) :
  String.list_ascii_of_string (a +:+ b)
  = String.list_ascii_of_string a ++ String.list_ascii_of_string b.
Proof.
  induction a as [|c a IH]; [reflexivity|].
  change (c :: String.list_ascii_of_string (a +:+ b)
          = c :: (String.list_ascii_of_string a
                  ++ String.list_ascii_of_string b)).
  rewrite IH. reflexivity.
Qed.

(** X9. [simpleHash] does not tell texts apart that differ by the
    two-letter blocks Aa and BB: whatever stands before and after the block,
    the two texts have the same verifier, so that a verifier stored for one
    password is also the verifier of others. *)
Theorem simpleHash_collides (before after : string) :
  simpleHash (before +:+ "Aa" +:+ after)
  = simpleHash (before +:+ "BB" +:+ after)
  /\ before +:+ "Aa" +:+ after <> before +:+ "BB" +:+ after.
Proof.
  split.
  - rewrite !simpleHash_wrapped. do 2 f_equal. unfold polynomialHash.
    rewrite !list_ascii_of_string_app, !fold_left_app. f_equal. simpl.
    change (Z.of_nat (nat_of_ascii "A")) with 65.
    change (Z.of_nat (nat_of_ascii "a")) with 97.
    change (Z.of_nat (nat_of_ascii "B")) with 66. lia.
  - intros Heq. apply (inj (String.app before)) in Heq. discriminate Heq.
Qed.

(** * Further properties of signing in and of the settings screen *)

Section SignUp.

Variable DEFAULT_CATEGORIES : list Template.t.
Variable DEFAULT_INCOME_SOURCES : list Template.t.

Local Abbreviation signup :=
  (AuthPage.signup DEFAULT_CATEGORIES DEFAULT_INCOME_SOURCES).

(** What a sign-up with an unused e-mail does. *)
Lemma signup_fresh (appData : AppData) (email password : string)
  (gen : nat -> string) :
  ~ Exists (fun u => User.email u = email) (users appData) ->
  let newUser :=
    User.mk (gen 0%nat) email (simpleHash password)
            (if decide (length (users appData) = 0%nat) then ADMIN else USER) in
  fst (signup appData email password gen) = AuthPage.Authenticated newUser
  /\ users (snd (signup appData email password gen))
     = users appData ++ [newUser]
  /\ profiles (snd (signup appData email password gen))
     = profiles appData
       ++ [Profile.mk (gen 1%nat) "Personal" "USD" (gen 0%nat)]
  /\ transactions (snd (signup appData email password gen))
     = transactions appData
  /\ currencies (snd (signup appData email password gen))
     = currencies appData.
Proof.
  intros Hnew newUser. unfold AuthPage.signup.
  rewrite decide_False by exact Hnew. repeat split.
Qed.

Lemma login_last (l : list User.t) (u : User.t) (email password : string)
  (s : AppData) :
  users s = l ++ [u] ->
  User.email u = email ->
  ~ Exists (fun v => User.email v = email) l ->
  AuthPage.login s email password
  = if decide (User.passwordHash u = simpleHash password)
    then AuthPage.Authenticated u
    else AuthPage.Error "Invalid email or password.".
Proof.
  intros Hs Hu Hnew. unfold AuthPage.login. rewrite Hs.
  rewrite list_find_app_r
    by (apply list_find_None, Forall_Exists_neg; exact Hnew).
  simpl. rewrite decide_True by exact Hu. simpl. reflexivity.
Qed.

(** X10. A sign-up with an e-mail that no user has yet authenticates the
    user it creates, and on the snapshot it leaves, a log-in with the same
    e-mail and password authenticates that user, while a log-in with a
    password of another verifier is refused.  A sign-up with an e-mail that
    some user has is refused and leaves the snapshot as it is. *)
Theorem signup_then_login (appData : AppData) (email password : string)
  (gen : nat -> string) :
  let r := signup appData email password gen in
  (Exists (fun u => User.email u = email) (users appData) ->
   r = (AuthPage.Error "User with this email already exists.", appData))
  /\ (~ Exists (fun u => User.email u = email) (users appData) ->
      exists newUser : User.t,
        fst r = AuthPage.Authenticated newUser
        /\ User.id newUser = gen 0%nat
        /\ User.email newUser = email
        /\ users (snd r) = users appData ++ [newUser]
        /\ AuthPage.login (snd r) email password
           = AuthPage.Authenticated newUser
        /\ (forall other : string,
              simpleHash other <> simpleHash password ->
              AuthPage.login (snd r) email other
              = AuthPage.Error "Invalid email or password.")).
Proof.
  intros r. subst r. split.
  - intros Hdup. unfold AuthPage.signup. rewrite decide_True by exact Hdup.
    reflexivity.
  - intros Hnew.
    destruct (signup_fresh appData email password gen Hnew)
      as (Hfst & Husers & _).
    eexists. split; [exact Hfst|]. split; [reflexivity|].
    split; [reflexivity|]. split; [exact Husers|]. split.
    + rewrite (login_last _ _ email password _ Husers eq_refl Hnew).
      simpl. rewrite decide_True by reflexivity. reflexivity.
    + intros other Hother.
      rewrite (login_last _ _ email other _ Husers eq_refl Hnew).
      simpl. rewrite decide_False by congruence. reflexivity.
Qed.

(** X11. Sign-up keeps the e-mails of the users pairwise distinct as
    texts. *)
Theorem signup_keeps_emails_distinct (appData : AppData)
  (email password : string) (gen : nat -> string) :
  NoDup (map User.email (users appData)) ->
  NoDup (map User.email (users (snd (signup appData email password gen)))).
Proof.
  intros Hnd.
  destruct (decide (Exists (fun u => User.email u = email) (users appData)))
    as [Hdup|Hnew].
  - unfold AuthPage.signup. rewrite decide_True by exact Hdup. exact Hnd.
  - destruct (signup_fresh appData email password gen Hnew) as (_ & -> & _).
    rewrite map_app. apply NoDup_app. split; [exact Hnd|].
    split; [|apply NoDup_singleton].
    intros x Hx Hin. apply list_elem_of_singleton in Hin. simpl in Hin.
    subst x. apply Hnew.
    change (map User.email) with (fmap (M := list) User.email) in Hx.
    apply list_elem_of_fmap in Hx as (u & Hu & Hin).
    apply Exists_exists. eauto.
Qed.

(** X12. Sign-up compares e-mails as texts, [resetPassword] compares them
    up to case.  When the e-mail typed at sign-up is, up to case but not as
    a text, the e-mail of an earlier user, the sign-up goes through, and a
    password reset for the typed e-mail then gives the default password to
    the first earlier user with that e-mail up to case, while the user just
    created keeps the verifier of the password typed at sign-up. *)
Theorem signup_then_resetPassword_resets_earlier_user
  (appData : AppData) (email password : string) (gen : nat -> string)
  (i : nat) (u : User.t) :
  list_find
    (fun v => JS.toLowerCase (User.email v) = JS.toLowerCase email)
    (users appData) = Some (i, u) ->
  ~ Exists (fun v => User.email v = email) (users appData) ->
  let s1 := snd (signup appData email password gen) in
  exists (newUser : User.t) (s2 : AppData),
    fst (signup appData email password gen) = AuthPage.Authenticated newUser
    /\ resetPassword s1 s1 email = (true, s2)
    /\ users s2 !! i
       = Some (User.mk (User.id u) (User.email u) (simpleHash "password123")
                       (User.role u))
    /\ users s2 !! length (users appData) = Some newUser
    /\ User.email newUser = email
    /\ User.passwordHash newUser = simpleHash password.
Proof.
  intros Hfind Hnew s1.
  destruct (signup_fresh appData email password gen Hnew)
    as (Hfst & Husers & _).
  fold s1 in Husers.
  pose proof Hfind as Hspec. apply list_find_Some in Hspec as (Hi & _).
  assert (Hlt : (i < length (users appData))%nat)
    by (eapply lookup_lt_Some; eauto).
  eexists _, _. split; [exact Hfst|].
  split.
  { apply resetPassword_found. rewrite Husers.
    apply list_find_app_l. exact Hfind. }
  simpl. rewrite Husers. split.
  - rewrite insert_app_l by exact Hlt.
    rewrite lookup_app_l by (rewrite length_insert; exact Hlt).
    apply list_lookup_insert_eq. exact Hlt.
  - split; [|split; reflexivity].
    rewrite insert_app_l by exact Hlt.
    rewrite lookup_app_r by (rewrite length_insert; lia).
    rewrite length_insert, Nat.sub_diag. reflexivity.
Qed.

End SignUp.

Lemma signup_keeps_emails_distinct_witness :
  NoDup (map User.email
           (users (snd (AuthPage.signup Sample.categoryTemplates
                          Sample.sourceTemplates Sample.store
                          "carol@example.com" "secret" Sample.draws)))).
Proof.
  apply (signup_keeps_emails_distinct
           Sample.categoryTemplates Sample.sourceTemplates Sample.store
           "carol@example.com" "secret" Sample.draws).
  simpl. apply NoDup_cons. split.
  - intros Hin. apply list_elem_of_singleton in Hin. discriminate Hin.
  - apply NoDup_singleton.
Defined.

Lemma signup_then_resetPassword_resets_earlier_user_witness :
  exists (newUser : User.t) (s2 : AppData),
    fst (AuthPage.signup Sample.categoryTemplates Sample.sourceTemplates
           Sample.store "Bob@Example.com" "secret" Sample.draws)
    = AuthPage.Authenticated newUser
    /\ resetPassword
         (snd (AuthPage.signup Sample.categoryTemplates Sample.sourceTemplates
                 Sample.store "Bob@Example.com" "secret" Sample.draws))
         (snd (AuthPage.signup Sample.categoryTemplates Sample.sourceTemplates
                 Sample.store "Bob@Example.com" "secret" Sample.draws))
         "Bob@Example.com"
       = (true, s2)
    /\ users s2 !! 1%nat
       = Some (User.mk "u2" "bob@example.com" (simpleHash "password123") USER)
    /\ users s2 !! length (users Sample.store) = Some newUser
    /\ User.email newUser = "Bob@Example.com"
    /\ User.passwordHash newUser = simpleHash "secret".
Proof.
  apply (signup_then_resetPassword_resets_earlier_user
           Sample.categoryTemplates Sample.sourceTemplates Sample.store
           "Bob@Example.com" "secret" Sample.draws 1 Sample.bob).
  - reflexivity.
  - intros Hex. apply Exists_exists in Hex as (v & Hv & Hmail).
    repeat (apply elem_of_cons in Hv as [->|Hv]; [discriminate Hmail|]).
    apply elem_of_nil in Hv. exact Hv.
Defined.

(** X13. After [resetPassword] has found a user for an e-mail, and the
    e-mail of that user is the typed one as a text, a log-in with the typed
    e-mail and the default password authenticates that user, with the
    identifier and the role it had. *)
Theorem resetPassword_then_login (s : AppData) (email : string)
  (i : nat) (u : User.t) :
  list_find
    (fun v => JS.toLowerCase (User.email v) = JS.toLowerCase email)
    (users s) = Some (i, u) ->
  User.email u = email ->
  AuthPage.login (snd (resetPassword s s email)) email "password123"
  = AuthPage.Authenticated
      (User.mk (User.id u) email (simpleHash "password123") (User.role u)).
Proof.
  intros Hfind Hmail. rewrite (resetPassword_found s s email i u Hfind).
  apply list_find_Some in Hfind as (Hi & _ & Hfirst).
  assert (Hlt : (i < length (users s))%nat) by (eapply lookup_lt_Some; eauto).
  unfold AuthPage.login; simpl.
  assert (Hlogin :
            list_find (fun v => User.email v = email)
              (<[i := User.mk (User.id u) (User.email u)
                              (simpleHash "password123") (User.role u)]>
                 (users s))
            = Some (i, User.mk (User.id u) (User.email u)
                               (simpleHash "password123") (User.role u))).
  { apply list_find_Some. split; [apply list_lookup_insert_eq; exact Hlt|].
    split; [exact Hmail|].
    intros j v Hj Hji Hv.
    rewrite list_lookup_insert_ne in Hj by lia.
    apply (Hfirst j v Hj Hji). rewrite Hv. reflexivity. }
  rewrite Hlogin.
  destruct (decide _) as [_|Hne]; [rewrite Hmail; reflexivity|].
  exfalso. apply Hne. reflexivity.
Qed.

Lemma resetPassword_then_login_witness :
  AuthPage.login
    (snd (resetPassword Sample.store Sample.store "bob@example.com"))
    "bob@example.com" "password123"
  = AuthPage.Authenticated
      (User.mk "u2" "bob@example.com" (simpleHash "password123") USER).
Proof.
  apply (resetPassword_then_login Sample.store "bob@example.com" 1 Sample.bob);
    reflexivity.
Defined.

(** ** The user screen *)




(** ** The profile screen *)


(** * Further properties of the CSV pipeline *)

(** ** Quoting and unquoting a description *)

Lemma append_nil_r (a : string) : a +:+ "" = a.
Proof.
  induction a as [|x a IH]; [reflexivity|].
  change (String x (a +:+ "") = String x a). rewrite IH. reflexivity.
Qed.

Lemma rev_app_append (a b acc : string) :
  String.rev_app (a +:+ b) acc = String.rev_app b (String.rev_app a acc).
Proof.
  revert acc. induction a as [|x a IH]; intros acc; [reflexivity|].
  change (String.rev_app (a +:+ b) (String x acc)
          = String.rev_app b (String.rev_app a (String x acc))).
  apply IH.
Qed.

Lemma rev_app_rev_app (a b c : string) :
  String.rev_app (String.rev_app a b) c = String.rev_app b (a +:+ c).
Proof.
  revert b c. induction a as [|x a IH]; intros b c; [reflexivity|].
  simpl. rewrite IH. reflexivity.
Qed.

Lemma rev_involutive (a : string) : String.rev (String.rev a) = a.
Proof.
  unfold String.rev. rewrite rev_app_rev_app. simpl. apply append_nil_r.
Qed.

Lemma rev_snoc (a : string) (c : ascii) :
  String.rev (a +:+ String c "") = String c (String.rev a).
Proof. unfold String.rev. rewrite rev_app_append. reflexivity. Qed.

Lemma undoubleQuotes_doubleQuotes (s : string) :
  JS.undoubleQuotes (JS.doubleQuotes s) = s.
Proof.
  induction s as [|c s IH]; [reflexivity|].
  simpl. destruct (decide (c = JS.dquote)) as [->|Hc].
  - simpl. rewrite IH. reflexivity.
  - destruct (JS.doubleQuotes s) as [|c2 r] eqn:Hd.
    + destruct s as [|c' s']; [reflexivity|].
      simpl in Hd. destruct (decide (c' = JS.dquote)); discriminate Hd.
    + simpl. rewrite decide_False by exact Hc.
      simpl in IH. rewrite IH. reflexivity.
Qed.

(** X16. The import undoes the quoting of the export: stripping the outer
    quotes of a quoted description and halving the doubled quotes gives the
    description back, whatever characters it holds. *)
Theorem unquote_quoted (description : string) :
  JS.undoubleQuotes (JS.stripQuotes (Csv.quoted description)) = description.
Proof.
  unfold JS.stripQuotes, Csv.quoted, JS.dropLeadingQuote at 2.
  rewrite decide_True by reflexivity.
  rewrite rev_snoc. unfold JS.dropLeadingQuote.
  rewrite decide_True by reflexivity.
  rewrite rev_involutive. apply undoubleQuotes_doubleQuotes.
Qed.

(** ** Exporting a profile without transactions *)

(** X17. The export of a profile that has no transaction is the header
    line alone, and the import of that file reports that the file is empty
    or holds a header only, whatever the target profile holds. *)
Theorem export_of_empty_profile_imports_nothing
  (D : string -> option string) (appData target : AppData)
  (profileId targetProfileId : string) :
  filter (fun t => Transaction.profileId t = profileId) (transactions appData)
  = [] ->
  Csv.handleExportCSV appData profileId
  = "date,description,amount,type,paymentMethod,category,source"
  /\ Csv.importInto D target targetProfileId
       (Csv.handleExportCSV appData profileId)
     = Csv.ImportError "CSV file is empty or contains only a header.".
Proof.
  intros Hempty.
  assert (Htext : Csv.handleExportCSV appData profileId
                  = "date,description,amount,type,paymentMethod,category,source").
  { unfold Csv.handleExportCSV. rewrite Hempty. reflexivity. }
  split; [exact Htext|].
  rewrite Htext. unfold Csv.importInto, Csv.handleImportCSV.
  set (lines := Csv.nonBlankLines _). vm_compute in lines. subst lines.
  reflexivity.
Qed.

Lemma export_of_empty_profile_imports_nothing_witness :
  Csv.handleExportCSV Sample.store "p2"
  = "date,description,amount,type,paymentMethod,category,source"
  /\ Csv.importInto Sample.Date_toISOString Sample.store "p1"
       (Csv.handleExportCSV Sample.store "p2")
     = Csv.ImportError "CSV file is empty or contains only a header.".
Proof.
  apply (export_of_empty_profile_imports_nothing
           Sample.Date_toISOString Sample.store Sample.store "p2" "p1").
  reflexivity.
Defined.

(** ** What an imported batch refers to *)

Section ImportedReferences.

Variable Date_toISOString : string -> option string.
Variable profileCategories : list Category.t.
Variable profileIncomeSources : list IncomeSource.t.

Lemma find_snd_elem_of {A : Type} (P : A -> Prop)
  `{!forall x, Decision (P x)} (l : list A) (x : A) :
  snd <$> list_find P l = Some x -> x ∈ l /\ P x.
Proof.
  destruct (list_find P l) as [[i y]|] eqn:Hfind; [|discriminate].
  simpl. intros [= ->]. apply list_find_Some in Hfind as (Hi & Hp & _).
  split; [eapply list_elem_of_lookup_2; exact Hi | exact Hp].
Qed.

Lemma processRow_wellReferenced (header : list string) (line : string)
  (t : TransactionData.t) :
  Csv.processRow Date_toISOString profileCategories profileIncomeSources
                 header line = Csv.Accepted t ->
  wellReferenced profileCategories profileIncomeSources t
  /\ JS.isNaN (TransactionData.amount t) = false
  /\ TransactionData.attachments t = None
  /\ JS.toLowerCase (TransactionData.paymentMethod t)
     = TransactionData.paymentMethod t.
Proof.
  unfold Csv.processRow.
  set (row := Csv.rowObject header (JS.split "," line)).
  destruct (Csv.basicChecks row) eqn:Hbasic; simpl; [|discriminate].
  destruct (Csv.resolves _ _ row) eqn:Hres; simpl; [|discriminate].
  destruct (Date_toISOString _) as [date|]; [|discriminate].
  destruct (Csv.prop row "paymentMethod") as [pm|]; [|discriminate].
  intros [= <-].
  unfold Csv.resolves in Hres. apply negb_true_iff, orb_false_iff in Hres.
  destruct Hres as [Hexp Hinc].
  apply bool_decide_eq_false in Hexp. apply bool_decide_eq_false in Hinc.
  split; [|split; [|split]].
  - unfold wellReferenced; simpl. split; [|split; [|split]].
    + intros Htype. rewrite decide_True by exact Htype.
      destruct (Csv.findCategory profileCategories row) as [c|] eqn:Hc;
        [|exfalso; apply Hexp; split; [exact Htype|reflexivity]].
      exists c. split; [|reflexivity].
      unfold Csv.findCategory in Hc.
      apply find_snd_elem_of in Hc as [Hin _]. exact Hin.
    + intros Htype. rewrite decide_False by exact Htype. reflexivity.
    + intros Htype. rewrite decide_True by exact Htype.
      destruct (Csv.findSource profileIncomeSources row) as [x|] eqn:Hx;
        [|exfalso; apply Hinc; split; [exact Htype|reflexivity]].
      exists x. split; [|reflexivity].
      unfold Csv.findSource in Hx.
      apply find_snd_elem_of in Hx as [Hin _]. exact Hin.
    + intros Htype. rewrite decide_False by exact Htype. reflexivity.
  - simpl. unfold Csv.basicChecks in Hbasic.
    apply negb_true_iff in Hbasic.
    repeat (apply orb_false_iff in Hbasic as [Hbasic ?]). assumption.
  - reflexivity.
  - simpl. clear. induction pm as [|c pm IH]; [reflexivity|].
    simpl. rewrite IH. f_equal. unfold JS.lowerChar.
    destruct c as [[] [] [] [] [] [] [] []]; reflexivity.
Qed.

Lemma importRows_Forall (P : TransactionData.t -> Prop)
  (header lines : list string) (acc batch : list TransactionData.t) :
  (forall line t,
      Csv.processRow Date_toISOString profileCategories profileIncomeSources
                     header line = Csv.Accepted t -> P t) ->
  Forall P acc ->
  Csv.importRows Date_toISOString profileCategories profileIncomeSources
                 header lines acc = inr batch ->
  Forall P batch.
Proof.
  intros Hrow. revert acc. induction lines as [|line lines IH];
    intros acc Hacc Hrun; simpl in Hrun.
  - injection Hrun as <-. exact Hacc.
  - destruct (Csv.processRow _ _ _ header line) as [|t|e] eqn:Hline.
    + eapply IH; eauto.
    + eapply IH; [|exact Hrun]. apply Forall_app. split; [exact Hacc|].
      apply Forall_cons. split; [|apply Forall_nil_2]. eapply Hrow; eauto.
    + discriminate Hrun.
Qed.

Lemma handleImportCSV_Forall (P : TransactionData.t -> Prop) (text : string)
  (batch : list TransactionData.t) (message : string) :
  (forall header line t,
      Csv.processRow Date_toISOString profileCategories profileIncomeSources
                     header line = Csv.Accepted t -> P t) ->
  Csv.handleImportCSV Date_toISOString profileCategories profileIncomeSources
                      text = Csv.ImportSuccess batch message ->
  Forall P batch.
Proof.
  intros Hrow Hrun. unfold Csv.handleImportCSV in Hrun. cbv zeta in Hrun.
  destruct (decide (_ < 2)%nat); [discriminate Hrun|].
  destruct (negb _); [discriminate Hrun|].
  destruct (Csv.importRows _ _ _ _ _ []) as [e|new] eqn:Hrows;
    [discriminate Hrun|].
  destruct (decide (0 < length new)%nat); [|discriminate Hrun].
  injection Hrun as <- _.
  eapply importRows_Forall; [|apply Forall_nil_2|exact Hrows].
  intros line t. apply Hrow.
Qed.

End ImportedReferences.

(** X18. An import never stores a dangling reference.  In a batch that
    [handleImportCSV] hands to the store for a profile, every expense names
    a category of that profile and no source, every income names a source of
    that profile and no category, and a transaction of any other type names
    neither; the amount of each is a number, none has attachments, and the
    payment method is in lower case. *)
Theorem imported_batch_is_well_referenced
  (D : string -> option string) (appData : AppData) (profileId text : string)
  (batch : list TransactionData.t) (message : string) :
  Csv.importInto D appData profileId text = Csv.ImportSuccess batch message ->
  Forall
    (fun t =>
       wellReferenced
         (filter (fun c => Category.profileId c = profileId)
                 (categories appData))
         (filter (fun x => IncomeSource.profileId x = profileId)
                 (incomeSources appData)) t
       /\ JS.isNaN (TransactionData.amount t) = false
       /\ TransactionData.attachments t = None
       /\ JS.toLowerCase (TransactionData.paymentMethod t)
          = TransactionData.paymentMethod t)
    batch.
Proof.
  unfold Csv.importInto. intros Hrun.
  eapply handleImportCSV_Forall; [|exact Hrun].
  intros header line t. apply processRow_wellReferenced.
Qed.

Lemma imported_batch_is_well_referenced_witness :
  exists (batch : list TransactionData.t) (message : string),
    Csv.importInto Sample.Date_toISOString Sample.store "p1"
                   Sample.csvFiveLines
    = Csv.ImportSuccess batch message
    /\ Forall
         (fun t =>
            wellReferenced
              (filter (fun c => Category.profileId c = "p1")
                      (categories Sample.store))
              (filter (fun x => IncomeSource.profileId x = "p1")
                      (incomeSources Sample.store)) t
            /\ JS.isNaN (TransactionData.amount t) = false
            /\ TransactionData.attachments t = None
            /\ JS.toLowerCase (TransactionData.paymentMethod t)
               = TransactionData.paymentMethod t)
         batch.
Proof.
  eexists _, _.
  assert (Hrun : Csv.importInto Sample.Date_toISOString Sample.store "p1"
                                Sample.csvFiveLines
                 = Csv.ImportSuccess
                     (match Csv.importInto Sample.Date_toISOString
                              Sample.store "p1" Sample.csvFiveLines with
                      | Csv.ImportSuccess b _ => b
                      | _ => []
                      end)
                     "Successfully imported 3 transactions.")
    by (vm_compute; reflexivity).
  split; [exact Hrun|].
  exact (imported_batch_is_well_referenced _ _ _ _ _ _ Hrun).
Defined.

(** ** Export followed by import *)

Lemma charFree_cons (sep c : ascii) (s : string) :
  charFree sep (String c s) <-> c <> sep /\ charFree sep s.
Proof.
  unfold charFree. simpl. rewrite not_elem_of_cons.
  split; intros [H1 H2]; split; auto.
Qed.

Lemma split_charFree (sep : ascii) (s : string) :
  charFree sep s -> JS.split sep s = [s].
Proof.
  induction s as [|c r IH]; intros H; [reflexivity|].
  apply charFree_cons in H as [Hc Hr]. simpl.
  rewrite decide_False by exact Hc. rewrite IH by exact Hr. reflexivity.
Qed.

Lemma split_append (sep : ascii) (a r : string) :
  charFree sep a -> JS.split sep (a +:+ String sep r) = a :: JS.split sep r.
Proof.
  induction a as [|c a IH]; intros H.
  - simpl. rewrite decide_True by reflexivity. reflexivity.
  - apply charFree_cons in H as [Hc Ha].
    change (JS.split sep (String c (a +:+ String sep r))
            = String c a :: JS.split sep r).
    simpl. rewrite decide_False by exact Hc. rewrite IH by exact Ha.
    reflexivity.
Qed.

Lemma join_cons (sep : ascii) (x y : string) (l : list string) :
  JS.join (String sep "") (x :: y :: l)
  = x +:+ String sep (JS.join (String sep "") (y :: l)).
Proof. reflexivity. Qed.

(** Splitting at the separator undoes joining with it, for pieces that do
    not hold the separator. *)
Lemma split_join (sep : ascii) (x : string) (l : list string) :
  Forall (charFree sep) (x :: l) ->
  JS.split sep (JS.join (String sep "") (x :: l)) = x :: l.
Proof.
  revert x. induction l as [|y l IH]; intros x H.
  - apply Forall_cons in H as [Hx _]. apply split_charFree. exact Hx.
  - apply Forall_cons in H as [Hx Hl].
    rewrite join_cons, split_append by exact Hx.
    rewrite IH by exact Hl. reflexivity.
Qed.

Lemma charFree_append (c : ascii) (a b : string) :
  charFree c a -> charFree c b -> charFree c (a +:+ b).
Proof.
  unfold charFree. rewrite list_ascii_of_string_app, not_elem_of_app. auto.
Qed.

Lemma charFree_join (c sep : ascii) (l : list string) :
  c <> sep -> Forall (charFree c) l -> charFree c (JS.join (String sep "") l).
Proof.
  intros Hsep. induction l as [|x l IH]; intros H.
  - unfold charFree. simpl. apply not_elem_of_nil.
  - apply Forall_cons in H as [Hx Hl]. destruct l as [|y l]; [exact Hx|].
    rewrite join_cons. apply charFree_append; [exact Hx|].
    apply charFree_cons. split; [congruence|]. apply IH. exact Hl.
Qed.

Lemma notBlank_cons (c : ascii) (s : string) :
  notBlank (String c s) <-> JS.isWhiteSpace c = false \/ notBlank s.
Proof. unfold notBlank. simpl. apply Exists_cons. Qed.

Lemma notBlank_nonempty (s : string) : notBlank s -> s <> "".
Proof.
  intros H ->. unfold notBlank in H. simpl in H. apply Exists_nil in H. exact H.
Qed.

Lemma notBlank_trimStart (s : string) : notBlank s -> notBlank (JS.trimStart s).
Proof.
  induction s as [|c r IH]; intros H; [exact H|].
  simpl. destruct (JS.isWhiteSpace c) eqn:Hc; [|exact H].
  apply notBlank_cons in H as [H|H]; [congruence|]. apply IH. exact H.
Qed.

Lemma notBlank_rev_app (a b : string) :
  notBlank a \/ notBlank b -> notBlank (String.rev_app a b).
Proof.
  revert b. induction a as [|c a IH]; intros b H.
  - destruct H as [H|H]; [|exact H].
    unfold notBlank in H. simpl in H. apply Exists_nil in H. destruct H.
  - simpl. apply IH. rewrite !notBlank_cons in *. tauto.
Qed.

(** A text with a character that is no white space is not blank for
    [trim]. *)
Lemma trim_notBlank (s : string) : notBlank s -> JS.trim s <> "".
Proof.
  intros H. apply notBlank_nonempty.
  unfold JS.trim, JS.trimEnd, String.rev.
  apply notBlank_rev_app. left. apply notBlank_trimStart.
  apply notBlank_rev_app. left. apply notBlank_trimStart. exact H.
Qed.

Lemma notBlank_append_r (a b : string) : notBlank b -> notBlank (a +:+ b).
Proof.
  unfold notBlank. rewrite list_ascii_of_string_app, Exists_app. auto.
Qed.

(** The object the import builds for a line of seven cells under the
    header of the export. *)
Lemma rowObject_headers (c0 c1 c2 c3 c4 c5 c6 : string) :
  let row := Csv.rowObject Csv.headers [c0; c1; c2; c3; c4; c5; c6] in
  Csv.prop row "date" = Some c0
  /\ Csv.prop row "description" = Some c1
  /\ Csv.prop row "amount" = Some c2
  /\ Csv.prop row "type" = Some c3
  /\ Csv.prop row "paymentMethod" = Some c4
  /\ Csv.prop row "category" = Some c5
  /\ Csv.prop row "source" = Some c6.
Proof. repeat split; vm_compute; reflexivity. Qed.

Lemma stripQuotes_quoted (description : string) :
  JS.stripQuotes (Csv.quoted description) = JS.doubleQuotes description.
Proof.
  unfold JS.stripQuotes, Csv.quoted, JS.dropLeadingQuote at 2.
  rewrite decide_True by reflexivity.
  rewrite rev_snoc. unfold JS.dropLeadingQuote.
  rewrite decide_True by reflexivity.
  apply rev_involutive.
Qed.

(** The first element whose key is that of [x] is [x] when [x] is the only
    element with its key. *)
Lemma list_find_unique {A B : Type} `{!EqDecision B} (key : A -> B)
  (l : list A) (x : A) :
  x ∈ l ->
  (forall y : A, y ∈ l -> key y = key x -> y = x) ->
  snd <$> list_find (fun y => Some (key y) = Some (key x)) l = Some x.
Proof.
  intros Hin Huniq.
  destruct (list_find (fun y => Some (key y) = Some (key x)) l)
    as [[i y]|] eqn:Hfind.
  - apply list_find_Some in Hfind as (Hi & Hp & _). simpl.
    f_equal. apply Huniq; [eapply list_elem_of_lookup_2; exact Hi|].
    congruence.
  - apply list_find_None in Hfind.
    rewrite Forall_forall in Hfind. exfalso. exact (Hfind x Hin eq_refl).
Qed.

Lemma falsy_nonempty (s : string) : s <> "" -> Csv.falsy (Some s) = false.
Proof. intros H. apply bool_decide_eq_false_2. exact H. Qed.

Lemma quoted_nonempty (s : string) : Csv.quoted s <> "".
Proof. discriminate. Qed.

Lemma processRow_exportRow (D : string -> option string)
  (cats : list Category.t) (srcs : list IncomeSource.t) (t : Transaction.t) :
  plainFields D cats srcs t ->
  Csv.processRow D cats srcs Csv.headers (Csv.exportRow cats srcs t)
  = Csv.Accepted (reimported D t).
Proof.
  intros (Hcomma & _ & Hday & (iso & HD & _) & Hpf & Hnan & Hpm & Href).
  unfold Csv.processRow.
  change (Csv.exportRow cats srcs t)
    with (JS.join "," (exportCells cats srcs t)).
  unfold exportCells in *.
  rewrite split_join by exact Hcomma.
  change (hd "" (JS.split "T" (Transaction.date t))) with (datePart t).
  pose proof (rowObject_headers (datePart t)
                (Csv.quoted (Transaction.description t))
                (JS.numberToString (Transaction.amount t))
                (Transaction.type t) (Transaction.paymentMethod t)
                (Csv.categoryCell cats t) (Csv.sourceCell srcs t)) as Hrow.
  cbv zeta in Hrow.
  destruct Hrow as (H0 & H1 & H2 & H3 & H4 & H5 & H6).
  cbv zeta.
  unfold Csv.basicChecks, Csv.resolves, Csv.rowType, Csv.findCategory,
    Csv.findSource.
  rewrite H0, H1, H2, H3, H4, H5, H6.
  clear H0 H1 H2 H3 H4 H5 H6.
  repeat match goal with
         | |- context [default "" (Some ?x)] =>
             change (default "" (Some x)) with x
         end.
  change (JS.toLowerCase <$> Some (Csv.categoryCell cats t))
    with (Some (JS.toLowerCase (Csv.categoryCell cats t))).
  change (JS.toLowerCase <$> Some (Csv.sourceCell srcs t))
    with (Some (JS.toLowerCase (Csv.sourceCell srcs t))).
  rewrite (falsy_nonempty _ Hday), (falsy_nonempty _ (quoted_nonempty (Transaction.description t))).
  rewrite Hpf, Hnan, HD, Hpm, stripQuotes_quoted, undoubleQuotes_doubleQuotes.
  unfold reimported. rewrite HD.
  change (default "" (Some iso)) with iso.
  destruct Href as [(Htype & k & c & Hfind & Huniq)
                   |(Htype & k & x & Hfind & Huniq)].
  - assert (Hcell : Csv.categoryCell cats t = Category.name c).
    { unfold Csv.categoryCell. rewrite decide_True by exact Htype.
      rewrite Hfind. reflexivity. }
    apply list_find_Some in Hfind as (Hk & Hid & _).
    assert (Hin : c ∈ cats) by (eapply list_elem_of_lookup_2; exact Hk).
    rewrite Hcell.
    rewrite (list_find_unique (fun c => JS.toLowerCase (Category.name c))
               cats c Hin Huniq).
    rewrite Htype.
    change (JS.toLowerCase TransactionType.EXPENSE)
      with TransactionType.EXPENSE.
    rewrite (bool_decide_eq_false_2
               (TransactionType.EXPENSE = TransactionType.EXPENSE
                /\ Some c = None))
      by (intros [_ ?]; discriminate).
    rewrite bool_decide_eq_false_2 by (intros [? _]; discriminate).
    rewrite decide_True by reflexivity.
    rewrite decide_False by discriminate.
    rewrite decide_True by reflexivity.
    rewrite decide_False by discriminate.
    change (Category.id <$> Some c) with (Some (Category.id c)).
    rewrite Hid. reflexivity.
  - assert (Hcell : Csv.sourceCell srcs t = IncomeSource.name x).
    { unfold Csv.sourceCell. rewrite decide_True by exact Htype.
      rewrite Hfind. reflexivity. }
    apply list_find_Some in Hfind as (Hk & Hid & _).
    assert (Hin : x ∈ srcs) by (eapply list_elem_of_lookup_2; exact Hk).
    rewrite Hcell.
    rewrite (list_find_unique (fun s => JS.toLowerCase (IncomeSource.name s))
               srcs x Hin Huniq).
    rewrite Htype.
    change (JS.toLowerCase TransactionType.INCOME)
      with TransactionType.INCOME.
    rewrite bool_decide_eq_false_2 by (intros [? _]; discriminate).
    rewrite (bool_decide_eq_false_2
               (TransactionType.INCOME = TransactionType.INCOME
                /\ Some x = None))
      by (intros [_ ?]; discriminate).
    rewrite decide_False by discriminate.
    rewrite decide_True by reflexivity.
    rewrite decide_False by discriminate.
    rewrite decide_True by reflexivity.
    change (IncomeSource.id <$> Some x) with (Some (IncomeSource.id x)).
    rewrite Hid. reflexivity.
Qed.

Lemma importRows_exported (D : string -> option string)
  (cats : list Category.t) (srcs : list IncomeSource.t)
  (txs : list Transaction.t) (acc : list TransactionData.t) :
  Forall (plainFields D cats srcs) txs ->
  Csv.importRows D cats srcs Csv.headers (map (Csv.exportRow cats srcs) txs) acc
  = inr (acc ++ map (reimported D) txs).
Proof.
  revert acc. induction txs as [|t txs IH]; intros acc Hall.
  - simpl. rewrite app_nil_r. reflexivity.
  - apply Forall_cons in Hall as [Ht Hrest]. simpl.
    rewrite (processRow_exportRow D cats srcs t Ht).
    rewrite (IH _ Hrest), <- app_assoc. reflexivity.
Qed.

Lemma exportRow_notBlank (cats : list Category.t) (srcs : list IncomeSource.t)
  (t : Transaction.t) : notBlank (Csv.exportRow cats srcs t).
Proof.
  unfold Csv.exportRow. cbv zeta. rewrite join_cons.
  apply notBlank_append_r, notBlank_cons. left. reflexivity.
Qed.

Lemma exportRow_charFree (D : string -> option string)
  (cats : list Category.t) (srcs : list IncomeSource.t) (t : Transaction.t) :
  plainFields D cats srcs t -> charFree "010" (Csv.exportRow cats srcs t).
Proof.
  intros (_ & Hnl & _).
  change (Csv.exportRow cats srcs t)
    with (JS.join "," (exportCells cats srcs t)).
  apply charFree_join; [discriminate | exact Hnl].
Qed.

(** The lines the import reads in the export of plain transactions: the
    header line, then one line for each transaction. *)
Lemma nonBlankLines_exported (D : string -> option string)
  (cats : list Category.t) (srcs : list IncomeSource.t)
  (txs : list Transaction.t) :
  Forall (plainFields D cats srcs) txs ->
  Csv.nonBlankLines
    (JS.join (String "010" EmptyString)
       (JS.join "," Csv.headers :: map (Csv.exportRow cats srcs) txs))
  = JS.join "," Csv.headers :: map (Csv.exportRow cats srcs) txs.
Proof.
  intros Hall. unfold Csv.nonBlankLines.
  rewrite split_join.
  - apply filter_all. intros line Hline.
    apply elem_of_cons in Hline as [->|Hline].
    + vm_compute. discriminate.
    + apply list_elem_of_fmap in Hline as (t & -> & _).
      apply trim_notBlank, exportRow_notBlank.
  - apply Forall_cons. split.
    + unfold charFree. apply (bool_decide_unpack _). vm_compute. exact I.
    + apply Forall_fmap. eapply Forall_impl; [exact Hall|].
      intros t Ht. exact (exportRow_charFree D cats srcs t Ht).
Qed.

Lemma tuple_frame (a b : AppData) (t : Transaction.t) :
  categories a = categories b -> incomeSources a = incomeSources b ->
  Csv.tuple a t = Csv.tuple b t.
Proof. intros Hc Hs. unfold Csv.tuple. rewrite Hc, Hs. reflexivity. Qed.

(** The re-imported transaction shows as the exported one did. *)
Lemma tuple_reimported (D : string -> option string) (appData : AppData)
  (t : Transaction.t) (id : string) :
  plainFields D
    (filter (fun c => Category.profileId c = Transaction.profileId t)
            (categories appData))
    (filter (fun s => IncomeSource.profileId s = Transaction.profileId t)
            (incomeSources appData)) t ->
  Csv.tuple appData
    (Transaction.mk id (Transaction.profileId t) (reimported D t))
  = Csv.tuple appData t.
Proof.
  intros (_ & _ & _ & (iso & HD & Hiso) & _ & _ & _ & _).
  unfold Csv.tuple, Csv.categoryCell, Csv.sourceCell, reimported.
  rewrite HD. cbn. rewrite Hiso. unfold datePart.
  unfold TransactionType.EXPENSE, TransactionType.INCOME.
  repeat case_decide; first [reflexivity | congruence].
Qed.

(** The batch of a re-import, stamped with the profile and numbered by the
    store: every transaction belongs to the profile and shows as the
    exported one did. *)
Lemma tuples_of_reimported (D : string -> option string)
  (appData store : AppData) (profileId : string) (txs : list Transaction.t)
  (gen : nat -> string) :
  categories store = categories appData ->
  incomeSources store = incomeSources appData ->
  Forall (fun t => Transaction.profileId t = profileId) txs ->
  Forall (plainFields D
            (filter (fun c => Category.profileId c = profileId)
                    (categories appData))
            (filter (fun s => IncomeSource.profileId s = profileId)
                    (incomeSources appData))) txs ->
  let new :=
    imap (fun i t => Transaction.mk (gen i) (NewTransaction.profileId t)
                                    (NewTransaction.data t))
         (map (fun d => NewTransaction.mk profileId d)
              (map (reimported D) txs)) in
  filter (fun t => Transaction.profileId t = profileId) new = new
  /\ map (Csv.tuple store) new = map (Csv.tuple appData) txs.
Proof.
  intros Hc Hs. revert gen.
  induction txs as [|t txs IH]; intros gen Hpid Hall; [split; reflexivity|].
  apply Forall_cons in Hpid as [Ht Hpid].
  apply Forall_cons in Hall as [Hplain Hall].
  destruct (IH (fun i => gen (S i)) Hpid Hall) as [IH1 IH2].
  cbv zeta. simpl. split.
  - rewrite filter_cons_True by reflexivity. f_equal. exact IH1.
  - f_equal; [|exact IH2].
    rewrite (tuple_frame store appData _ Hc Hs).
    rewrite <- Ht in Hplain |- *.
    exact (tuple_reimported D appData t (gen 0%nat) Hplain).
Qed.

(** X19. A profile whose transactions have plain fields comes back from its
    own export: the import accepts one line for each transaction, in order,
    and reports their number; each accepted transaction has the type,
    amount, description and payment method of the exported one, the
    reference that goes with its type, the date [Date] makes of the calendar
    day, and no attachment.  Appended to a store with the same categories
    and sources, whatever transactions it holds, the batch shows as the
    exported transactions did: into the emptied store the import restores
    what the export showed, into the store itself it doubles it. *)
Theorem export_then_import_restores (D : string -> option string)
  (appData : AppData) (profileId : string) (kept : list Transaction.t)
  (gen : nat -> string) :
  let exported :=
    filter (fun t => Transaction.profileId t = profileId)
           (transactions appData) in
  let profileCategories :=
    filter (fun c => Category.profileId c = profileId) (categories appData) in
  let profileIncomeSources :=
    filter (fun s => IncomeSource.profileId s = profileId)
           (incomeSources appData) in
  let outcome :=
    Csv.importInto D appData profileId
      (Csv.handleExportCSV appData profileId) in
  exported <> [] ->
  Forall (plainFields D profileCategories profileIncomeSources) exported ->
  outcome
  = Csv.ImportSuccess (map (reimported D) exported)
      ("Successfully imported "
       +:+ JS.intToString (Z.of_nat (length exported)) +:+ " transactions.")
  /\ Csv.tuples
       (Csv.commit (with_transactions appData kept) profileId outcome gen)
       profileId
     = Csv.tuples (with_transactions appData kept) profileId
       ++ Csv.tuples appData profileId.
Proof.
  intros exported cats srcs outcome Hsome Hall.
  assert (Hout : outcome
                 = Csv.ImportSuccess (map (reimported D) exported)
                     ("Successfully imported "
                      +:+ JS.intToString (Z.of_nat (length exported))
                      +:+ " transactions.")).
  { subst outcome.
    unfold Csv.importInto, Csv.handleImportCSV, Csv.handleExportCSV.
    cbv zeta. fold exported. fold cats. fold srcs.
    rewrite (nonBlankLines_exported D cats srcs exported Hall).
    cbn [hd tl].
    assert (Hheader : map JS.trim (JS.split "," (JS.join "," Csv.headers))
                      = Csv.headers) by (vm_compute; reflexivity).
    assert (Hrequired : forallb (fun h => JS.includes h Csv.headers)
                                Csv.requiredHeaders = true)
      by (vm_compute; reflexivity).
    rewrite Hheader, Hrequired.
    rewrite decide_False
      by (destruct exported; [congruence | simpl; lia]).
    cbn [negb].
    rewrite (importRows_exported D cats srcs exported [] Hall).
    cbn [app]. rewrite length_map.
    rewrite decide_True
      by (destruct exported; [congruence | simpl; lia]).
    reflexivity. }
  split; [exact Hout|].
  rewrite Hout.
  unfold Csv.commit, addMultipleTransactions, Csv.tuples, with_transactions.
  cbv zeta.
  cbn [transactions users profiles categories incomeSources currencies].
  rewrite filter_app, map_app.
  destruct (tuples_of_reimported D appData
              (mkAppData (users appData) (profiles appData)
                 (kept
                  ++ imap (fun i t =>
                             Transaction.mk (gen i)
                               (NewTransaction.profileId t)
                               (NewTransaction.data t))
                       (map (fun t => NewTransaction.mk profileId t)
                            (map (reimported D) exported)))
                 (categories appData) (incomeSources appData)
                 (currencies appData))
              profileId exported gen eq_refl eq_refl) as [Hfilter Htuples].
  - apply Forall_forall. intros t Ht.
    apply list_elem_of_filter in Ht as [Ht _]. exact Ht.
  - exact Hall.
  - cbv zeta in Hfilter, Htuples. rewrite Hfilter, Htuples.
    reflexivity.
Qed.

Lemma export_then_import_restores_witness :
  Csv.tuples
    (Csv.commit (with_transactions Sample.storeWithoutComma []) "p1"
       (Csv.importInto Sample.Date_toISOString Sample.storeWithoutComma "p1"
          (Csv.handleExportCSV Sample.storeWithoutComma "p1"))
       Sample.draws) "p1"
  = Csv.tuples Sample.storeWithoutComma "p1".
Proof.
  refine (proj2 (export_then_import_restores Sample.Date_toISOString
                   Sample.storeWithoutComma "p1" [] Sample.draws _ _)).
  - discriminate.
  - apply Forall_cons. split; [|apply Forall_nil_2].
    unfold plainFields, charFree.
    split; [apply (bool_decide_unpack _); vm_compute; exact I|].
    split; [apply (bool_decide_unpack _); vm_compute; exact I|].
    split; [vm_compute; discriminate|].
    split; [exists "2024-01-05T00:00:00.000Z"; split; vm_compute; reflexivity|].
    split; [vm_compute; reflexivity|].
    split; [reflexivity|].
    split; [reflexivity|].
    left. split; [reflexivity|].
    exists 0%nat, Sample.food. split; [reflexivity|].

    intros c' Hc' _. apply list_elem_of_singleton in Hc'. exact Hc'.
Defined.

(** ** The demo log-in *)

Section DemoLogin.

Variable DEFAULT_CATEGORIES : list Template.t.
Variable DEFAULT_INCOME_SOURCES : list Template.t.
Variable dateOfDay : Z -> string.

Local Abbreviation findOrCreateProfile :=
  (Demo.findOrCreateProfile DEFAULT_CATEGORIES DEFAULT_INCOME_SOURCES).
Local Abbreviation handleDemoLogin :=
  (Demo.handleDemoLogin DEFAULT_CATEGORIES DEFAULT_INCOME_SOURCES dateOfDay).
Local Abbreviation demoTransactions := (Demo.demoTransactions dateOfDay).

Lemma handleDemoLogin_unfold (appData : AppData) (uuid : string)
  (genProfile genTransactions : nat -> string) :
  let step1 := Demo.findOrCreateUser appData uuid in
  let step2 := findOrCreateProfile appData (snd step1) (fst step1) genProfile in
  handleDemoLogin appData uuid genProfile genTransactions
  = (fst step1,
     with_transactions (snd step2)
       (demoTransactions appData (fst step2) genTransactions)).
Proof.
  cbv zeta. unfold Demo.handleDemoLogin.
  destruct (Demo.findOrCreateUser appData uuid) as [demoUser s1]. simpl.
  destruct (findOrCreateProfile appData s1 demoUser genProfile)
    as [demoProfile s2].
  reflexivity.
Qed.

Lemma findOrCreateUser_spec (appData : AppData) (uuid : string) :
  let demoUser := fst (Demo.findOrCreateUser appData uuid) in
  let s1 := snd (Demo.findOrCreateUser appData uuid) in
  User.email demoUser = Demo.DEMO_EMAIL
  /\ demoUser ∈ users s1
  /\ profiles s1 = profiles appData.
Proof.
  cbv zeta. unfold Demo.findOrCreateUser.
  destruct (list_find (fun u => User.email u = Demo.DEMO_EMAIL)
                      (users appData)) as [[i u]|] eqn:Hfind.
  - apply list_find_Some in Hfind as (Hi & Hu & _). simpl.
    split; [exact Hu|]. split; [|reflexivity].
    eapply list_elem_of_lookup_2. exact Hi.
  - simpl. split; [reflexivity|]. split; [|reflexivity].
    apply elem_of_app. right. apply list_elem_of_here.
Qed.

Lemma findOrCreateProfile_spec (appData prev : AppData) (demoUser : User.t)
  (gen : nat -> string) :
  profiles prev = profiles appData ->
  let demoProfile := fst (findOrCreateProfile appData prev demoUser gen) in
  let s2 := snd (findOrCreateProfile appData prev demoUser gen) in
  demoProfile ∈ profiles s2
  /\ Profile.name demoProfile = "Demo Profile"
  /\ Profile.userId demoProfile = User.id demoUser
  /\ users s2 = users prev.
Proof.
  intros Hprofiles. cbv zeta. unfold Demo.findOrCreateProfile.
  destruct (list_find (fun p => Profile.name p = "Demo Profile"
                                /\ Profile.userId p = User.id demoUser)
                      (profiles appData)) as [[i p]|] eqn:Hfind.
  - apply list_find_Some in Hfind as (Hi & [Hname Howner] & _). simpl.
    rewrite Hprofiles. split; [eapply list_elem_of_lookup_2; exact Hi|].
    auto.
  - simpl. split; [|auto].
    apply elem_of_app. right. apply list_elem_of_here.
Qed.

(** The stored list is the transactions of the other profiles followed by
    ten new ones of the demo profile, numbered by the draws. *)
Lemma demoTransactions_spec (appData : AppData) (demoProfile : Profile.t)
  (gen : nat -> string) :
  exists new : list Transaction.t,
    demoTransactions appData demoProfile gen
    = filter (fun t => Transaction.profileId t <> Profile.id demoProfile)
             (transactions appData) ++ new
    /\ Forall (fun t => Transaction.profileId t = Profile.id demoProfile) new
    /\ map Transaction.id new = map gen (seq 0 10).
Proof.
  unfold Demo.demoTransactions, getProfileData. cbv zeta.
  eexists. split; [reflexivity|]. split.
  - unfold Demo.sampleTransactions. cbv zeta. simpl.
    repeat (apply Forall_cons; split; [reflexivity|]). apply Forall_nil_2.
  - reflexivity.
Qed.

Lemma filter_filter_same {A : Type} (P : A -> Prop)
  `{!forall x, Decision (P x)} (l : list A) :
  filter P (filter P l) = filter P l.
Proof.
  apply filter_all. intros x Hx. apply list_elem_of_filter in Hx as [Hx _].
  exact Hx.
Qed.

Lemma filter_split_new (profileId : string) (old new : list Transaction.t) :
  Forall (fun t => Transaction.profileId t = profileId) new ->
  filter (fun t => Transaction.profileId t = profileId)
         (filter (fun t => Transaction.profileId t <> profileId) old ++ new)
  = new
  /\ filter (fun t => Transaction.profileId t <> profileId)
            (filter (fun t => Transaction.profileId t <> profileId) old ++ new)
     = filter (fun t => Transaction.profileId t <> profileId) old.
Proof.
  intros Hnew. rewrite Forall_forall in Hnew. rewrite !filter_app. split.
  - rewrite (filter_none (fun t => Transaction.profileId t = profileId)
               (filter _ old)).
    + simpl. apply filter_all. exact Hnew.
    + intros t Ht. apply list_elem_of_filter in Ht as [Ht _]. exact Ht.
  - rewrite filter_filter_same.
    rewrite (filter_none (fun t => Transaction.profileId t <> profileId) new).
    + apply app_nil_r.
    + intros t Ht Hne. apply Hne. apply Hnew. exact Ht.
Qed.

(** X20. Whatever the snapshot holds, the demo log-in authenticates a user
    of the snapshot it leaves whose e-mail is the demo e-mail; that user
    owns a profile named Demo Profile there, whose transactions are ten new
    ones numbered by the draws, in order; and the transactions of every
    other profile are those of before. *)
Theorem handleDemoLogin_replaces_demo_transactions (appData : AppData)
  (uuid : string) (genProfile genTransactions : nat -> string) :
  let demoUser :=
    fst (handleDemoLogin appData uuid genProfile genTransactions) in
  let s := snd (handleDemoLogin appData uuid genProfile genTransactions) in
  User.email demoUser = Demo.DEMO_EMAIL
  /\ demoUser ∈ users s
  /\ exists demoProfile : Profile.t,
       demoProfile ∈ profiles s
       /\ Profile.name demoProfile = "Demo Profile"
       /\ Profile.userId demoProfile = User.id demoUser
       /\ map Transaction.id (transactionsOf (Profile.id demoProfile) s)
          = map genTransactions (seq 0 10)
       /\ filter (fun t => Transaction.profileId t <> Profile.id demoProfile)
                 (transactions s)
          = filter (fun t => Transaction.profileId t <> Profile.id demoProfile)
                   (transactions appData).
Proof.
  cbv zeta. rewrite handleDemoLogin_unfold. cbv zeta.
  destruct (findOrCreateUser_spec appData uuid) as (Hemail & Huser & Hprofiles).
  destruct (findOrCreateProfile_spec appData
              (snd (Demo.findOrCreateUser appData uuid))
              (fst (Demo.findOrCreateUser appData uuid)) genProfile Hprofiles)
    as (Hin & Hname & Howner & Husers).
  cbv zeta in Hemail, Huser, Hin, Hname, Howner, Husers.
  set (demoUser := fst (Demo.findOrCreateUser appData uuid)) in *.
  set (step2 := findOrCreateProfile appData _ demoUser genProfile) in *.
  destruct (demoTransactions_spec appData (fst step2) genTransactions)
    as (new & Hsplit & Hnew & Hids).
  unfold transactionsOf. cbn [fst snd]. unfold with_transactions.
  cbn [users profiles transactions].
  split; [exact Hemail|]. split; [rewrite Husers; exact Huser|].
  exists (fst step2). split; [exact Hin|]. split; [exact Hname|].
  split; [exact Howner|]. rewrite Hsplit.
  destruct (filter_split_new (Profile.id (fst step2)) (transactions appData)
              new Hnew) as [Hown Hother].
  rewrite Hown, Hother. split; [exact Hids | reflexivity].
Qed.

Lemma list_find_snoc_new {A : Type} (P : A -> Prop)
  `{!forall x, Decision (P x)} (l : list A) (x : A) :
  list_find P l = None -> P x ->
  list_find P (l ++ [x]) = Some (length l, x).
Proof.
  intros Hnone Hx. apply list_find_app_Some. right.
  split; [lia|]. split; [exact Hnone|].
  rewrite Nat.sub_diag. simpl. rewrite decide_True by exact Hx. reflexivity.
Qed.

(** The shape of the first demo log-in: no user has the demo e-mail, and
    the identifier drawn for the user owns no profile yet. *)
Lemma first_login_shape (appData : AppData) (uuid : string)
  (genProfile genTransactions : nat -> string) :
  Forall (fun u => User.email u <> Demo.DEMO_EMAIL) (users appData) ->
  Forall (fun p => Profile.userId p <> uuid) (profiles appData) ->
  let newUser :=
    User.mk uuid Demo.DEMO_EMAIL (simpleHash "demo")
            (if decide (length (users appData) = 0%nat) then ADMIN else USER) in
  let newProfile := Profile.mk (genProfile 0%nat) "Demo Profile" "USD" uuid in
  handleDemoLogin appData uuid genProfile genTransactions
  = (newUser,
     mkAppData
       (users appData ++ [newUser])
       (profiles appData ++ [newProfile])
       (demoTransactions appData newProfile genTransactions)
       (categories appData
        ++ imap (fun i cat =>
                   seedCategory (genProfile 0%nat) (genProfile (1 + i)%nat) cat)
                DEFAULT_CATEGORIES)
       (incomeSources appData
        ++ imap (fun i src =>
                   seedIncomeSource (genProfile 0%nat)
                     (genProfile (1 + length DEFAULT_CATEGORIES + i)%nat) src)
                DEFAULT_INCOME_SOURCES)
       (currencies appData)).
Proof.
  intros Huser Hprofile. cbv zeta.
  assert (Hnouser : list_find (fun u => User.email u = Demo.DEMO_EMAIL)
                              (users appData) = None)
    by (apply list_find_None; exact Huser).
  assert (Hnone : list_find (fun p => Profile.name p = "Demo Profile"
                                      /\ Profile.userId p = uuid)
                            (profiles appData) = None).
  { apply list_find_None. eapply Forall_impl; [exact Hprofile|].
    intros p Hp [_ Howner]. exact (Hp Howner). }
  unfold Demo.handleDemoLogin, Demo.findOrCreateUser.
  rewrite Hnouser. unfold addUser. cbv zeta.
  unfold Demo.findOrCreateProfile. cbn [User.id].
  rewrite Hnone. reflexivity.
Qed.

(** The shape of a demo log-in that finds the demo user and its profile. *)
Lemma returning_login_shape (s : AppData) (demoUser : User.t)
  (demoProfile : Profile.t) (i j : nat) (uuid : string)
  (genProfile genTransactions : nat -> string) :
  list_find (fun u => User.email u = Demo.DEMO_EMAIL) (users s)
  = Some (i, demoUser) ->
  list_find (fun p => Profile.name p = "Demo Profile"
                      /\ Profile.userId p = User.id demoUser) (profiles s)
  = Some (j, demoProfile) ->
  handleDemoLogin s uuid genProfile genTransactions
  = (demoUser,
     with_transactions s (demoTransactions s demoProfile genTransactions)).
Proof.
  intros Huser Hprofile.
  unfold Demo.handleDemoLogin, Demo.findOrCreateUser.
  rewrite Huser. unfold Demo.findOrCreateProfile. rewrite Hprofile.
  reflexivity.
Qed.

(** The transactions of the demo profile after the handler: the samples,
    with the references looked up in the rendered snapshot. *)
Lemma demoTransactions_own (appData : AppData) (demoProfile : Profile.t)
  (gen : nat -> string) :
  filter (fun t => Transaction.profileId t = Profile.id demoProfile)
         (demoTransactions appData demoProfile gen)
  = imap (fun i t =>
            Transaction.mk (gen i) (NewTransaction.profileId t)
                           (NewTransaction.data t))
      (Demo.sampleTransactions dateOfDay (Profile.id demoProfile)
         (fun name =>
            Category.id
              <$> (snd <$> list_find (fun c => Category.name c = name)
                     (filter (fun c => Category.profileId c
                                       = Profile.id demoProfile)
                             (categories appData))))
         (fun name =>
            IncomeSource.id
              <$> (snd <$> list_find (fun x => IncomeSource.name x = name)
                     (filter (fun x => IncomeSource.profileId x
                                       = Profile.id demoProfile)
                             (incomeSources appData))))).
Proof.
  unfold Demo.demoTransactions, getProfileData. cbv zeta.
  apply filter_split_new.
  unfold Demo.sampleTransactions. cbv zeta. simpl.
  repeat (apply Forall_cons; split; [reflexivity|]). apply Forall_nil_2.
Qed.

Lemma Forall_stamp (Q : string -> TransactionData.t -> Prop)
  (l : list NewTransaction.t) (gen : nat -> string) :
  Forall (fun t => Q (NewTransaction.profileId t) (NewTransaction.data t)) l ->
  Forall (fun t => Q (Transaction.profileId t) (Transaction.data t))
         (imap (fun i t =>
                  Transaction.mk (gen i) (NewTransaction.profileId t)
                                 (NewTransaction.data t)) l).
Proof.
  revert gen. induction l as [|t l IH]; intros gen Hall; [apply Forall_nil_2|].
  apply Forall_cons in Hall as [Ht Hl]. simpl.
  apply Forall_cons. split; [exact Ht|].
  exact (IH (fun i => gen (S i)) Hl).
Qed.

Lemma sampleTransactions_unlinked (profileId : string)
  (getCatId getSourceId : string -> option string) :
  (forall name, getCatId name = None) ->
  (forall name, getSourceId name = None) ->
  Forall (fun t => TransactionData.categoryId (NewTransaction.data t) = None
                   /\ TransactionData.sourceId (NewTransaction.data t) = None)
         (Demo.sampleTransactions dateOfDay profileId getCatId getSourceId).
Proof.
  intros Hcat Hsrc. unfold Demo.sampleTransactions. cbv zeta.
  repeat (apply Forall_cons; split; [simpl; auto|]). apply Forall_nil_2.
Qed.

Lemma sampleTransactions_linked (profileId : string)
  (getCatId getSourceId : string -> option string)
  (cats : string -> list Category.t) (srcs : string -> list IncomeSource.t) :
  (forall name, name ∈ sampleCategoryNames ->
     exists c, c ∈ cats profileId /\ getCatId name = Some (Category.id c)) ->
  (forall name, name ∈ sampleSourceNames ->
     exists x, x ∈ srcs profileId
               /\ getSourceId name = Some (IncomeSource.id x)) ->
  Forall (fun t => wellReferenced (cats (NewTransaction.profileId t))
                                  (srcs (NewTransaction.profileId t))
                                  (NewTransaction.data t))
         (Demo.sampleTransactions dateOfDay profileId getCatId getSourceId).
Proof.
  intros Hcat Hsrc. unfold Demo.sampleTransactions. cbv zeta.
  assert (Hin : forall (name : string) (l : list string),
            bool_decide (name ∈ l) = true -> name ∈ l)
    by (intros name l H; apply bool_decide_eq_true_1 in H; exact H).
  repeat (apply Forall_cons; split;
          [unfold wellReferenced; simpl;
           split; [first [intros _; apply Hcat, Hin; reflexivity
                         | intros H; discriminate H]|];
           split; [first [intros _; reflexivity
                         | intros H; exfalso; apply H; reflexivity]|];
           split; [first [intros _; apply Hsrc, Hin; reflexivity
                         | intros H; discriminate H]|];
           first [intros _; reflexivity
                 | intros H; exfalso; apply H; reflexivity]
          |]).
  apply Forall_nil_2.
Qed.

Lemma seedCategory_profileId (profileId : string) (gen : nat -> string)
  (table : list Template.t) :
  Forall (fun c => Category.profileId c = profileId)
         (imap (fun i cat => seedCategory profileId (gen i) cat) table).
Proof.
  revert gen. induction table as [|cat table IH]; intros gen;
    [apply Forall_nil_2|].
  simpl. apply Forall_cons. split; [reflexivity|].
  exact (IH (fun i => gen (S i))).
Qed.

Lemma seedIncomeSource_profileId (profileId : string) (gen : nat -> string)
  (table : list Template.t) :
  Forall (fun x => IncomeSource.profileId x = profileId)
         (imap (fun i src => seedIncomeSource profileId (gen i) src) table).
Proof.
  revert gen. induction table as [|src table IH]; intros gen;
    [apply Forall_nil_2|].
  simpl. apply Forall_cons. split; [reflexivity|].
  exact (IH (fun i => gen (S i))).
Qed.

Lemma filter_fresh_app {A : Type} (P : A -> Prop)
  `{!forall x, Decision (P x)} (old new : list A) :
  Forall (fun x => ~ P x) old -> Forall P new ->
  filter P (old ++ new) = new.
Proof.
  intros Hold Hnew. rewrite filter_app.
  rewrite (filter_none P old) by (apply Forall_forall; exact Hold).
  apply filter_all. apply Forall_forall. exact Hnew.
Qed.

(** X21. The first demo log-in stores unlinked samples.  When no user has
    the demo e-mail and the identifiers drawn are new (the one of the user
    owns no profile, the one of the profile is the profile of no category
    and of no source), the handler creates the demo profile and seeds it
    with a category for each category template and a source for each source
    template, but the ten transactions it stores for the profile refer to no
    category and to no source: the look-up reads the rendered snapshot, in
    which the profile has nothing yet. *)
Theorem first_demo_login_is_unlinked (appData : AppData) (uuid : string)
  (genProfile genTransactions : nat -> string) :
  Forall (fun u => User.email u <> Demo.DEMO_EMAIL) (users appData) ->
  Forall (fun p => Profile.userId p <> uuid) (profiles appData) ->
  Forall (fun c => Category.profileId c <> genProfile 0%nat)
         (categories appData) ->
  Forall (fun x => IncomeSource.profileId x <> genProfile 0%nat)
         (incomeSources appData) ->
  let s := snd (handleDemoLogin appData uuid genProfile genTransactions) in
  profiles s
  = profiles appData
    ++ [Profile.mk (genProfile 0%nat) "Demo Profile" "USD" uuid]
  /\ filter (fun c => Category.profileId c = genProfile 0%nat) (categories s)
     = imap (fun i cat =>
               seedCategory (genProfile 0%nat) (genProfile (1 + i)%nat) cat)
            DEFAULT_CATEGORIES
  /\ filter (fun x => IncomeSource.profileId x = genProfile 0%nat)
            (incomeSources s)
     = imap (fun i src =>
               seedIncomeSource (genProfile 0%nat)
                 (genProfile (1 + length DEFAULT_CATEGORIES + i)%nat) src)
            DEFAULT_INCOME_SOURCES
  /\ length (transactionsOf (genProfile 0%nat) s) = 10%nat
  /\ Forall unlinked (transactionsOf (genProfile 0%nat) s).
Proof.
  intros Huser Hprofile Hcats Hsrcs. cbv zeta.
  rewrite (first_login_shape appData uuid genProfile genTransactions
             Huser Hprofile).
  cbv zeta. unfold transactionsOf.
  cbn [snd profiles categories incomeSources transactions].
  split; [reflexivity|].
  split.
  { apply filter_fresh_app.
    - eapply Forall_impl; [exact Hcats|]. intros c Hc H. exact (Hc H).
    - exact (seedCategory_profileId (genProfile 0%nat)
               (fun i => genProfile (1 + i)%nat) DEFAULT_CATEGORIES). }
  split.
  { apply filter_fresh_app.
    - eapply Forall_impl; [exact Hsrcs|]. intros c Hc H. exact (Hc H).
    - exact (seedIncomeSource_profileId (genProfile 0%nat)
               (fun i => genProfile (1 + length DEFAULT_CATEGORIES + i)%nat)
               DEFAULT_INCOME_SOURCES). }
  pose proof (demoTransactions_own appData
                (Profile.mk (genProfile 0%nat) "Demo Profile" "USD" uuid)
                genTransactions) as Hown.
  cbn [Profile.id] in Hown. rewrite Hown. clear Hown.
  split; [reflexivity|].
  apply (Forall_stamp
           (fun _ d => TransactionData.categoryId d = None
                       /\ TransactionData.sourceId d = None)).
  apply sampleTransactions_unlinked; intros name.
  - rewrite (filter_none (fun c => Category.profileId c = genProfile 0%nat))
      by (apply Forall_forall; eapply Forall_impl; [exact Hcats|];
          intros c Hc H; exact (Hc H)).
    reflexivity.
  - rewrite (filter_none
               (fun x => IncomeSource.profileId x = genProfile 0%nat))
      by (apply Forall_forall; eapply Forall_impl; [exact Hsrcs|];
          intros c Hc H; exact (Hc H)).
    reflexivity.
Qed.

(** X22. The second demo log-in links the samples.  After a first demo
    log-in as above, a second one finds the demo user and the demo profile
    (it adds no user, profile, category or source) and replaces the ten
    transactions of the profile by ten new ones; when the template tables
    name the categories and the sources the samples look up, each of the
    new transactions refers to a category or a source of the demo profile,
    as its type asks. *)
Theorem second_demo_login_links (appData : AppData) (uuid uuid' : string)
  (genProfile genProfile' genTransactions genTransactions' : nat -> string) :
  Forall (fun u => User.email u <> Demo.DEMO_EMAIL) (users appData) ->
  Forall (fun p => Profile.userId p <> uuid) (profiles appData) ->
  provides DEFAULT_CATEGORIES sampleCategoryNames ->
  provides DEFAULT_INCOME_SOURCES sampleSourceNames ->
  let first := handleDemoLogin appData uuid genProfile genTransactions in
  let second :=
    handleDemoLogin (snd first) uuid' genProfile' genTransactions' in
  fst second = fst first
  /\ users (snd second) = users (snd first)
  /\ profiles (snd second) = profiles (snd first)
  /\ categories (snd second) = categories (snd first)
  /\ incomeSources (snd second) = incomeSources (snd first)
  /\ map Transaction.id (transactionsOf (genProfile 0%nat) (snd second))
     = map genTransactions' (seq 0 10)
  /\ Forall (linked (snd second))
            (transactionsOf (genProfile 0%nat) (snd second)).
Proof.
  intros Huser Hprofile Hcats Hsrcs. cbv zeta.
  rewrite (first_login_shape appData uuid genProfile genTransactions
             Huser Hprofile).
  cbv zeta. cbn [fst snd].
  set (newUser := User.mk uuid Demo.DEMO_EMAIL (simpleHash "demo") _).
  set (newProfile := Profile.mk (genProfile 0%nat) "Demo Profile" "USD" uuid).
  set (seededCategories := imap _ DEFAULT_CATEGORIES).
  set (seededSources := imap _ DEFAULT_INCOME_SOURCES).
  set (s1 := mkAppData _ _ _ _ _ _).
  assert (Hfu : list_find (fun u => User.email u = Demo.DEMO_EMAIL) (users s1)
                = Some (length (users appData), newUser)).
  { apply list_find_snoc_new; [|reflexivity].
    apply list_find_None. exact Huser. }
  assert (Hfp : list_find (fun p => Profile.name p = "Demo Profile"
                                    /\ Profile.userId p = User.id newUser)
                          (profiles s1)
                = Some (length (profiles appData), newProfile)).
  { apply list_find_snoc_new; [|split; reflexivity].
    apply list_find_None. eapply Forall_impl; [exact Hprofile|].
    intros p Hp [_ Howner]. exact (Hp Howner). }
  rewrite (returning_login_shape s1 newUser newProfile _ _ uuid' genProfile'
             genTransactions' Hfu Hfp).
  cbn [fst snd]. unfold transactionsOf, with_transactions.
  cbn [users profiles categories incomeSources transactions].
  do 5 (split; [reflexivity|]).
  pose proof (demoTransactions_own s1 newProfile genTransactions') as Hown.
  cbn [Profile.id newProfile] in Hown. rewrite Hown. clear Hown.
  split; [reflexivity|].
  pose (cats := fun pid : string =>
                  filter (fun c => Category.profileId c = pid) (categories s1)).
  pose (srcs := fun pid : string =>
                  filter (fun x => IncomeSource.profileId x = pid)
                         (incomeSources s1)).
  pose (Q := fun (pid : string) (d : TransactionData.t) =>
               wellReferenced (cats pid) (srcs pid) d).
  match goal with
  | |- Forall _ (imap _ ?l) =>
      assert (Hall : Forall (fun t => Q (NewTransaction.profileId t)
                                        (NewTransaction.data t)) l)
  end; [|exact (Forall_stamp Q _ genTransactions' Hall)].
  apply (sampleTransactions_linked (genProfile 0%nat) _ _ cats srcs);
    subst cats srcs; cbv beta.
  - intros name Hname. destruct (Hcats name Hname) as (tpl & Htpl & Heq).
    apply list_elem_of_lookup_1 in Htpl as [i Hi].
    assert (Hseeded : seedCategory (genProfile 0%nat)
                        (genProfile (1 + i)%nat) tpl
                      ∈ filter (fun c => Category.profileId c
                                         = genProfile 0%nat) (categories s1)).
    { apply list_elem_of_filter. split; [reflexivity|].
      apply elem_of_app. right.
      apply (list_elem_of_lookup_2 _ i). subst seededCategories.
      rewrite list_lookup_imap, Hi. reflexivity. }
    destruct (list_find_elem_of (fun c => Category.name c = name) _ _
                Hseeded Heq) as [[k c] Hfind].
    rewrite Hfind. exists c. split; [|reflexivity].
    apply list_find_Some in Hfind as (Hk & _).
    eapply list_elem_of_lookup_2. exact Hk.
  - intros name Hname. destruct (Hsrcs name Hname) as (tpl & Htpl & Heq).
    apply list_elem_of_lookup_1 in Htpl as [i Hi].
    assert (Hseeded : seedIncomeSource (genProfile 0%nat)
                        (genProfile (1 + length DEFAULT_CATEGORIES + i)%nat)
                        tpl
                      ∈ filter (fun x => IncomeSource.profileId x
                                         = genProfile 0%nat)
                               (incomeSources s1)).
    { apply list_elem_of_filter. split; [reflexivity|].
      apply elem_of_app. right.
      apply (list_elem_of_lookup_2 _ i). subst seededSources.
      rewrite list_lookup_imap, Hi. reflexivity. }
    destruct (list_find_elem_of (fun x => IncomeSource.name x = name) _ _
                Hseeded Heq) as [[k x] Hfind].
    rewrite Hfind. exists x. split; [|reflexivity].
    apply list_find_Some in Hfind as (Hk & _).
    eapply list_elem_of_lookup_2. exact Hk.
Qed.

End DemoLogin.

Lemma templatesNamed_provides (names : list string) :
  provides (templatesNamed names) names.
Proof.
  intros name Hname. exists (Template.mk name name (Some true)).
  split; [|reflexivity].
  unfold templatesNamed.
  change (map (fun name => Template.mk name name (Some true)) names)
    with ((fun name => Template.mk name name (Some true)) <$> names).
  apply list_elem_of_fmap. exists name. split; [reflexivity | exact Hname].
Qed.

Lemma first_demo_login_is_unlinked_witness :
  Forall unlinked
    (transactionsOf (Sample.draws 0%nat)
       (snd (Demo.handleDemoLogin
               (templatesNamed sampleCategoryNames)
               (templatesNamed sampleSourceNames) januaryDay
               Sample.store "u3" Sample.draws Sample.draws))).
Proof.
  refine (proj2 (proj2 (proj2 (proj2
            (first_demo_login_is_unlinked
               (templatesNamed sampleCategoryNames)
               (templatesNamed sampleSourceNames) januaryDay
               Sample.store "u3" Sample.draws Sample.draws _ _ _ _)))));
    repeat constructor; intros H; vm_compute in H; discriminate H.
Defined.

Lemma second_demo_login_links_witness :
  let first :=
    Demo.handleDemoLogin
      (templatesNamed sampleCategoryNames) (templatesNamed sampleSourceNames)
      januaryDay Sample.store "u3" Sample.draws Sample.draws in
  let second :=
    Demo.handleDemoLogin
      (templatesNamed sampleCategoryNames) (templatesNamed sampleSourceNames)
      januaryDay (snd first) "u4" Sample.draws
      (fun k => Sample.draws (100 + k)%nat) in
  Forall (linked (snd second))
         (transactionsOf (Sample.draws 0%nat) (snd second)).
Proof.
  refine (proj2 (proj2 (proj2 (proj2 (proj2 (proj2
            (second_demo_login_links
               (templatesNamed sampleCategoryNames)
               (templatesNamed sampleSourceNames) januaryDay
               Sample.store "u3" "u4" Sample.draws Sample.draws Sample.draws
               (fun k => Sample.draws (100 + k)%nat) _ _ _ _))))))).
  - repeat constructor; intros H; vm_compute in H; discriminate H.
  - repeat constructor; intros H; vm_compute in H; discriminate H.
  - apply templatesNamed_provides.
  - apply templatesNamed_provides.
Defined.

(** ** The active profile *)

Lemma userProfiles_signed_in (data : AppData) (st : App.State)
  (user : User.t) :
  App.currentUser st = Some user ->
  App.userProfiles data st
  = filter (fun p => Profile.userId p = User.id user) (profiles data).
Proof. intros Hu. unfold App.userProfiles. rewrite Hu. reflexivity. Qed.

Lemma filter_swap {A : Type} (P Q : A -> Prop)
  `{!forall x, Decision (P x)} `{!forall x, Decision (Q x)} (l : list A) :
  filter P (filter Q l) = filter Q (filter P l).
Proof.
  rewrite !list_filter_filter. apply list_filter_iff. intros x. tauto.
Qed.

(** X23. The effect that chooses the active profile.  For a signed-in user
    who has a profile, the effect leaves an active profile that is one of
    the user's; it changes nothing when the active profile already was one
    of them (and its identifier is not empty); and running it again changes
    nothing more. *)
Theorem chooseActiveProfile_selects_owned_profile (data : AppData)
  (st : App.State) (user : User.t) :
  App.currentUser st = Some user ->
  App.userProfiles data st <> [] ->
  let st' := App.chooseActiveProfile data st in
  activeIsOwned data st'
  /\ App.currentUser st' = Some user
  /\ (activeIsOwned data st -> App.unset (App.activeProfileId st) = false ->
      st' = st)
  /\ App.chooseActiveProfile data st' = st'.
Proof.
  intros Hu Hsome. cbv zeta.
  unfold activeIsOwned, App.chooseActiveProfile.
  rewrite !(userProfiles_signed_in data st user Hu) in *.
  rewrite Hu.
  set (ups := filter (fun p => Profile.userId p = User.id user)
                     (profiles data)) in *.
  destruct ups as [|first rest] eqn:Hups; [congruence|].
  rewrite <- Hups. clear Hsome.
  destruct (App.unset (App.activeProfileId st)
            || negb (bool_decide
                       (Exists (fun p => Some (Profile.id p)
                                         = App.activeProfileId st) ups)))
    eqn:Hfire.
  - cbv zeta.
    set (chosen := match snd <$> list_find _ ups with
                   | Some p => Profile.id p
                   | None => Profile.id first
                   end).
    assert (Hchosen : exists p, p ∈ ups /\ chosen = Profile.id p).
    { subst chosen.
      destruct (list_find (fun p => Profile.name p = "Demo Profile") ups)
        as [[i p]|] eqn:Hfind; simpl.
      - exists p. split; [|reflexivity].
        apply list_find_Some in Hfind as (Hi & _).
        eapply list_elem_of_lookup_2. exact Hi.
      - exists first. split; [|reflexivity].
        rewrite Hups. apply list_elem_of_here. }
    destruct Hchosen as (p & Hp & Hid).
    rewrite !(userProfiles_signed_in data
               (App.mkState (Some user) (Some chosen)) user eq_refl).
    fold ups. cbn [App.currentUser App.activeProfileId].
    split; [exists p; split; [exact Hp | rewrite Hid; reflexivity]|].
    split; [reflexivity|].
    split.
    + intros (q & Hq & Hactive) Hset. exfalso.
      rewrite Hset in Hfire. simpl in Hfire.
      apply negb_true_iff, bool_decide_eq_false_1 in Hfire. apply Hfire.
      apply Exists_exists. exists q. split; [exact Hq|].
      rewrite Hactive. reflexivity.
    + rewrite Hups at 1.
      destruct (App.unset (Some chosen) || _); reflexivity.
  - rewrite !(userProfiles_signed_in data st user Hu). fold ups.
    split.
    + apply orb_false_iff in Hfire as [_ Hex].
      apply negb_false_iff, bool_decide_eq_true_1 in Hex.
      apply Exists_exists in Hex as (p & Hp & Hactive).
      exists p. split; [exact Hp | rewrite Hactive; reflexivity].
    + split; [exact Hu|]. split; [reflexivity|].
      rewrite Hu. rewrite Hups at 1.
      rewrite Hfire. reflexivity.
Qed.

Lemma chooseActiveProfile_selects_owned_profile_witness :
  activeIsOwned Sample.store
    (App.chooseActiveProfile Sample.store (App.mkState (Some Sample.alice) None)).
Proof.
  refine (proj1 (chooseActiveProfile_selects_owned_profile Sample.store
                   (App.mkState (Some Sample.alice) None) Sample.alice _ _)).
  - reflexivity.
  - discriminate.
Defined.

(** X24. Deleting a profile from the shell.  For a signed-in user whose
    active profile is one of their own, [handleProfileDelete] leaves the
    user with the profiles of before whose identifier is not the deleted
    one; while one is left, the active profile is again one of the user's,
    without waiting for the effect; when none is left, the active profile
    stays the deleted one, of which the snapshot holds nothing, and the
    effect does not change it. *)
Theorem handleProfileDelete_keeps_active_owned (data : AppData)
  (st : App.State) (user : User.t) (id : string) :
  App.currentUser st = Some user ->
  activeIsOwned data st ->
  let st' := fst (App.handleProfileDelete data data st id) in
  let data' := snd (App.handleProfileDelete data data st id) in
  App.userProfiles data' st'
  = filter (fun p => Profile.id p <> id) (App.userProfiles data st)
  /\ (App.userProfiles data' st' <> [] -> activeIsOwned data' st')
  /\ (App.userProfiles data' st' = [] ->
      App.activeProfileId st' = Some id
      /\ App.chooseActiveProfile data' st' = st'
      /\ getProfileData data' id = ([], [], [], None)).
Proof.
  intros Hu (p & Hp & Hactive). cbv zeta.
  unfold App.handleProfileDelete. cbv zeta. cbn [fst snd].
  set (remaining := filter (fun p => Profile.id p <> id)
                           (App.userProfiles data st)).
  set (st' := if decide (Some id = App.activeProfileId st) then _ else st).
  assert (Hu' : App.currentUser st' = Some user).
  { subst st'. destruct (decide (Some id = App.activeProfileId st));
      [destruct remaining|]; exact Hu. }
  assert (Hups : App.userProfiles (deleteProfile data id) st' = remaining).
  { rewrite (userProfiles_signed_in _ st' user Hu'). subst remaining.
    rewrite (userProfiles_signed_in data st user Hu).
    unfold deleteProfile. cbn [profiles]. apply filter_swap. }
  rewrite Hups. split; [reflexivity|].
  unfold activeIsOwned. rewrite Hups. split.
  - intros Hsome. subst st'.
    destruct (decide (Some id = App.activeProfileId st)) as [Heq|Hne].
    + destruct remaining as [|first rest] eqn:Hrem; [congruence|].
      exists first. split; [apply list_elem_of_here | reflexivity].
    + exists p. split; [|exact Hactive].
      apply list_elem_of_filter. split; [|exact Hp].
      intros Hid. apply Hne. rewrite Hactive, Hid. reflexivity.
  - intros Hnone.
    assert (Hid : Profile.id p = id).
    { destruct (decide (Profile.id p = id)) as [Hid|Hid]; [exact Hid|].
      exfalso. assert (Hin : p ∈ remaining)
        by (apply list_elem_of_filter; split; [exact Hid | exact Hp]).
      rewrite Hnone in Hin. apply elem_of_nil in Hin. exact Hin. }
    assert (Hst : st' = st).
    { subst st'. rewrite Hnone.
      destruct (decide (Some id = App.activeProfileId st)); reflexivity. }
    split; [rewrite Hst, Hactive, Hid; reflexivity|].
    split; [|apply deleteProfile_own_projection].
    unfold App.chooseActiveProfile. rewrite Hups, Hnone, Hu'. reflexivity.
Qed.

Lemma handleProfileDelete_keeps_active_owned_witness :
  App.activeProfileId
    (fst (App.handleProfileDelete Sample.store Sample.store
            (App.mkState (Some Sample.alice) (Some "p1")) "p1"))
  = Some "p1".
Proof.
  refine (proj1 (proj2 (proj2
            (handleProfileDelete_keeps_active_owned Sample.store
               (App.mkState (Some Sample.alice) (Some "p1")) Sample.alice
               "p1" eq_refl _)) _)).
  - exists Sample.personal. split; [apply list_elem_of_here | reflexivity].
  - reflexivity.
Defined.

(** ** The transaction form *)

Lemma hd_split_charFree (sep : ascii) (s : string) :
  charFree sep (hd "" (JS.split sep s)).
Proof.
  induction s as [|c r IH]; simpl.
  - unfold charFree. simpl. apply not_elem_of_nil.
  - destruct (decide (c = sep)) as [Hc|Hc]; simpl.
    + unfold charFree. simpl. apply not_elem_of_nil.
    + destruct (JS.split sep r) as [|h t]; simpl in *.
      * apply charFree_cons. split; [exact Hc | exact IH].
      * apply charFree_cons. split; [exact Hc | exact IH].
Qed.

Lemma hd_split_hd_split (sep : ascii) (s : string) :
  hd "" (JS.split sep (hd "" (JS.split sep s))) = hd "" (JS.split sep s).
Proof. rewrite (split_charFree _ _ (hd_split_charFree sep s)). reflexivity. Qed.

Lemma orElse_nonempty (x y : string) :
  x <> "" -> TransactionForm.orElse x y = x.
Proof. intros H. unfold TransactionForm.orElse. apply decide_False. exact H. Qed.

Lemma orElse_empty (x : string) : TransactionForm.orElse x "" = x.
Proof. unfold TransactionForm.orElse. case_decide; congruence. Qed.

(** What the form submits for a transaction opened and saved as is. *)
Lemma edited_fill (profileId today : string) (t : Transaction.t) :
  Transaction.type t <> "" ->
  Transaction.paymentMethod t <> "" ->
  datePart t <> "" ->
  JS.parseFloat (Some (JS.numberToString (Transaction.amount t)))
  = Transaction.amount t ->
  edited profileId (TransactionForm.fill (Some t) today) t
  = Transaction.mk (Transaction.id t) profileId
      (TransactionData.mk (Transaction.type t) (Transaction.amount t)
         (Transaction.description t) (datePart t)
         (if decide (Transaction.type t = TransactionType.EXPENSE)
          then Some (default "" (Transaction.categoryId t))
          else Transaction.categoryId t)
         (if decide (Transaction.type t = TransactionType.INCOME)
          then Some (default "" (Transaction.sourceId t))
          else Transaction.sourceId t)
         (Transaction.paymentMethod t)
         (Some (default []
                  (TransactionData.attachments (Transaction.data t))))).
Proof.
  intros Htype Hpm Hday Hamount.
  assert (Hdate : Transaction.date t <> "").
  { intros Hd. apply Hday. unfold datePart. rewrite Hd. reflexivity. }
  unfold edited, TransactionForm.handleSubmit, TransactionForm.fill.
  cbv zeta.
  cbn [TransactionForm.type TransactionForm.amount
       TransactionForm.description TransactionForm.date
       TransactionForm.categoryId TransactionForm.sourceId
       TransactionForm.paymentMethod TransactionForm.attachments].
  rewrite !orElse_empty, !(orElse_nonempty _ _ Htype),
    (orElse_nonempty _ _ Hpm), Hamount.
  rewrite (decide_False (P := Transaction.date t = "")) by exact Hdate.
  unfold datePart.
  destruct (decide (Transaction.type t = TransactionType.EXPENSE));
    destruct (decide (Transaction.type t = TransactionType.INCOME));
    first [rewrite bool_decide_eq_true_2 by assumption
          | rewrite bool_decide_eq_false_2 by assumption];
    first [rewrite bool_decide_eq_true_2 by assumption
          | rewrite bool_decide_eq_false_2 by assumption];
    reflexivity.
Qed.

(** X25. Saving a transaction from the edit form without touching a field.
    For a transaction with a type, a payment method, a date that does not
    start with T and an amount that [parseFloat] reads back from its text,
    the transaction submitted has the identifier, type, amount, description
    and payment method of the stored one; its date is cut down to the
    calendar day; the reference of its type is the stored one, the empty
    text when there was none, and the other reference is untouched;
    attachments that were missing become an empty list.  Opening and saving
    the result once more changes nothing. *)
Theorem edit_without_change_normalises (profileId today : string)
  (t : Transaction.t) :
  Transaction.type t <> "" ->
  Transaction.paymentMethod t <> "" ->
  datePart t <> "" ->
  JS.parseFloat (Some (JS.numberToString (Transaction.amount t)))
  = Transaction.amount t ->
  let saved := edited profileId (TransactionForm.fill (Some t) today) t in
  Transaction.id saved = Transaction.id t
  /\ Transaction.profileId saved = profileId
  /\ Transaction.type saved = Transaction.type t
  /\ Transaction.amount saved = Transaction.amount t
  /\ Transaction.description saved = Transaction.description t
  /\ Transaction.paymentMethod saved = Transaction.paymentMethod t
  /\ Transaction.date saved = datePart t
  /\ Transaction.categoryId saved
     = (if decide (Transaction.type t = TransactionType.EXPENSE)
        then Some (default "" (Transaction.categoryId t))
        else Transaction.categoryId t)
  /\ Transaction.sourceId saved
     = (if decide (Transaction.type t = TransactionType.INCOME)
        then Some (default "" (Transaction.sourceId t))
        else Transaction.sourceId t)
  /\ TransactionData.attachments (Transaction.data saved)
     = Some (default [] (TransactionData.attachments (Transaction.data t)))
  /\ edited profileId (TransactionForm.fill (Some saved) today) saved = saved.
Proof.
  intros Htype Hpm Hday Hamount. cbv zeta.
  rewrite (edited_fill profileId today t Htype Hpm Hday Hamount).
  do 10 (split; [reflexivity|]).
  set (saved := Transaction.mk _ _ _).
  assert (Hday' : datePart saved = datePart t)
    by (unfold datePart at 1; apply hd_split_hd_split).
  rewrite (edited_fill profileId today saved Htype Hpm).
  - rewrite Hday'. subst saved.
    unfold Transaction.type, Transaction.categoryId, Transaction.sourceId,
      Transaction.amount, Transaction.description, Transaction.paymentMethod.
    cbn [Transaction.data Transaction.id TransactionData.type
         TransactionData.amount TransactionData.description
         TransactionData.categoryId TransactionData.sourceId
         TransactionData.paymentMethod TransactionData.attachments].
    destruct (decide (TransactionData.type (Transaction.data t)
                      = TransactionType.EXPENSE));
      destruct (decide (TransactionData.type (Transaction.data t)
                        = TransactionType.INCOME));
      reflexivity.
  - rewrite Hday'. exact Hday.
  - exact Hamount.
Qed.

Lemma edit_without_change_normalises_witness :
  Transaction.date
    (edited "p1" (TransactionForm.fill (Some Sample.snack) "2024-02-01")
            Sample.snack)
  = "2024-01-05".
Proof.
  refine (proj1 (proj2 (proj2 (proj2 (proj2 (proj2 (proj2
            (edit_without_change_normalises "p1" "2024-02-01" Sample.snack
               _ _ _ _))))))));
    first [discriminate | vm_compute; reflexivity | vm_compute; discriminate].
Defined.

Lemma linked_frame (a b : AppData) (t : Transaction.t) :
  categories a = categories b -> incomeSources a = incomeSources b ->
  linked a t <-> linked b t.
Proof. intros Hc Hs. unfold linked. rewrite Hc, Hs. reflexivity. Qed.

(** The transaction an edit submits is linked exactly when the type was
    kept. *)
Lemma edited_linked_iff (s : AppData) (profileId : string)
  (st : TransactionForm.State) (t : Transaction.t) :
  linked s t ->
  Transaction.type t = TransactionType.EXPENSE
  \/ Transaction.type t = TransactionType.INCOME ->
  TransactionForm.type st = TransactionType.EXPENSE
  \/ TransactionForm.type st = TransactionType.INCOME ->
  choiceIsOwned s profileId st ->
  linked s (edited profileId st t)
  <-> TransactionForm.type st = Transaction.type t.
Proof.
  intros (Hcat & Hnocat & Hsrc & Hnosrc) Ht Hst [Hchoice1 Hchoice2].
  unfold edited, TransactionForm.handleSubmit. cbv zeta.
  unfold linked, wellReferenced.
  cbn [Transaction.profileId Transaction.data TransactionData.type
       TransactionData.categoryId TransactionData.sourceId].
  unfold Transaction.type, Transaction.categoryId, Transaction.sourceId in *.
  unfold TransactionType.EXPENSE, TransactionType.INCOME in *.
  destruct Hst as [Hst|Hst]; rewrite Hst;
    rewrite ?bool_decide_eq_true_2 by reflexivity;
    rewrite ?bool_decide_eq_false_2 by discriminate;
    destruct Ht as [Ht|Ht].
  - (* expense kept *)
    split; [intros _; symmetry; exact Ht|]. intros _.
    destruct (Hchoice1 Hst) as (c & Hc & Hpid & Hid).
    split; [intros _; exists c; split;
            [apply list_elem_of_filter; split; assumption
            | rewrite Hid; reflexivity]|].
    split; [intros H; exfalso; apply H; reflexivity|].
    split; [intros H; discriminate H|].
    intros _. apply Hnosrc. rewrite Ht. discriminate.
  - (* income turned into expense *)
    split; [|intros H; rewrite Ht in H; discriminate H].
    intros (_ & _ & _ & Hno). exfalso.
    destruct (Hsrc Ht) as (x & _ & Hx).
    rewrite Hx in Hno. specialize (Hno ltac:(discriminate)). discriminate Hno.
  - (* expense turned into income *)
    split; [|intros H; rewrite Ht in H; discriminate H].
    intros (_ & Hno & _ & _). exfalso.
    destruct (Hcat Ht) as (c & _ & Hc).
    rewrite Hc in Hno. specialize (Hno ltac:(discriminate)). discriminate Hno.
  - (* income kept *)
    split; [intros _; symmetry; exact Ht|]. intros _.
    destruct (Hchoice2 Hst) as (x & Hx & Hpid & Hid).
    split; [intros H; discriminate H|].
    split; [intros _; apply Hnocat; rewrite Ht; discriminate|].
    split; [intros _; exists x; split;
            [apply list_elem_of_filter; split; assumption
            | rewrite Hid; reflexivity]|].
    intros H; exfalso; apply H; reflexivity.
Qed.

(** X26. Saving from the form and the links of the store.  In a store all
    of whose transactions are linked, with a form that holds a category of
    the profile for an expense or a source of the profile for an income:
    adding the transaction of the form keeps every transaction linked; an
    edit of a stored expense or income keeps every transaction linked
    exactly when the form has the type of the edited transaction, since an
    edit that turns an expense into an income, or back, keeps the reference
    of the old type. *)
Theorem form_submit_and_links (s : AppData) (profileId uuid : string)
  (st : TransactionForm.State) (t : Transaction.t) :
  Forall (linked s) (transactions s) ->
  TransactionForm.type st = TransactionType.EXPENSE
  \/ TransactionForm.type st = TransactionType.INCOME ->
  choiceIsOwned s profileId st ->
  let added :=
    Transactions_handleSubmit s profileId
      (TransactionForm.handleSubmit profileId st None) uuid in
  let updated :=
    Transactions_handleSubmit s profileId
      (TransactionForm.handleSubmit profileId st (Some t)) uuid in
  Forall (linked added) (transactions added)
  /\ (t ∈ transactions s ->
      Transaction.type t = TransactionType.EXPENSE
      \/ Transaction.type t = TransactionType.INCOME ->
      (Forall (linked updated) (transactions updated)
       <-> TransactionForm.type st = Transaction.type t)).
Proof.
  intros Hall Hst Hchoice. cbv zeta. split.
  - unfold Transactions_handleSubmit, TransactionForm.handleSubmit,
      addTransaction. cbv zeta. cbn [NewTransaction.data].
    unfold with_transactions. cbn [transactions].
    apply Forall_app. split.
    + eapply Forall_impl; [exact Hall|]. intros x Hx.
      eapply linked_frame; [| |exact Hx]; reflexivity.
    + apply Forall_cons. split; [|apply Forall_nil_2].
      destruct Hchoice as [Hchoice1 Hchoice2].
      unfold linked, wellReferenced.
      cbn [Transaction.profileId Transaction.data TransactionData.type
           TransactionData.categoryId TransactionData.sourceId
           categories incomeSources NewTransaction.profileId].
      unfold TransactionType.EXPENSE, TransactionType.INCOME in *.
      destruct Hst as [Hst|Hst]; rewrite Hst;
        rewrite ?bool_decide_eq_true_2 by reflexivity;
        rewrite ?bool_decide_eq_false_2 by discriminate.
      * destruct (Hchoice1 Hst) as (c & Hc & Hpid & Hid).
        split; [intros _; exists c; split;
                [apply list_elem_of_filter; split; assumption
                | rewrite Hid; reflexivity]|].
        split; [intros H; exfalso; apply H; reflexivity|].
        split; [intros H; discriminate H|]. intros _. reflexivity.
      * destruct (Hchoice2 Hst) as (x & Hx & Hpid & Hid).
        split; [intros H; discriminate H|].
        split; [intros _; reflexivity|].
        split; [intros _; exists x; split;
                [apply list_elem_of_filter; split; assumption
                | rewrite Hid; reflexivity]|].
        intros H; exfalso; apply H; reflexivity.
  - intros Hin Ht.
    assert (Ht0 : linked s t)
      by (rewrite Forall_forall in Hall; apply Hall; exact Hin).
    rewrite <- (edited_linked_iff s profileId st t Ht0 Ht Hst Hchoice).
    unfold Transactions_handleSubmit, edited.
    unfold TransactionForm.handleSubmit at 1 3. cbv zeta.
    set (t' := Transaction.mk (Transaction.id t) profileId _).
    unfold updateTransaction, with_transactions. cbn [transactions].
    change (map ?f ?l) with (fmap (M := list) f l).
    split.
    + intros Hupd. rewrite Forall_forall in Hupd.
      eapply (linked_frame _ s); [| |apply Hupd]; [reflexivity..|].
      apply list_elem_of_fmap. exists t. split; [|exact Hin].
      rewrite decide_True by reflexivity. reflexivity.
    + intros Hlinked. apply Forall_fmap.
      eapply Forall_impl; [exact Hall|]. intros x Hx. simpl.
      case_decide.
      * eapply linked_frame; [| |exact Hlinked]; reflexivity.
      * eapply linked_frame; [| |exact Hx]; reflexivity.
Qed.

Lemma form_submit_and_links_witness :
  let st :=
    TransactionForm.mkState "income" "100" "Pay" "2024-01-06" "" "p1-s1"
                            "bank" [] in
  ~ Forall (linked Sample.storeWithoutComma)
      (transactions
         (Transactions_handleSubmit Sample.storeWithoutComma "p1"
            (TransactionForm.handleSubmit "p1" st (Some Sample.snack)) "t9")).
Proof.
  intros st Hall.
  assert (Hstore : Forall (linked Sample.storeWithoutComma)
                          (transactions Sample.storeWithoutComma)).
  { apply Forall_cons. split; [|apply Forall_nil_2].
    split; [intros _; exists Sample.food; split;
            [apply list_elem_of_here | reflexivity]|].
    split; [intros H; exfalso; apply H; reflexivity|].
    split; [intros H; discriminate H|]. intros _. reflexivity. }
  assert (Hchoice : choiceIsOwned Sample.storeWithoutComma "p1" st).
  { split; [intros H; discriminate H|]. intros _.
    exists Sample.salary.
    split; [apply list_elem_of_here|]. split; reflexivity. }
  pose proof (proj2 (form_submit_and_links Sample.storeWithoutComma "p1" "t9"
                       st Sample.snack Hstore (or_intror eq_refl) Hchoice)
                    (list_elem_of_here _ _) (or_introl eq_refl)) as Hiff.
  apply Hiff in Hall. discriminate Hall.
Defined.

(** X27. A suggestion stays within the categories offered.  Whatever the
    model answers, and whether or not the request fails, the suggestion
    changes no field of the form but the category, and the category it
    leaves is the one of before or the identifier, not empty, of a category
    of the profile whose name is the trimmed answer up to the case of the
    letters; a form whose choice was one of the profile stays so. *)
Theorem suggestion_stays_within_offered (s : AppData) (profileId : string)
  (response : option string) (st : TransactionForm.State) :
  let offered :=
    filter (fun c => Category.profileId c = profileId) (categories s) in
  let st' := TransactionForm.handleSuggestCategory response offered st in
  (st' = st
   \/ exists (c : Category.t) (text : string),
        c ∈ offered /\ response = Some text
        /\ JS.toLowerCase (Category.name c) = JS.toLowerCase (JS.trim text)
        /\ Category.id c <> ""
        /\ st' = TransactionForm.mkState
                   (TransactionForm.type st) (TransactionForm.amount st)
                   (TransactionForm.description st) (TransactionForm.date st)
                   (Category.id c) (TransactionForm.sourceId st)
                   (TransactionForm.paymentMethod st)
                   (TransactionForm.attachments st))
  /\ (choiceIsOwned s profileId st -> choiceIsOwned s profileId st').
Proof.
  cbv zeta.
  set (offered := filter (fun c => Category.profileId c = profileId)
                         (categories s)).
  assert (Hcases :
            TransactionForm.handleSuggestCategory response offered st = st
            \/ exists (c : Category.t) (text : string),
                 c ∈ offered /\ response = Some text
                 /\ JS.toLowerCase (Category.name c)
                    = JS.toLowerCase (JS.trim text)
                 /\ Category.id c <> ""
                 /\ TransactionForm.handleSuggestCategory response offered st
                    = TransactionForm.mkState
                        (TransactionForm.type st) (TransactionForm.amount st)
                        (TransactionForm.description st)
                        (TransactionForm.date st)
                        (Category.id c) (TransactionForm.sourceId st)
                        (TransactionForm.paymentMethod st)
                        (TransactionForm.attachments st)).
  { unfold TransactionForm.handleSuggestCategory, suggestCategory.
    cbv zeta.
    destruct (decide (TransactionForm.description st = "")); [left; reflexivity|].
    destruct response as [text|]; [|left; reflexivity].
    destruct (list_find
                (fun c => JS.toLowerCase (Category.name c)
                          = JS.toLowerCase (JS.trim text)) offered)
      as [[i c]|] eqn:Hfind; [|left; reflexivity].
    simpl.
    destruct (decide (Category.id c = "")) as [He|Hne]; [left; reflexivity|].
    right. exists c, text.
    apply list_find_Some in Hfind as (Hi & Hname & _).
    split; [eapply list_elem_of_lookup_2; exact Hi|].
    split; [reflexivity|]. split; [exact Hname|].
    split; [exact Hne | reflexivity]. }
  split; [exact Hcases|].
  intros [Hchoice1 Hchoice2].
  destruct Hcases as [->|(c & text & Hc & _ & _ & _ & ->)];
    [split; assumption|].
  apply list_elem_of_filter in Hc as [Hpid Hc].
  split; [|exact Hchoice2].
  intros _. exists c. split; [exact Hc|]. split; [exact Hpid|reflexivity].
Qed.

(** ** Deleting a category in use *)

Lemma toLowerCase_empty (s : string) : JS.toLowerCase s = "" -> s = "".
Proof. destruct s; [reflexivity | discriminate]. Qed.

(** X28. Deleting a category that an expense refers to.  The delete button
    of [ItemManager] is there for every category of the profile that is not
    a default one, in use or not, and the store deletes the category alone.
    After the click the transactions are those of before, no category has
    the identifier the expense refers to, the expense is no longer linked,
    the export writes an empty category cell for it, and, when no cell of
    its line holds a comma and no category of the profile has an empty name,
    the import skips the line whatever [Date] does.  A default category has
    no button: the click changes nothing. *)
Theorem deleteCategory_in_use_breaks_export (data : AppData)
  (profileId : string) (item : Category.t) (t : Transaction.t) :
  let data' := ItemManager_deleteCategory data profileId item in
  let cats' :=
    filter (fun c => Category.profileId c = profileId) (categories data') in
  let srcs' :=
    filter (fun x => IncomeSource.profileId x = profileId)
           (incomeSources data') in
  item ∈ categories data ->
  Category.profileId item = profileId ->
  t ∈ transactions data ->
  Transaction.profileId t = profileId ->
  Transaction.type t = TransactionType.EXPENSE ->
  Transaction.categoryId t = Some (Category.id item) ->
  (Category.isDefault item = Some true -> data' = data)
  /\ (Category.isDefault item <> Some true ->
      transactions data' = transactions data
      /\ Forall (fun c => Category.id c <> Category.id item) (categories data')
      /\ ~ linked data' t
      /\ Csv.categoryCell cats' t = ""
      /\ (Forall (charFree ",") (exportCells cats' srcs' t) ->
          Forall (fun c => Category.name c <> "") cats' ->
          forall D : string -> option string,
            Csv.processRow D cats' srcs' Csv.headers
                           (Csv.exportRow cats' srcs' t)
            = Csv.Skipped)).
Proof.
  intros data' cats' srcs' Hitem Hpid Ht Htpid Htype Href.
  split.
  { intros Hdefault. subst data'. unfold ItemManager_deleteCategory.
    cbv zeta. rewrite decide_False; [reflexivity|].
    intros [_ Hno]. exact (Hno Hdefault). }
  intros Hplain.
  assert (Hdata : data' = deleteCategory data (Category.id item)).
  { subst data'. unfold ItemManager_deleteCategory. cbv zeta.
    rewrite decide_True; [reflexivity|]. split; [|exact Hplain].
    apply list_elem_of_filter. split; [exact Hpid | exact Hitem]. }
  assert (Hgone : Forall (fun c => Category.id c <> Category.id item)
                         (categories data')).
  { rewrite Hdata. unfold deleteCategory, with_categories.
    cbn [categories]. apply Forall_forall. intros c Hc.
    apply list_elem_of_filter in Hc as [Hc _]. exact Hc. }
  assert (Hgone' : Forall (fun c => Category.id c <> Category.id item) cats').
  { subst cats'. apply Forall_forall. intros c Hc.
    apply list_elem_of_filter in Hc as [_ Hc].
    rewrite Forall_forall in Hgone. exact (Hgone c Hc). }
  assert (Hfind : list_find
                    (fun c => Some (Category.id c) = Transaction.categoryId t)
                    cats' = None).
  { apply list_find_None. eapply Forall_impl; [exact Hgone'|].
    intros c Hc Heq. rewrite Href in Heq. injection Heq as Heq.
    exact (Hc Heq). }
  assert (Hcell : Csv.categoryCell cats' t = "").
  { unfold Csv.categoryCell. rewrite Hfind. case_decide; reflexivity. }
  split; [rewrite Hdata; reflexivity|].
  split; [exact Hgone|].
  split.
  { intros (Hcat & _). destruct (Hcat Htype) as (c & Hc & Hid).
    apply list_elem_of_filter in Hc as [_ Hc].
    rewrite Forall_forall in Hgone. apply (Hgone c Hc).
    unfold Transaction.categoryId in Href. rewrite Href in Hid.
    injection Hid as Hid. symmetry. exact Hid. }
  split; [exact Hcell|].
  intros Hcomma Hnames D.
  apply processRow_skipped_iff. unfold Csv.passesChecks.
  change (Csv.exportRow cats' srcs' t)
    with (JS.join "," (exportCells cats' srcs' t)).
  unfold exportCells in *. rewrite split_join by exact Hcomma.
  rewrite Hcell.
  pose proof (rowObject_headers (hd "" (JS.split "T" (Transaction.date t)))
                (Csv.quoted (Transaction.description t))
                (JS.numberToString (Transaction.amount t))
                (Transaction.type t) (Transaction.paymentMethod t)
                "" (Csv.sourceCell srcs' t)) as Hrow.
  cbv zeta in Hrow. destruct Hrow as (_ & _ & _ & H3 & _ & H5 & _).
  cbv zeta. apply andb_false_iff. right.
  unfold Csv.resolves, Csv.rowType, Csv.findCategory.
  rewrite H3, H5, Htype.
  rewrite (bool_decide_eq_true_2
             (JS.toLowerCase (default "" (Some TransactionType.EXPENSE))
              = TransactionType.EXPENSE
              /\ snd <$> list_find
                   (fun c => Some (JS.toLowerCase (Category.name c))
                             = JS.toLowerCase <$> Some "") cats' = None)).
  - reflexivity.
  - split; [reflexivity|].
    rewrite (proj2 (list_find_None _ cats')); [reflexivity|].
    eapply Forall_impl; [exact Hnames|].
    intros c Hc Heq. apply Hc. apply toLowerCase_empty.
    injection Heq as Heq. exact Heq.
Qed.

Lemma deleteCategory_in_use_breaks_export_witness :
  let extra := Category.mk "c9" "Treats" "Gift" None "p1" in
  let data :=
    mkAppData [Sample.alice] [Sample.personal]
      [Transaction.mk "t3" "p1"
         (TransactionData.mk "expense" (JS.Dec false 4 0) "Cake"
            "2024-01-09T00:00:00.000Z" (Some "c9") None "cash" None)]
      [Sample.food; extra] [Sample.salary] [Sample.usd] in
  transactions (ItemManager_deleteCategory data "p1" extra)
  = transactions data.
Proof.
  intros extra data.
  refine (proj1 (proj2
            (deleteCategory_in_use_breaks_export data "p1" extra
               (Transaction.mk "t3" "p1"
                  (TransactionData.mk "expense" (JS.Dec false 4 0) "Cake"
                     "2024-01-09T00:00:00.000Z" (Some "c9") None "cash" None))
               _ _ _ _ _ _) _)).
  - apply list_elem_of_further, list_elem_of_here.
  - reflexivity.
  - apply list_elem_of_here.
  - reflexivity.
  - reflexivity.
  - reflexivity.
  - discriminate.
Defined.
